(** * Povy sandbox backend: the account-balance and transaction-ledger core

    A shallow embedding of [src/backend/server.js] (an Express application
    over two Mongoose models, [Account] and [Transaction]) and the
    properties of its balance mutations and ledger writes.

    - JavaScript numbers are IEEE 754 binary64 values: Rocq's primitive
      [float], whose operations are the processor's.
    - JavaScript strings are sequences of UTF-16 code units: [list N].
    - A request field is a JSON scalar or is absent ([VUndefined]).
    - The two collections are lists in insertion order; a document is
      identified by its position.  A store operation may throw, which the
      [Faults] of a call decide.
    - An [async] handler is a function from the world before the request to
      the response and the world after it.  Handlers in flight interleave
      at their [await]s: [payment_step] is the code of a payment between
      two of them.
    - A route that lists documents answers with them in the order the
      store's sort gives; of that order only that it permutes the matching
      documents is used. *)

From Stdlib Require Import String Ascii ZArith NArith List Bool Lia Floats.
From Stdlib Require DecimalFacts DecimalPos DecimalN Permutation.
Import ListNotations.

Local Open Scope list_scope.
Set Warnings "-register-all".

(** ** JavaScript strings *)

Definition jsstring := list N.

(** An ASCII literal of the source, as code units. *)
Definition lit (s : string) : jsstring :=
  map N_of_ascii (list_ascii_of_string s).

Fixpoint streqb (a b : jsstring) : bool :=
  match a, b with
  | [], [] => true
  | x :: a', y :: b' => N.eqb x y && streqb a' b'
  | _, _ => false
  end.

(** The class [\s] of a regular expression: WhiteSpace and LineTerminator. *)
Definition is_whitespace (c : N) : bool :=
  ((9 <=? c) && (c <=? 13) || (c =? 32) || (c =? 160) || (c =? 5760)
   || (8192 <=? c) && (c <=? 8202) || (c =? 8232) || (c =? 8233)
   || (c =? 8239) || (c =? 8287) || (c =? 12288) || (c =? 65279))%N.

(** [s.replace(/\s+/g, '')]: scanning from the left, every run matched by
    [\s+] is replaced by the empty string and every other code unit is
    copied. *)
Fixpoint replace_whitespace_runs (s : jsstring) : jsstring :=
  match s with
  | [] => []
  | c :: rest =>
      if is_whitespace c then replace_whitespace_runs rest
      else c :: replace_whitespace_runs rest
  end.

(** [s.slice(0, n)] for [n >= 0]. *)
Definition slice_to (n : nat) (s : jsstring) : jsstring := firstn n s.

(** [s.slice(-n)] for [n > 0]: the last [n] code units, or all of [s] when
    it is shorter. *)
Definition slice_last (n : nat) (s : jsstring) : jsstring :=
  skipn (length s - n) s.

(** [s] without the whitespace it starts with. *)
Fixpoint trim_start (s : jsstring) : jsstring :=
  match s with
  | [] => []
  | c :: rest => if is_whitespace c then trim_start rest else s
  end.

(** [s.trim()] *)
Definition trim (s : jsstring) : jsstring :=
  rev (trim_start (rev (trim_start s))).

(** [s.padStart(n, c)] for a single code unit [c]. *)
Definition padStart (n : nat) (c : N) (s : jsstring) : jsstring :=
  repeat c (n - length s) ++ s.

(** [s.includes(x)] of an array of strings. *)
Definition includes (l : list jsstring) (x : jsstring) : bool :=
  existsb (streqb x) l.

(** Decimal digits of a natural number, as [String] renders an integer. *)
Fixpoint uint_digits (u : Decimal.uint) : jsstring :=
  match u with
  | Decimal.Nil => []
  | Decimal.D0 r => 48%N :: uint_digits r
  | Decimal.D1 r => 49%N :: uint_digits r
  | Decimal.D2 r => 50%N :: uint_digits r
  | Decimal.D3 r => 51%N :: uint_digits r
  | Decimal.D4 r => 52%N :: uint_digits r
  | Decimal.D5 r => 53%N :: uint_digits r
  | Decimal.D6 r => 54%N :: uint_digits r
  | Decimal.D7 r => 55%N :: uint_digits r
  | Decimal.D8 r => 56%N :: uint_digits r
  | Decimal.D9 r => 57%N :: uint_digits r
  end.

Definition decimal (n : N) : jsstring := uint_digits (N.to_uint n).

(** ** JavaScript numbers *)

Definition Number_isFinite (x : float) : bool :=
  negb (is_nan x || is_infinity x).

(** [x > y] *)
Definition gt (x y : float) : bool := (y <? x)%float.

(** [x >= y] *)
Definition ge (x y : float) : bool := (y <=? x)%float.

(** ** Request values *)

Inductive value :=
| VUndefined
| VNull
| VBool (b : bool)
| VNumber (n : float)
| VString (s : jsstring).

Definition truthy (v : value) : bool :=
  match v with
  | VUndefined | VNull => false
  | VBool b => b
  | VNumber n => negb ((n =? 0)%float || is_nan n)
  | VString s => match s with [] => false | _ => true end
  end.

Definition is_undefined (v : value) : bool :=
  match v with VUndefined => true | _ => false end.

Definition is_null (v : value) : bool :=
  match v with VNull => true | _ => false end.

(** [a || b] *)
Definition or_else (a b : value) : value := if truthy a then a else b.

(** ** Documents of the two collections *)

Module Card.
Record t := mk {
  cardNumber : jsstring;
  expMonth : jsstring;
  expYear : jsstring;
  cvv : jsstring
}.
End Card.

(** [accountSchema] *)
Module Account.
Record t := mk {
  accountNumber : jsstring;
  ownerName : jsstring;
  balance : float;
  currency : jsstring;
  card : Card.t
}.

(** [account.balance = b] *)
Definition set_balance (b : float) (a : t) : t :=
  mk (accountNumber a) (ownerName a) b (currency a) (card a).

(** [account.currency = c] *)
Definition set_currency (c : jsstring) (a : t) : t :=
  mk (accountNumber a) (ownerName a) (balance a) c (card a).
End Account.

Inductive tx_type := debit | credit.

Inductive tx_source := account_payment | card_payment | manual_topup.

(** [transactionSchema]; the fields a caller may supply are kept as the
    values handed to [Transaction.create]. *)
Module Transaction.
Record t := mk {
  accountNumber : jsstring;
  type : tx_type;
  amount : float;
  currency : value;
  description : value;
  source : tx_source;
  transactionId : option jsstring;
  balanceAfter : float;
  merchantName : value
}.
End Transaction.

(** ** The world of a request *)

(** What [console.error] received: an error object alone, or a message
    followed by the error object. *)
Inductive console_entry :=
| ErrorObject
| ErrorMessage (msg : jsstring).

Record World := mkWorld {
  accounts : list Account.t;
  transactions : list Transaction.t;
  console : list console_entry
}.

(** Which store operations of a call reject: [Account.findOne],
    [account.save], [Transaction.create], [Account.exists],
    [Account.create] and [Account.findOneAndDelete]. *)
Record Faults := mkFaults {
  findOne_throws : bool;
  save_throws : bool;
  create_throws : bool;
  exists_throws : bool;
  insert_throws : bool;
  delete_throws : bool
}.

Definition no_faults : Faults :=
  mkFaults false false false false false false.

(** The faults of a call, with the ledger's write failing or not. *)
Definition ledger_fails (b : bool) (flt : Faults) : Faults :=
  mkFaults (findOne_throws flt) (save_throws flt) b
           (exists_throws flt) (insert_throws flt) (delete_throws flt).

(** ** Awaited computations that may throw *)

Inductive completion (A : Type) :=
| Normal (a : A)
| Throw.

Arguments Normal {A} a.
Arguments Throw {A}.

Definition Async (A : Type) : Type := World -> completion A * World.

Definition ret {A} (a : A) : Async A := fun w => (Normal a, w).

Definition bind {A B} (m : Async A) (k : A -> Async B) : Async B :=
  fun w =>
    match m w with
    | (Normal a, w') => k a w'
    | (Throw, w') => (Throw, w')
    end.

(** [throw new Error(...)] *)
Definition throw {A} : Async A := fun w => (Throw, w).

(** A computation that cannot throw, awaited inside one that can. *)
Definition lift {A} (m : World -> A * World) : Async A :=
  fun w => let (a, w') := m w in (Normal a, w').

(** [try { body } catch (err) { handler }] *)
Definition try_catch {A} (body : Async A) (handler : World -> A * World)
  : World -> A * World :=
  fun w =>
    match body w with
    | (Normal a, w') => (a, w')
    | (Throw, w') => handler w'
    end.

Declare Scope async_scope.
Delimit Scope async_scope with async.
Notation "x <- m ;; k" := (bind m (fun x => k))
  (at level 100, m at next level, right associativity) : async_scope.
Notation "m ;; k" := (bind m (fun _ => k))
  (at level 100, right associativity) : async_scope.

Definition console_error (e : console_entry) : World -> unit * World :=
  fun w => (tt, mkWorld (accounts w) (transactions w) (console w ++ [e])).

(** ** The store *)

(** The first document a query matches, with its position. *)
Fixpoint find_from (i : nat) (p : Account.t -> bool) (l : list Account.t)
  : option (nat * Account.t) :=
  match l with
  | [] => None
  | a :: rest => if p a then Some (i, a) else find_from (S i) p rest
  end.

Fixpoint replace_at {A} (i : nat) (x : A) (l : list A) : list A :=
  match l, i with
  | [], _ => []
  | _ :: rest, O => x :: rest
  | y :: rest, S j => y :: replace_at j x rest
  end.

(** The query [{ accountNumber: n }] *)
Definition by_accountNumber (n : jsstring) (a : Account.t) : bool :=
  streqb (Account.accountNumber a) n.

(** The query [{ 'card.cardNumber': n }] *)
Definition by_cardNumber (n : jsstring) (a : Account.t) : bool :=
  streqb (Card.cardNumber (Account.card a)) n.

(** [Account.findOne(query)] *)
Definition Account_findOne (flt : Faults) (query : Account.t -> bool)
  : Async (option (nat * Account.t)) :=
  fun w =>
    if findOne_throws flt then (Throw, w)
    else (Normal (find_from 0 query (accounts w)), w).

(** [account.save()] of the document read at position [i]. *)
Definition Account_save (flt : Faults) (i : nat) (account : Account.t)
  : Async unit :=
  fun w =>
    if save_throws flt then (Throw, w)
    else (Normal tt,
          mkWorld (replace_at i account (accounts w)) (transactions w)
                  (console w)).

(** [Account.exists(query)] *)
Definition Account_exists (flt : Faults) (query : Account.t -> bool)
  : Async bool :=
  fun w =>
    if exists_throws flt then (Throw, w)
    else (Normal (existsb query (accounts w)), w).

(** [Account.create(account)] *)
Definition Account_create (flt : Faults) (account : Account.t) : Async unit :=
  fun w =>
    if insert_throws flt then (Throw, w)
    else (Normal tt,
          mkWorld (accounts w ++ [account]) (transactions w) (console w)).

(** The documents left when the first one a query matches is removed. *)
Fixpoint remove_first (p : Account.t -> bool) (l : list Account.t)
  : list Account.t :=
  match l with
  | [] => []
  | a :: rest => if p a then rest else a :: remove_first p rest
  end.

(** [Account.findOneAndDelete(query)] *)
Definition Account_findOneAndDelete (flt : Faults) (query : Account.t -> bool)
  : Async (option Account.t) :=
  fun w =>
    if delete_throws flt then (Throw, w)
    else (Normal (option_map snd (find_from 0 query (accounts w))),
          mkWorld (remove_first query (accounts w)) (transactions w)
                  (console w)).

(** [Transaction.create(entry)] *)
Definition Transaction_create (flt : Faults) (entry : Transaction.t)
  : Async unit :=
  fun w =>
    if create_throws flt then (Throw, w)
    else (Normal tt,
          mkWorld (accounts w) (transactions w ++ [entry]) (console w)).

(** ** Responses *)

Inductive json :=
| JValue (v : value)
| JObject (fields : list (string * json)).

Record Response := mkResponse {
  statusCode : N;
  payload : json
}.

Definition JString (s : jsstring) : json := JValue (VString s).

Definition JNumber (x : float) : json := JValue (VNumber x).

(** The value of a field of a JSON object. *)
Fixpoint field (key : string) (fields : list (string * json)) : option json :=
  match fields with
  | [] => None
  | (k, v) :: rest => if String.eqb k key then Some v else field key rest
  end.

Definition response_field (key : string) (r : Response) : option json :=
  match payload r with
  | JObject fields => field key fields
  | JValue _ => None
  end.

(** [account.toObject()], the fields of the schema. *)
Definition Account_toObject (a : Account.t) : json :=
  JObject
    [("accountNumber", JString (Account.accountNumber a));
     ("ownerName", JString (Account.ownerName a));
     ("balance", JNumber (Account.balance a));
     ("currency", JString (Account.currency a));
     ("card",
      JObject
        [("cardNumber", JString (Card.cardNumber (Account.card a)));
         ("expMonth", JString (Card.expMonth (Account.card a)));
         ("expYear", JString (Card.expYear (Account.card a)));
         ("cvv", JString (Card.cvv (Account.card a)))])]%string.

(** [res.status(code).json({ status: 'error', message })] *)
Definition error_response (code : N) (message : jsstring) : Response :=
  mkResponse code
    (JObject [("status", JString (lit "error"));
              ("message", JString message)]%string).

(** [res.status(code).json({ message })] *)
Definition message_response (code : N) (message : jsstring) : Response :=
  mkResponse code (JObject [("message"%string, JString message)]).

(** ** String constants of the source *)

Definition allowedCurrencies : list jsstring :=
  [lit "USD"; lit "MXN"; lit "JPY"].

(** The accented letters and the quotation mark of the messages, as code
    units. *)
Definition a_acute : N := 225.
Definition u_acute : N := 250.
Definition quote : N := 34.

Definition msg_missing_payment_data : jsstring :=
  lit "Faltan datos obligatorios: accountNumber y amount.".
Definition msg_account_not_found : jsstring := lit "Cuenta no encontrada.".
Definition msg_invalid_amount : jsstring :=
  lit "Monto inv" ++ a_acute :: lit "lido.".
Definition msg_approved : jsstring := lit "Pago aprobado.".
Definition msg_insufficient_funds : jsstring :=
  lit "Fondos insuficientes en la cuenta.".
Definition msg_payment_internal_error : jsstring :=
  lit "Error interno al procesar el pago.".
Definition msg_missing_card_data : jsstring :=
  lit "Faltan datos obligatorios para el pago con tarjeta.".
Definition msg_card_not_found : jsstring := lit "Tarjeta no encontrada.".
Definition msg_invalid_card_data : jsstring :=
  lit "Datos de tarjeta inv" ++ a_acute :: lit "lidos.".
Definition msg_card_internal_error : jsstring :=
  lit "Error interno al procesar el pago con tarjeta.".
Definition msg_unsupported_currency : jsstring :=
  lit "Moneda no soportada. Usa USD, MXN o JPY.".
Definition msg_balance_or_addBalance : jsstring :=
  lit "Usa " ++ quote :: lit "balance" ++ quote :: lit " (establecer) o "
  ++ quote :: lit "addBalance" ++ quote :: lit " (sumar), no ambos.".
Definition msg_invalid_balance : jsstring :=
  lit "Saldo inv" ++ a_acute :: lit "lido.".
Definition msg_invalid_topup : jsstring :=
  lit "Monto de recarga inv" ++ a_acute :: lit "lido.".
Definition msg_update_failed : jsstring :=
  lit "No se pudo actualizar la cuenta.".
Definition msg_create_failed : jsstring := lit "No se pudo crear la cuenta.".
Definition msg_deleted : jsstring := lit "Cuenta eliminada correctamente.".
Definition msg_delete_failed : jsstring :=
  lit "No se pudo eliminar la cuenta.".
Definition test_user : jsstring := lit "Usuario de prueba".
Definition msg_ledger_write_failed : jsstring :=
  lit "No se pudo registrar la transacci" ++ 243%N
  :: lit "n en el historial.".

Definition desc_account_payment_ledger : jsstring :=
  lit "Pago de prueba por n" ++ u_acute :: lit "mero de cuenta".
Definition desc_account_payment : jsstring := lit "Pago de prueba".
Definition desc_card_payment : jsstring := lit "Pago de prueba con tarjeta".
Definition desc_manual_topup : jsstring :=
  lit "Ajuste manual de saldo (recarga ficticia)".
Definition povy_test : jsstring := lit "Povy Test".

Definition approved : jsstring := lit "approved".
Definition declined : jsstring := lit "declined".

(** ** Request bodies

    [req.body || {}] destructured: a field the body does not carry is
    [VUndefined]. *)

Module PaymentBody.
Record t := mk {
  accountNumber : value;
  amount : value;
  currency : value;
  description : value;
  merchantName : value
}.
End PaymentBody.

Module CardPaymentBody.
Record t := mk {
  cardNumber : value;
  expMonth : value;
  expYear : value;
  cvv : value;
  amount : value;
  currency : value;
  description : value;
  merchantName : value
}.
End CardPaymentBody.

Module AccountBody.
Record t := mk {
  ownerName : value;
  currency : value;
  initialBalance : value
}.
End AccountBody.

Module PatchBody.
Record t := mk {
  currency : value;
  balance : value;
  addBalance : value
}.
End PatchBody.

(** ** Card issuing *)

(** [generateCardForAccount], given what its three [String(...)] calls on
    the random numbers and the clock returned: [random] for
    [String(Math.floor(1000000000 + Math.random() * 9000000000))],
    [expYearFull] for [String(new Date().getFullYear() + 3)] and [cvv] for
    [String(Math.floor(100 + Math.random() * 900))]. *)
Definition generateCardForAccount (random expYearFull cvv : jsstring) : Card.t :=
  let prefix := lit "411111" in
  let cardNumber := slice_to 16 (prefix ++ random) in
  let expMonth := lit "12" in
  let expYear := slice_last 2 expYearFull in
  Card.mk cardNumber expMonth expYear cvv.

(** ** The handlers *)

Section Server.

(** The conversions of the language between strings and numbers:
    [Number(s)] of a string and [String(x)] of a number. *)
Variable StringToNumber : jsstring -> float.
Variable NumberToString : float -> jsstring.

(** [Number(v)] *)
Definition ToNumber (v : value) : float :=
  match v with
  | VUndefined => nan
  | VNull => 0%float
  | VBool true => 1%float
  | VBool false => 0%float
  | VNumber n => n
  | VString s => StringToNumber s
  end.

(** [String(v)] *)
Definition ToString (v : value) : jsstring :=
  match v with
  | VUndefined => lit "undefined"
  | VNull => lit "null"
  | VBool true => lit "true"
  | VBool false => lit "false"
  | VNumber n => NumberToString n
  | VString s => s
  end.

(** [allowedCurrencies.includes(v)] *)
Definition currency_allowed (v : value) : bool :=
  match v with
  | VString s => includes allowedCurrencies s
  | _ => false
  end.

Local Open Scope async_scope.

(** [registerTransaction]: the write is attempted and a rejection is caught
    and logged. *)
Definition registerTransaction (flt : Faults) (entry : Transaction.t)
  : World -> unit * World :=
  try_catch
    (Transaction_create flt entry)
    (console_error (ErrorMessage msg_ledger_write_failed)).

(** [POST /api/payments]; [now] is what [Date.now()] returns. *)
Definition post_payments (flt : Faults) (now : N) (body : PaymentBody.t)
  : World -> Response * World :=
  let accountNumber := PaymentBody.accountNumber body in
  let amount := PaymentBody.amount body in
  let currency := PaymentBody.currency body in
  let description := PaymentBody.description body in
  let merchantName := PaymentBody.merchantName body in
  if negb (truthy accountNumber) || is_undefined amount || is_null amount then
    fun w => (error_response 400 msg_missing_payment_data, w)
  else
    try_catch
      (found <- Account_findOne flt
                  (by_accountNumber (ToString accountNumber));;
       match found with
       | None => ret (error_response 404 msg_account_not_found)
       | Some (i, account) =>
           let numericAmount := ToNumber amount in
           if negb (Number_isFinite numericAmount)
              || (numericAmount <=? 0)%float
           then ret (error_response 400 msg_invalid_amount)
           else
             let '(status, reason) :=
               if gt numericAmount (Account.balance account)
               then (declined, msg_insufficient_funds)
               else (approved, msg_approved) in
             account <-
               (if streqb status approved then
                  let account :=
                    Account.set_balance
                      (Account.balance account - numericAmount)%float account in
                  Account_save flt i account;; ret account
                else ret account);;
             let transactionId := lit "POVY-" ++ decimal now in
             lift (registerTransaction flt
                     (Transaction.mk
                        (Account.accountNumber account)
                        (if streqb status approved then debit else debit)
                        numericAmount
                        (or_else currency (VString (Account.currency account)))
                        (or_else description
                                 (VString desc_account_payment_ledger))
                        account_payment
                        (Some transactionId)
                        (Account.balance account)
                        (or_else merchantName (VString povy_test))));;
             ret (mkResponse 200
                    (JObject
                       [("status", JString status);
                        ("transactionId", JString transactionId);
                        ("message", JString reason);
                        ("amount", JNumber numericAmount);
                        ("currency",
                         JValue (or_else currency
                                   (VString (Account.currency account))));
                        ("description",
                         JValue (or_else description
                                   (VString desc_account_payment)));
                        ("accountNumber",
                         JString (Account.accountNumber account));
                        ("remainingBalance",
                         JNumber (Account.balance account))]%string))
       end)
      (fun w =>
         let (_, w) := console_error ErrorObject w in
         (error_response 500 msg_payment_internal_error, w)).

(** [POST /api/payments/card] *)
Definition post_payments_card (flt : Faults) (now : N)
  (body : CardPaymentBody.t)
  : World -> Response * World :=
  let cardNumber := CardPaymentBody.cardNumber body in
  let expMonth := CardPaymentBody.expMonth body in
  let expYear := CardPaymentBody.expYear body in
  let cvv := CardPaymentBody.cvv body in
  let amount := CardPaymentBody.amount body in
  let currency := CardPaymentBody.currency body in
  let description := CardPaymentBody.description body in
  let merchantName := CardPaymentBody.merchantName body in
  if negb (truthy cardNumber) || negb (truthy expMonth)
     || negb (truthy expYear) || negb (truthy cvv)
     || is_undefined amount || is_null amount
  then
    fun w => (error_response 400 msg_missing_card_data, w)
  else
    let cleanCardNumber := replace_whitespace_runs (ToString cardNumber) in
    try_catch
      (found <- Account_findOne flt (by_cardNumber cleanCardNumber);;
       match found with
       | None => ret (error_response 404 msg_card_not_found)
       | Some (i, account) =>
           if negb (streqb (Card.expMonth (Account.card account))
                           (ToString expMonth))
              || negb (streqb (Card.expYear (Account.card account))
                              (ToString expYear))
              || negb (streqb (Card.cvv (Account.card account))
                              (ToString cvv))
           then ret (error_response 400 msg_invalid_card_data)
           else
           let numericAmount := ToNumber amount in
           if negb (Number_isFinite numericAmount)
              || (numericAmount <=? 0)%float
           then ret (error_response 400 msg_invalid_amount)
           else
             let '(status, reason) :=
               if gt numericAmount (Account.balance account)
               then (declined, msg_insufficient_funds)
               else (approved, msg_approved) in
             account <-
               (if streqb status approved then
                  let account :=
                    Account.set_balance
                      (Account.balance account - numericAmount)%float account in
                  Account_save flt i account;; ret account
                else ret account);;
             let transactionId := lit "POVY-CARD-" ++ decimal now in
             lift (registerTransaction flt
                     (Transaction.mk
                        (Account.accountNumber account)
                        (if streqb status approved then debit else debit)
                        numericAmount
                        (or_else currency (VString (Account.currency account)))
                        (or_else description (VString desc_card_payment))
                        card_payment
                        (Some transactionId)
                        (Account.balance account)
                        (or_else merchantName (VString povy_test))));;
             ret (mkResponse 200
                    (JObject
                       [("status", JString status);
                        ("transactionId", JString transactionId);
                        ("message", JString reason);
                        ("amount", JNumber numericAmount);
                        ("currency",
                         JValue (or_else currency
                                   (VString (Account.currency account))));
                        ("description",
                         JValue (or_else description
                                   (VString desc_card_payment)));
                        ("accountNumber",
                         JString (Account.accountNumber account));
                        ("cardLast4",
                         JString (slice_last 4
                                    (Card.cardNumber (Account.card account))));
                        ("remainingBalance",
                         JNumber (Account.balance account))]%string))
       end)
      (fun w =>
         let (_, w) := console_error ErrorObject w in
         (error_response 500 msg_card_internal_error, w)).

(** [PATCH /api/accounts/:accountNumber]; the account number is the route
    parameter, a string. *)
Definition patch_account (flt : Faults) (accountNumber : jsstring)
  (body : PatchBody.t) : World -> Response * World :=
  let currency := PatchBody.currency body in
  let balance := PatchBody.balance body in
  let addBalance := PatchBody.addBalance body in
  try_catch
    (found <- Account_findOne flt (by_accountNumber accountNumber);;
     match found with
     | None => ret (message_response 404 msg_account_not_found)
     | Some (i, account) =>
         if truthy currency && negb (currency_allowed currency) then
           ret (message_response 400 msg_unsupported_currency)
         else
         let account :=
           if truthy currency
           then Account.set_currency (ToString currency) account
           else account in
         if negb (is_undefined balance) && negb (is_undefined addBalance) then
           ret (message_response 400 msg_balance_or_addBalance)
         else
         let numericBalance := ToNumber balance in
         if negb (is_undefined balance)
            && (negb (Number_isFinite numericBalance)
                || (numericBalance <? 0)%float)
         then ret (message_response 400 msg_invalid_balance)
         else
         let account :=
           if negb (is_undefined balance)
           then Account.set_balance numericBalance account
           else account in
         if negb (is_undefined addBalance) then
           let numericAdd := ToNumber addBalance in
           if negb (Number_isFinite numericAdd) then
             ret (message_response 400 msg_invalid_topup)
           else
             let account :=
               Account.set_balance
                 (Account.balance account + numericAdd)%float account in
             Account_save flt i account;;
             lift (registerTransaction flt
                     (Transaction.mk
                        (Account.accountNumber account)
                        (if ge numericAdd 0 then credit else debit)
                        (abs numericAdd)
                        (VString (Account.currency account))
                        (VString desc_manual_topup)
                        manual_topup
                        None
                        (Account.balance account)
                        (VString povy_test)));;
             ret (mkResponse 200 (Account_toObject account))
         else
           Account_save flt i account;;
           ret (mkResponse 200 (Account_toObject account))
     end)
    (fun w =>
       let (_, w) := console_error ErrorObject w in
       (message_response 500 msg_update_failed, w)).

(** [generateUniqueAccountNumber] from its [i]-th attempt, with [attempts]
    of them left; [draw i] is what the [i]-th
    [Math.floor(1 + Math.random() * 99999999)] returns. *)
Fixpoint generateUniqueAccountNumber_from (flt : Faults) (draw : nat -> N)
  (i attempts : nat) : Async jsstring :=
  match attempts with
  | O => throw
  | S attempts' =>
      let random := draw i in
      let accountNumber := lit "001-" ++ padStart 8 48 (decimal random) in
      taken <- Account_exists flt (by_accountNumber accountNumber);;
      if negb taken then ret accountNumber
      else generateUniqueAccountNumber_from flt draw (S i) attempts'
  end.

Definition generateUniqueAccountNumber (flt : Faults) (draw : nat -> N)
  : Async jsstring :=
  generateUniqueAccountNumber_from flt draw 0 10.

(** [POST /api/accounts]; [draw] feeds [generateUniqueAccountNumber] and
    [random], [expYearFull] and [cvv] feed [generateCardForAccount].  An
    [ownerName] that is truthy and not a string has no [trim]: the
    [TypeError] is thrown outside the [try], so the handler's promise
    rejects ([Throw]) before the handler has sent a response or called the
    store.  What the requester gets then is the framework's answer to a
    rejected handler, which this file does not model. *)
Definition post_accounts (flt : Faults) (draw : nat -> N)
  (random expYearFull cvv : jsstring) (body : AccountBody.t)
  : World -> completion Response * World :=
  let ownerName := AccountBody.ownerName body in
  let currency := AccountBody.currency body in
  let initialBalance := AccountBody.initialBalance body in
  let normalizedCurrency :=
    if currency_allowed currency then ToString currency else lit "USD" in
  let balance :=
    match initialBalance with
    | VNumber n => if ge n 0 then n else 10000%float
    | _ => 10000%float
    end in
  match
    match ownerName with
    | VString s =>
        Some (if truthy ownerName && truthy (VString (trim s))
              then trim s else test_user)
    | _ => if truthy ownerName then None else Some test_user
    end
  with
  | None => fun w => (Throw, w)
  | Some finalOwnerName =>
      fun w =>
        let (r, w') :=
          try_catch
            (accountNumber <- generateUniqueAccountNumber flt draw;;
             let card := generateCardForAccount random expYearFull cvv in
             let account :=
               Account.mk accountNumber finalOwnerName balance
                          normalizedCurrency card in
             Account_create flt account;;
             ret (mkResponse 201 (Account_toObject account)))
            (fun w =>
               let (_, w) := console_error ErrorObject w in
               (message_response 500 msg_create_failed, w))
            w in
        (Normal r, w')
  end.

(** [DELETE /api/accounts/:accountNumber] *)
Definition delete_account (flt : Faults) (accountNumber : jsstring)
  : World -> Response * World :=
  try_catch
    (deleted <- Account_findOneAndDelete flt (by_accountNumber accountNumber);;
     match deleted with
     | None => ret (message_response 404 msg_account_not_found)
     | Some deleted =>
         ret (mkResponse 200
                (JObject
                   [("message", JString msg_deleted);
                    ("accountNumber",
                     JString (Account.accountNumber deleted))]%string))
     end)
    (fun w =>
       let (_, w) := console_error ErrorObject w in
       (message_response 500 msg_delete_failed, w)).

(** ** Interleaved payments

    A handler runs without interruption from one [await] to the next.  A
    payment by account number that is in flight is at one of three points:
    before [Account.findOne], holding the document it read, or holding its
    decision before [registerTransaction].  A payment modifies the balance
    of its document and nothing else, so the document it saves differs from
    the stored one in the balance alone. *)

Inductive payment_task :=
| Received (now : N) (body : PaymentBody.t)
| Loaded (now : N) (body : PaymentBody.t) (i : nat) (account : Account.t)
| Decided (now : N) (body : PaymentBody.t) (status reason : jsstring)
    (account : Account.t)
| Responded (r : Response).

Definition payment_internal_error (w : World) : payment_task * World :=
  let (_, w) := console_error ErrorObject w in
  (Responded (error_response 500 msg_payment_internal_error), w).

(** The code of [POST /api/payments] from the point a task is at to its next
    [await], with the awaited store operation. *)
Definition payment_step (flt : Faults) (t : payment_task) (w : World)
  : payment_task * World :=
  match t with
  | Received now body =>
      let accountNumber := PaymentBody.accountNumber body in
      let amount := PaymentBody.amount body in
      if negb (truthy accountNumber) || is_undefined amount || is_null amount
      then (Responded (error_response 400 msg_missing_payment_data), w)
      else
        match Account_findOne flt
                (by_accountNumber (ToString accountNumber)) w with
        | (Throw, w) => payment_internal_error w
        | (Normal None, w) =>
            (Responded (error_response 404 msg_account_not_found), w)
        | (Normal (Some (i, account)), w) => (Loaded now body i account, w)
        end
  | Loaded now body i account =>
      let numericAmount := ToNumber (PaymentBody.amount body) in
      if negb (Number_isFinite numericAmount) || (numericAmount <=? 0)%float
      then (Responded (error_response 400 msg_invalid_amount), w)
      else if gt numericAmount (Account.balance account)
      then (Decided now body declined msg_insufficient_funds account, w)
      else
        let account :=
          Account.set_balance
            (Account.balance account - numericAmount)%float account in
        match Account_save flt i account w with
        | (Throw, w) => payment_internal_error w
        | (Normal _, w) => (Decided now body approved msg_approved account, w)
        end
  | Decided now body status reason account =>
      let numericAmount := ToNumber (PaymentBody.amount body) in
      let currency := PaymentBody.currency body in
      let description := PaymentBody.description body in
      let merchantName := PaymentBody.merchantName body in
      let transactionId := lit "POVY-" ++ decimal now in
      let (_, w) :=
        registerTransaction flt
          (Transaction.mk
             (Account.accountNumber account)
             debit
             numericAmount
             (or_else currency (VString (Account.currency account)))
             (or_else description (VString desc_account_payment_ledger))
             account_payment
             (Some transactionId)
             (Account.balance account)
             (or_else merchantName (VString povy_test))) w in
      (Responded
         (mkResponse 200
            (JObject
               [("status", JString status);
                ("transactionId", JString transactionId);
                ("message", JString reason);
                ("amount", JNumber numericAmount);
                ("currency",
                 JValue (or_else currency
                           (VString (Account.currency account))));
                ("description",
                 JValue (or_else description (VString desc_account_payment)));
                ("accountNumber", JString (Account.accountNumber account));
                ("remainingBalance",
                 JNumber (Account.balance account))]%string)), w)
  | Responded r => (Responded r, w)
  end.

(** The tasks in flight, advanced in the order a schedule names them. *)
Fixpoint run (flt : Faults) (schedule : list nat) (tasks : list payment_task)
  (w : World) : list payment_task * World :=
  match schedule with
  | [] => (tasks, w)
  | k :: rest =>
      match nth_error tasks k with
      | None => run flt rest tasks w
      | Some t =>
          let (t', w') := payment_step flt t w in
          run flt rest (replace_at k t' tasks) w'
      end
  end.

(** ** Routing and observations *)

(** The two payment routes. *)
Inductive payment_request :=
| ByAccountNumber (body : PaymentBody.t)
| ByCard (body : CardPaymentBody.t).

Definition route_payment (flt : Faults) (now : N) (req : payment_request)
  : World -> Response * World :=
  match req with
  | ByAccountNumber body => post_payments flt now body
  | ByCard body => post_payments_card flt now body
  end.

Definition requested_amount (req : payment_request) : float :=
  match req with
  | ByAccountNumber body => ToNumber (PaymentBody.amount body)
  | ByCard body => ToNumber (CardPaymentBody.amount body)
  end.

(** The stored card differs from the request in expiry month, expiry year
    or CVV: the test of [POST /api/payments/card]. *)
Definition card_mismatch (account : Account.t) (body : CardPaymentBody.t)
  : bool :=
  negb (streqb (Card.expMonth (Account.card account))
               (ToString (CardPaymentBody.expMonth body)))
  || negb (streqb (Card.expYear (Account.card account))
                  (ToString (CardPaymentBody.expYear body)))
  || negb (streqb (Card.cvv (Account.card account))
                  (ToString (CardPaymentBody.cvv body))).

(** The card fields a card payment must carry. *)
Definition card_fields_present (body : CardPaymentBody.t) : bool :=
  truthy (CardPaymentBody.cardNumber body)
  && truthy (CardPaymentBody.expMonth body)
  && truthy (CardPaymentBody.expYear body)
  && truthy (CardPaymentBody.cvv body).

(** The lookup key of a card payment. *)
Definition cleanCardNumber (body : CardPaymentBody.t) : jsstring :=
  replace_whitespace_runs (ToString (CardPaymentBody.cardNumber body)).

(** The request names an account of the store, at position [i], and for a
    card carries the card's own expiry and CVV. *)
Definition resolves_to (req : payment_request) (w : World) (i : nat)
  (account : Account.t) : Prop :=
  match req with
  | ByAccountNumber body =>
      truthy (PaymentBody.accountNumber body) = true
      /\ find_from 0
           (by_accountNumber (ToString (PaymentBody.accountNumber body)))
           (accounts w) = Some (i, account)
  | ByCard body =>
      card_fields_present body = true
      /\ find_from 0 (by_cardNumber (cleanCardNumber body)) (accounts w)
         = Some (i, account)
      /\ card_mismatch account body = false
  end.

Definition stored_balance (i : nat) (w : World) : option float :=
  option_map Account.balance (nth_error (accounts w) i).

Definition has_status (s : jsstring) (r : Response) : bool :=
  match response_field "status" r with
  | Some (JValue (VString t)) => streqb t s
  | _ => false
  end.

(** The response reports a decision. *)
Definition decided (r : Response) : bool :=
  has_status approved r || has_status declined r.

(** A card as [generateCardForAccount] issues them. *)
Definition issued (c : Card.t) : Prop :=
  exists random expYearFull cvv,
    c = generateCardForAccount random expYearFull cvv.

Definition cards_issued (w : World) : Prop :=
  Forall (fun a => issued (Account.card a)) (accounts w).

(** Two strings that differ only in whitespace. *)
Inductive same_up_to_whitespace : jsstring -> jsstring -> Prop :=
| sw_nil : same_up_to_whitespace [] []
| sw_both c s t :
    same_up_to_whitespace s t -> same_up_to_whitespace (c :: s) (c :: t)
| sw_left c s t :
    is_whitespace c = true ->
    same_up_to_whitespace s t -> same_up_to_whitespace (c :: s) t
| sw_right c s t :
    is_whitespace c = true ->
    same_up_to_whitespace s t -> same_up_to_whitespace s (c :: t).

(** The query a payment looks its account up with. *)
Definition payment_query (req : payment_request) : Account.t -> bool :=
  match req with
  | ByAccountNumber body =>
      by_accountNumber (ToString (PaymentBody.accountNumber body))
  | ByCard body => by_cardNumber (cleanCardNumber body)
  end.

(** What a payment leaves in the ledger: one entry for the account it
    resolved to, carrying the balance now stored, when it reports a decision
    and the ledger took the write; nothing otherwise. *)
Definition ledger_effect (flt : Faults) (req : payment_request) (w : World)
  (out : Response * World) : Prop :=
  let (r, w') := out in
  (decided r = true -> create_throws flt = false ->
   exists i found account entry,
     find_from 0 (payment_query req) (accounts w) = Some (i, found)
     /\ nth_error (accounts w') i = Some account
     /\ Account.accountNumber account = Account.accountNumber found
     /\ transactions w' = transactions w ++ [entry]
     /\ Transaction.accountNumber entry = Account.accountNumber account
     /\ Transaction.balanceAfter entry = Account.balance account)
  /\ (decided r = false \/ create_throws flt = true ->
      transactions w' = transactions w).

(** A card payment carries every field the route requires. *)
Definition card_request_complete (body : CardPaymentBody.t) : bool :=
  card_fields_present body
  && negb (is_undefined (CardPaymentBody.amount body))
  && negb (is_null (CardPaymentBody.amount body)).

(** The body of a card payment with another card number. *)
Definition with_cardNumber (v : value) (body : CardPaymentBody.t)
  : CardPaymentBody.t :=
  CardPaymentBody.mk v
    (CardPaymentBody.expMonth body) (CardPaymentBody.expYear body)
    (CardPaymentBody.cvv body) (CardPaymentBody.amount body)
    (CardPaymentBody.currency body) (CardPaymentBody.description body)
    (CardPaymentBody.merchantName body).


(** A task has responded with the given status. *)
Definition responded_with (s : jsstring) (t : payment_task) : bool :=
  match t with
  | Responded r => has_status s r
  | _ => false
  end.

(** ** Invariants *)

(** The sign of a binary64 value in its specification: not negative. *)
Definition SF_nonneg (x : spec_float) : bool :=
  match x with
  | S754_zero _ => true
  | S754_infinity s | S754_finite s _ _ => negb s
  | S754_nan => false
  end.

(** Every stored balance is [>= 0]. *)
Definition balances_nonnegative (w : World) : Prop :=
  Forall (fun a => ge (Account.balance a) 0 = true) (accounts w).

(** The document a task holds was read with a balance [>= 0]. *)
Definition task_balance_nonnegative (t : payment_task) : Prop :=
  match t with
  | Loaded _ _ _ account => ge (Account.balance account) 0 = true
  | _ => True
  end.

(** The worlds the routes lead to from empty collections. *)
Inductive reachable : World -> Prop :=
| reach_empty : reachable (mkWorld [] [] [])
| reach_post_accounts flt draw random expYearFull cvv body w :
    reachable w ->
    reachable (snd (post_accounts flt draw random expYearFull cvv body w))
| reach_patch_account flt accountNumber body w :
    reachable w -> reachable (snd (patch_account flt accountNumber body w))
| reach_delete_account flt accountNumber w :
    reachable w -> reachable (snd (delete_account flt accountNumber w))
| reach_payment flt now req w :
    reachable w -> reachable (snd (route_payment flt now req w)).

(** ** Reading an account *)

Definition msg_get_failed : jsstring := lit "No se pudo obtener la cuenta.".

(** [GET /api/accounts/:accountNumber]; the account number is the route
    parameter, a string.  The document is answered with the fields of the
    schema. *)
Definition get_account (flt : Faults) (accountNumber : jsstring)
  : World -> Response * World :=
  try_catch
    (found <- Account_findOne flt (by_accountNumber accountNumber);;
     match found with
     | None => ret (message_response 404 msg_account_not_found)
     | Some (_, account) => ret (mkResponse 200 (Account_toObject account))
     end)
    (fun w =>
       let (_, w) := console_error ErrorObject w in
       (message_response 500 msg_get_failed, w)).

(** ** Listing documents *)

Definition msg_history_failed : jsstring :=
  lit "No se pudo obtener el historial de transacciones.".
Definition msg_list_failed : jsstring :=
  lit "No se pudieron obtener las cuentas.".

(** What a route that lists documents sends: [res.json(docs)], with status
    200, or an error response. *)
Inductive listing (A : Type) :=
| Listed (docs : list A)
| NotListed (r : Response).

#[global] Arguments Listed {A} docs.
#[global] Arguments NotListed {A} r.

(** The query [{ accountNumber: n }] on the ledger. *)
Definition entry_of (n : jsstring) (e : Transaction.t) : bool :=
  streqb (Transaction.accountNumber e) n.

(** [Transaction.find(query).sort({ createdAt: -1 }).limit(50).lean()]:
    [throws] says whether the query rejects and [newest_first] is the order
    the store's sort gives the documents the query matches. *)
Definition Transaction_find_newest (throws : bool)
  (newest_first : list Transaction.t -> list Transaction.t)
  (query : Transaction.t -> bool) : Async (list Transaction.t) :=
  fun w =>
    if throws then (Throw, w)
    else (Normal (firstn 50 (newest_first (filter query (transactions w)))),
          w).

(** [Account.find({}).sort({ createdAt: -1 }).lean()] *)
Definition Account_find_newest (throws : bool)
  (newest_first : list Account.t -> list Account.t)
  : Async (list Account.t) :=
  fun w =>
    if throws then (Throw, w)
    else (Normal (newest_first (accounts w)), w).

(** [GET /api/accounts/:accountNumber/transactions] *)
Definition get_transactions (throws : bool)
  (newest_first : list Transaction.t -> list Transaction.t)
  (accountNumber : jsstring) : World -> listing Transaction.t * World :=
  try_catch
    (txs <- Transaction_find_newest throws newest_first
              (entry_of accountNumber);;
     ret (Listed txs))
    (fun w =>
       let (_, w) := console_error ErrorObject w in
       (NotListed (message_response 500 msg_history_failed), w)).

(** [GET /api/accounts]; the documents are answered with the fields of the
    schema. *)
Definition get_accounts (throws : bool)
  (newest_first : list Account.t -> list Account.t)
  : World -> listing json * World :=
  try_catch
    (found <- Account_find_newest throws newest_first;;
     ret (Listed (map Account_toObject found)))
    (fun w =>
       let (_, w) := console_error ErrorObject w in
       (NotListed (message_response 500 msg_list_failed), w)).

(** ** More observations *)

(** The account number [generateUniqueAccountNumber] builds at its [i]-th
    attempt. *)
Definition candidate (draw : nat -> N) (i : nat) : jsstring :=
  lit "001-" ++ padStart 8 48 (decimal (draw i)).

(** An account of the store carries the account number. *)
Definition taken (n : jsstring) (w : World) : bool :=
  existsb (by_accountNumber n) (accounts w).

Definition is_digit (c : N) : bool := ((48 <=? c) && (c <=? 57))%N.

(** The [source] a payment route writes to the ledger. *)
Definition payment_source (req : payment_request) : tx_source :=
  match req with
  | ByAccountNumber _ => account_payment
  | ByCard _ => card_payment
  end.

(** The prefix of the transaction ids of a payment route. *)
Definition transactionId_prefix (req : payment_request) : jsstring :=
  match req with
  | ByAccountNumber _ => lit "POVY-"
  | ByCard _ => lit "POVY-CARD-"
  end.

(** One request served by a route, from the world before to the world
    after. *)
Inductive served : World -> World -> Prop :=
| served_post_accounts flt draw random expYearFull cvv body w :
    served w (snd (post_accounts flt draw random expYearFull cvv body w))
| served_get_account flt accountNumber w :
    served w (snd (get_account flt accountNumber w))
| served_patch_account flt accountNumber body w :
    served w (snd (patch_account flt accountNumber body w))
| served_delete_account flt accountNumber w :
    served w (snd (delete_account flt accountNumber w))
| served_payment flt now req w :
    served w (snd (route_payment flt now req w))
| served_get_transactions throws newest_first accountNumber w :
    served w (snd (get_transactions throws newest_first accountNumber w))
| served_get_accounts throws newest_first w :
    served w (snd (get_accounts throws newest_first w)).

(** A request to which a handler sent a response. *)
Inductive answered : World -> Response -> World -> Prop :=
| answered_post_accounts flt draw random expYearFull cvv body w r w' :
    post_accounts flt draw random expYearFull cvv body w = (Normal r, w') ->
    answered w r w'
| answered_get_account flt accountNumber w r w' :
    get_account flt accountNumber w = (r, w') -> answered w r w'
| answered_patch_account flt accountNumber body w r w' :
    patch_account flt accountNumber body w = (r, w') -> answered w r w'
| answered_delete_account flt accountNumber w r w' :
    delete_account flt accountNumber w = (r, w') -> answered w r w'
| answered_payment flt now req w r w' :
    route_payment flt now req w = (r, w') -> answered w r w'.

(** The optional fields of a payment. *)
Definition requested_currency (req : payment_request) : value :=
  match req with
  | ByAccountNumber body => PaymentBody.currency body
  | ByCard body => CardPaymentBody.currency body
  end.

Definition requested_description (req : payment_request) : value :=
  match req with
  | ByAccountNumber body => PaymentBody.description body
  | ByCard body => CardPaymentBody.description body
  end.

Definition requested_merchantName (req : payment_request) : value :=
  match req with
  | ByAccountNumber body => PaymentBody.merchantName body
  | ByCard body => CardPaymentBody.merchantName body
  end.

(** Any number of requests served one after the other. *)
Inductive served_in_turn : World -> World -> Prop :=
| served_none w : served_in_turn w w
| served_next w w1 w2 :
    served_in_turn w w1 -> served w1 w2 -> served_in_turn w w2.

(** [POST /api/accounts] can call [trim] on the owner name: the name is
    falsy or a string. *)
Definition ownerName_accepted (v : value) : bool :=
  match v with
  | VString _ => true
  | _ => negb (truthy v)
  end.

(** ** More invariants *)

(** No two stored accounts carry the same account number. *)
Definition account_numbers_unique (w : World) : Prop :=
  NoDup (map Account.accountNumber (accounts w)).

(** Every stored currency is one of [allowedCurrencies]. *)
Definition currencies_allowed (w : World) : Prop :=
  Forall (fun a => includes allowedCurrencies (Account.currency a) = true)
         (accounts w).

(** A name [POST /api/accounts] stores: not empty, and what [trim] leaves
    of it is the name itself. *)
Definition owner_name_normalized (s : jsstring) : Prop :=
  s <> [] /\ trim s = s.

Definition owner_names_normalized (w : World) : Prop :=
  Forall (fun a => owner_name_normalized (Account.ownerName a)) (accounts w).

(** A ledger entry as the routes write them: a finite amount [>= 0]; from a
    payment route a debit of an amount [> 0] with the route's transaction
    id; from an adjustment no transaction id. *)
Definition entry_well_formed (e : Transaction.t) : Prop :=
  Number_isFinite (Transaction.amount e) = true
  /\ ge (Transaction.amount e) 0 = true
  /\ match Transaction.source e with
     | account_payment =>
         Transaction.type e = debit
         /\ gt (Transaction.amount e) 0 = true
         /\ exists now,
              Transaction.transactionId e = Some (lit "POVY-" ++ decimal now)
     | card_payment =>
         Transaction.type e = debit
         /\ gt (Transaction.amount e) 0 = true
         /\ exists now,
              Transaction.transactionId e
              = Some (lit "POVY-CARD-" ++ decimal now)
     | manual_topup => Transaction.transactionId e = None
     end.

Definition ledger_well_formed (w : World) : Prop :=
  Forall entry_well_formed (transactions w).

(** The worlds the routes lead to from empty collections when no adjustment
    carries [addBalance]. *)
Inductive reachable_without_addBalance : World -> Prop :=
| reach0_empty : reachable_without_addBalance (mkWorld [] [] [])
| reach0_post_accounts flt draw random expYearFull cvv body w :
    reachable_without_addBalance w ->
    reachable_without_addBalance
      (snd (post_accounts flt draw random expYearFull cvv body w))
| reach0_patch_account flt accountNumber body w :
    is_undefined (PatchBody.addBalance body) = true ->
    reachable_without_addBalance w ->
    reachable_without_addBalance
      (snd (patch_account flt accountNumber body w))
| reach0_delete_account flt accountNumber w :
    reachable_without_addBalance w ->
    reachable_without_addBalance (snd (delete_account flt accountNumber w))
| reach0_payment flt now req w :
    reachable_without_addBalance w ->
    reachable_without_addBalance (snd (route_payment flt now req w)).

(** ** Sample data

    The runs on sample data pass amounts as numbers and every other field
    as a string, so that neither conversion of the language is applied;
    the two functions below stand for them there. *)

Definition unused_StringToNumber (_ : jsstring) : float := nan.

Definition unused_NumberToString (_ : float) : jsstring := [].

Definition sample_card : Card.t :=
  generateCardForAccount (lit "1234567890") (lit "2029") (lit "123").

Definition sample_account : Account.t :=
  Account.mk (lit "001-00000042") (lit "Ana") 100 (lit "USD") sample_card.

Definition sample_world : World := mkWorld [sample_account] [] [].

(** [{ accountNumber: '001-00000042', amount }] *)
Definition sample_payment (amount : float) : PaymentBody.t :=
  PaymentBody.mk (VString (lit "001-00000042")) (VNumber amount)
                 VUndefined VUndefined VUndefined.

(** [{ cardNumber, expMonth: '12', expYear: '29', cvv, amount: 40 }] *)
Definition sample_card_payment (cardNumber cvv : jsstring)
  : CardPaymentBody.t :=
  CardPaymentBody.mk (VString cardNumber) (VString (lit "12"))
                     (VString (lit "29")) (VString cvv) (VNumber 40)
                     VUndefined VUndefined VUndefined.

(** The request that creates the sample account: every draw of an account
    number gives 42. *)
Definition sample_draw (_ : nat) : N := 42.

Definition sample_account_body : AccountBody.t :=
  AccountBody.mk (VString (lit "Ana")) (VString (lit "USD")) (VNumber 100).

(** The ledger entry of a payment of 40 from the sample account at clock
    value 1700000000000, and the world the payment leaves. *)
Definition sample_entry : Transaction.t :=
  Transaction.mk (lit "001-00000042") debit 40 (VString (lit "USD"))
    (VString desc_account_payment_ledger) account_payment
    (Some (lit "POVY-1700000000000")) 60 (VString povy_test).

Definition sample_world_paid : World :=
  mkWorld [Account.set_balance 60 sample_account] [sample_entry] [].

(** [{ accountNumber: '001-00000042', amount: 40, currency: 'EUR' }] and
    the ledger entry it leaves. *)
Definition sample_payment_eur : PaymentBody.t :=
  PaymentBody.mk (VString (lit "001-00000042")) (VNumber 40)
                 (VString (lit "EUR")) VUndefined VUndefined.

Definition sample_entry_eur : Transaction.t :=
  Transaction.mk (lit "001-00000042") debit 40 (VString (lit "EUR"))
    (VString desc_account_payment_ledger) account_payment
    (Some (lit "POVY-1700000000000")) 60 (VString povy_test).

(** * Properties *)

(** ** Numbers *)

Lemma SFcompare_swap (x y : spec_float) :
  SFcompare y x = option_map CompOpp (SFcompare x y).
Proof.
  destruct x as [sx|sx| |sx mx ex], y as [sy|sy| |sy my ey]; simpl;
    try reflexivity;
    try (destruct sx; reflexivity); try (destruct sy; reflexivity);
    try (destruct sx, sy; reflexivity).
  destruct sx, sy; try reflexivity; simpl; f_equal;
    rewrite (Z.compare_antisym ex ey);
    destruct (ex ?= ey)%Z; simpl; try reflexivity;
    rewrite (Pos.compare_cont_antisym mx my Eq); reflexivity.
Qed.

Lemma leb_not_gt (a b : float) : (a <=? b)%float = true -> gt a b = false.
Proof.
  unfold gt. rewrite leb_spec, ltb_spec. unfold SFleb, SFltb.
  rewrite (SFcompare_swap (Prim2SF a) (Prim2SF b)).
  destruct (SFcompare (Prim2SF a) (Prim2SF b)) as [[]|]; simpl; congruence.
Qed.

Lemma gt_not_leb (a b : float) : gt a b = true -> (a <=? b)%float = false.
Proof.
  intros H. destruct (a <=? b)%float eqn:E; [|reflexivity].
  apply leb_not_gt in E. congruence.
Qed.

Lemma eqb_leb (a b : float) : (a =? b)%float = true -> (a <=? b)%float = true.
Proof.
  rewrite eqb_spec, leb_spec. unfold SFeqb, SFleb.
  destruct (SFcompare (Prim2SF a) (Prim2SF b)) as [[]|]; congruence.
Qed.

Lemma Prim2SF_inj (a b : float) : Prim2SF a = Prim2SF b -> a = b.
Proof.
  intros H. rewrite <- (SF2Prim_Prim2SF a), <- (SF2Prim_Prim2SF b), H.
  reflexivity.
Qed.

(** A finite number above zero is a positive finite binary64 value. *)
Lemma positive_finite_shape (a : float) :
  Number_isFinite a = true -> gt a 0 = true ->
  exists m e, Prim2SF a = S754_finite false m e.
Proof.
  unfold Number_isFinite, gt, is_infinity. intros Hf Hp.
  rewrite ltb_spec in Hp. apply negb_true_iff, orb_false_iff in Hf.
  destruct Hf as [_ Hi]. rewrite eqb_spec, abs_spec in Hi.
  change (Prim2SF 0) with (S754_zero false) in Hp.
  change (Prim2SF infinity) with (S754_infinity false) in Hi.
  destruct (Prim2SF a) as [s|s| |s m e]; try discriminate.
  destruct s; [discriminate | eauto].
Qed.

(** [b - a] is [+0] when [a == b] for a finite [a > 0]. *)
Lemma sub_eq_zero (a b : float) :
  Number_isFinite a = true -> gt a 0 = true -> (a =? b)%float = true ->
  (b - a)%float = 0%float.
Proof.
  intros Hf Hp He.
  destruct (positive_finite_shape a Hf Hp) as (m & e & Ha).
  rewrite eqb_spec, Ha in He. unfold SFeqb in He.
  assert (Hb : Prim2SF b = S754_finite false m e).
  { destruct (Prim2SF b) as [s|s| |s m' e']; simpl in He; try discriminate.
    - destruct s; discriminate.
    - destruct s; try discriminate.
      destruct (e ?= e')%Z eqn:Ee; try discriminate.
      apply Z.compare_eq in Ee. subst e'.
      destruct (Pos.compare_cont Eq m m') eqn:Em; try discriminate.
      apply Pos.compare_eq in Em. subst m'. reflexivity. }
  apply Prim2SF_inj. rewrite sub_spec, Ha, Hb.
  change (Prim2SF 0) with (S754_zero false).
  unfold SF64sub, SFsub. rewrite Z.min_id. unfold shl_align.
  rewrite !Z.sub_diag. reflexivity.
Qed.

(** A valid amount is carried by the request: [Number(undefined)] is [NaN]
    and [Number(null)] is [0]. *)
Lemma valid_amount_supplied (v : value) :
  Number_isFinite (ToNumber v) = true -> gt (ToNumber v) 0 = true ->
  is_undefined v = false /\ is_null v = false.
Proof.
  destruct v; simpl; intros; auto; discriminate.
Qed.

(** ** Strings *)

Lemma streqb_eq (a b : jsstring) : streqb a b = true <-> a = b.
Proof.
  revert b. induction a as [|x a IH]; intros [|y b]; simpl;
    try (split; [discriminate | congruence]); [tauto|].
  rewrite andb_true_iff, N.eqb_eq, IH. split.
  - intros [-> ->]. reflexivity.
  - intros H. injection H as -> ->. auto.
Qed.

Lemma replace_whitespace_runs_clean (s : jsstring) :
  Forall (fun c => is_whitespace c = false) (replace_whitespace_runs s).
Proof.
  induction s as [|c s IH]; simpl; [constructor|].
  destruct (is_whitespace c) eqn:E; auto.
Qed.

Lemma same_up_to_whitespace_key (s t : jsstring) :
  same_up_to_whitespace s t ->
  replace_whitespace_runs s = replace_whitespace_runs t.
Proof.
  induction 1 as [|c s t _ IH|c s t Hc _ IH|c s t Hc _ IH]; simpl.
  - reflexivity.
  - rewrite IH. reflexivity.
  - rewrite Hc. exact IH.
  - rewrite Hc. exact IH.
Qed.

Lemma slice_last_length (n : nat) (s : jsstring) :
  n <= List.length s -> List.length (slice_last n s) = n.
Proof.
  intros H. unfold slice_last. rewrite length_skipn. lia.
Qed.



(** ** The store *)

Lemma find_from_nth (p : Account.t -> bool) (l : list Account.t) :
  forall k i a,
    find_from k p l = Some (i, a) ->
    k <= i /\ nth_error l (i - k) = Some a /\ p a = true.
Proof.
  induction l as [|x l IH]; simpl; intros k i a H; [discriminate|].
  destruct (p x) eqn:Hp.
  - injection H as <- <-. rewrite Nat.sub_diag. auto.
  - apply IH in H. destruct H as (Hle & Hn & Hpa).
    replace (i - k) with (S (i - S k)) by lia. simpl.
    repeat split; auto; lia.
Qed.

Lemma find_nth (p : Account.t -> bool) (l : list Account.t) i a :
  find_from 0 p l = Some (i, a) -> nth_error l i = Some a.
Proof.
  intros H. apply find_from_nth in H. rewrite Nat.sub_0_r in H. tauto.
Qed.

Lemma nth_replace_at {A} (l : list A) :
  forall i x y,
    nth_error l i = Some y -> nth_error (replace_at i x l) i = Some x.
Proof.
  induction l as [|z l IH]; intros [|i] x y H; simpl in *;
    try discriminate; eauto.
Qed.

(** ** The recorder *)

Lemma registerTransaction_run flt e w :
  registerTransaction flt e w =
  (tt, if create_throws flt
       then mkWorld (accounts w) (transactions w)
                    (console w ++ [ErrorMessage msg_ledger_write_failed])
       else mkWorld (accounts w) (transactions w ++ [e]) (console w)).
Proof.
  unfold registerTransaction, try_catch, Transaction_create, console_error.
  destruct (create_throws flt); reflexivity.
Qed.

Lemma SF_nonneg_leb (x : spec_float) :
  SF_nonneg x = true -> SFleb (S754_zero false) x = true.
Proof.
  destruct x as [s|[]| |[] m e]; unfold SFleb; simpl; intros H;
    first [reflexivity | discriminate H].
Qed.

Lemma iter_pos_invariant {A} (P : A -> Prop) (f : A -> A) :
  (forall x, P x -> P (f x)) -> forall n x, P x -> P (iter_pos f n x).
Proof.
  intros Hf. induction n as [n IH|n IH|]; intros x Hx; simpl; auto.
Qed.

Lemma shr_1_nonneg mrs : (0 <= shr_m mrs)%Z -> (0 <= shr_m (shr_1 mrs))%Z.
Proof.
  destruct mrs as [m r s]. simpl. intros H.
  destruct m as [|[p|p|]|p]; simpl; lia.
Qed.

Lemma shr_nonneg mrs e n :
  (0 <= shr_m mrs)%Z -> (0 <= shr_m (fst (shr mrs e n)))%Z.
Proof.
  intros H. destruct n as [|p|p]; simpl; auto.
  apply iter_pos_invariant; auto using shr_1_nonneg.
Qed.

Lemma shr_record_of_loc_m m l : shr_m (shr_record_of_loc m l) = m.
Proof. destruct l as [|[]]; reflexivity. Qed.

Lemma shr_fexp_nonneg p e m x l :
  (0 <= m)%Z -> (0 <= shr_m (fst (shr_fexp p e m x l)))%Z.
Proof.
  intros H. unfold shr_fexp. apply shr_nonneg.
  rewrite shr_record_of_loc_m. exact H.
Qed.

Lemma round_nearest_even_nonneg m l :
  (0 <= m)%Z -> (0 <= round_nearest_even m l)%Z.
Proof.
  intros H. destruct l as [|[]]; simpl; try lia.
  destruct (Z.even m); lia.
Qed.

Lemma binary_round_aux_nonneg p e m x l :
  (0 <= m)%Z -> SF_nonneg (binary_round_aux p e false m x l) = true.
Proof.
  intros H. unfold binary_round_aux.
  pose proof (shr_fexp_nonneg p e m x l H) as H1.
  destruct (shr_fexp p e m x l) as [mrs' e'] eqn:E1. simpl in H1.
  pose proof (shr_fexp_nonneg p e
                (round_nearest_even (shr_m mrs') (loc_of_shr_record mrs'))
                e' loc_Exact
                (round_nearest_even_nonneg _ _ H1)) as H2.
  destruct (shr_fexp p e
              (round_nearest_even (shr_m mrs') (loc_of_shr_record mrs'))
              e' loc_Exact) as [mrs'' e''] eqn:E2.
  simpl in H2.
  destruct (shr_m mrs'') as [|q|q]; try reflexivity; [|lia].
  destruct (e'' <=? e - p)%Z; reflexivity.
Qed.

Lemma binary_normalize_nonneg p e m x :
  (0 <= m)%Z -> SF_nonneg (binary_normalize p e m x false) = true.
Proof.
  intros H. destruct m as [|q|q]; simpl; try reflexivity; [|lia].
  unfold binary_round.
  destruct (shl_align q x (fexp p e (Z.pos (digits2_pos q) + x))) as [mz ez].
  apply binary_round_aux_nonneg. lia.
Qed.

Lemma iter_xO_value m d : Zpos (Pos.iter xO m d) = (Zpos m * 2 ^ Zpos d)%Z.
Proof.
  induction d as [|d IH] using Pos.peano_ind.
  - simpl. lia.
  - rewrite Pos.iter_succ, Pos2Z.inj_succ, Z.pow_succ_r by lia.
    rewrite (Pos2Z.inj_xO (Pos.iter xO m d)), IH. lia.
Qed.

Lemma shl_align_value m e e' :
  (e' <= e)%Z -> Zpos (fst (shl_align m e e')) = (Zpos m * 2 ^ (e - e'))%Z.
Proof.
  intros H. unfold shl_align.
  destruct (e' - e)%Z as [|d|d] eqn:E; simpl.
  - replace (e - e')%Z with 0%Z by lia. simpl. lia.
  - lia.
  - rewrite iter_xO_value. replace (e - e')%Z with (Zpos d) by lia.
    reflexivity.
Qed.

Lemma digits2_pos_bounds m :
  (2 ^ (Zpos (digits2_pos m) - 1) <= Zpos m < 2 ^ Zpos (digits2_pos m))%Z.
Proof.
  induction m as [m IH|m IH|]; simpl digits2_pos.
  - rewrite Pos2Z.inj_succ, (Pos2Z.inj_xI m).
    replace (Z.succ (Zpos (digits2_pos m)) - 1)%Z
      with (Z.succ (Zpos (digits2_pos m) - 1)) by lia.
    rewrite !Z.pow_succ_r by lia. lia.
  - rewrite Pos2Z.inj_succ, (Pos2Z.inj_xO m).
    replace (Z.succ (Zpos (digits2_pos m)) - 1)%Z
      with (Z.succ (Zpos (digits2_pos m) - 1)) by lia.
    rewrite !Z.pow_succ_r by lia. lia.
  - simpl. lia.
Qed.

(** Two valid positive values in order have their aligned mantissas in
    order. *)
Lemma aligned_mantissas_le ma ea mb eb :
  valid_binary (S754_finite false ma ea) = true ->
  valid_binary (S754_finite false mb eb) = true ->
  SFleb (S754_finite false ma ea) (S754_finite false mb eb) = true ->
  (Zpos (fst (shl_align ma ea (Z.min eb ea)))
   <= Zpos (fst (shl_align mb eb (Z.min eb ea))))%Z.
Proof.
  unfold valid_binary, bounded, canonical_mantissa, fexp, emin, SFleb.
  simpl SFcompare.
  intros Ha Hb Hle.
  apply andb_true_iff in Ha, Hb. destruct Ha as [Ha _], Hb as [Hb _].
  apply Z.eqb_eq in Ha, Hb.
  rewrite !shl_align_value by lia.
  pose proof (digits2_pos_bounds ma) as Da.
  pose proof (digits2_pos_bounds mb) as Db.
  destruct (ea ?= eb)%Z eqn:E.
  - apply Z.compare_eq in E. subst eb.
    rewrite Z.min_id, Z.sub_diag, Z.pow_0_r, !Z.mul_1_r.
    destruct (Pos.compare_cont Eq ma mb) eqn:Em; try discriminate.
    + apply Pos.compare_eq in Em. subst. lia.
    + change (Pos.compare_cont Eq ma mb) with (Pos.compare ma mb) in Em.
      apply Pos.compare_lt_iff, Pos2Z.pos_lt_pos in Em. lia.
  - rewrite Z.compare_lt_iff in E.
    replace (Z.min eb ea) with ea by lia. rewrite Z.sub_diag.
    assert (Hdb : Zpos (digits2_pos mb) = prec) by (unfold prec in *; lia).
    assert (Hda : (Zpos (digits2_pos ma) <= prec)%Z) by (unfold prec in *; lia).
    rewrite Hdb in Db.
    assert (Zpos ma < 2 ^ prec)%Z.
    { eapply Z.lt_le_trans; [apply Da|].
      apply Z.pow_le_mono_r; lia. }
    assert (2 ^ 1 <= 2 ^ (eb - ea))%Z by (apply Z.pow_le_mono_r; lia).
    replace (2 ^ prec)%Z with (2 ^ (prec - 1) * 2 ^ 1)%Z in H
      by (unfold prec; reflexivity).
    rewrite Z.pow_0_r, Z.mul_1_r. nia.
  - discriminate.
Qed.

Lemma sub_nonneg (a b : float) :
  Number_isFinite a = true -> gt a 0 = true -> (a <=? b)%float = true ->
  ge (b - a) 0 = true.
Proof.
  intros Hf Hp Hle. unfold ge.
  destruct (positive_finite_shape a Hf Hp) as (ma & ea & Ha).
  pose proof (Prim2SF_valid a) as Va. pose proof (Prim2SF_valid b) as Vb.
  rewrite leb_spec in *. rewrite sub_spec.
  change (Prim2SF 0) with (S754_zero false).
  rewrite Ha in *. apply SF_nonneg_leb.
  destruct (Prim2SF b) as [s|s| |s mb eb]; try discriminate.
  - destruct s; [discriminate | reflexivity].
  - destruct s; [discriminate|].
    unfold SF64sub, SFsub. cbn [cond_Zopp].
    apply binary_normalize_nonneg.
    pose proof (aligned_mantissas_le ma ea mb eb Va Vb Hle). lia.
Qed.

(** A number that is not [NaN] and not below zero is [>= 0]. *)
Lemma not_lt_zero_ge (x : float) :
  Number_isFinite x = true -> (x <? 0)%float = false -> ge x 0 = true.
Proof.
  unfold Number_isFinite, ge, is_nan. intros Hf Hlt.
  apply negb_true_iff, orb_false_iff in Hf. destruct Hf as [Hn _].
  apply negb_false_iff in Hn.
  rewrite eqb_spec in Hn. rewrite ltb_spec in Hlt. rewrite leb_spec.
  unfold SFeqb, SFltb, SFleb in *.
  rewrite (SFcompare_swap (Prim2SF x) (Prim2SF 0)).
  change (Prim2SF 0) with (S754_zero false) in *.
  destruct (Prim2SF x) as [s|[]| |[] m e]; simpl in *;
    first [reflexivity | discriminate].
Qed.

(** A finite amount that is not [<= 0] is above zero. *)
Lemma valid_amount_positive (a : float) :
  Number_isFinite a = true -> (a <=? 0)%float = false -> gt a 0 = true.
Proof.
  unfold Number_isFinite, gt, is_nan. intros Hf Hle.
  apply negb_true_iff, orb_false_iff in Hf. destruct Hf as [Hn _].
  apply negb_false_iff in Hn.
  rewrite eqb_spec in Hn. rewrite leb_spec in Hle. rewrite ltb_spec.
  unfold SFeqb, SFltb, SFleb in *.
  rewrite (SFcompare_swap (Prim2SF a) (Prim2SF 0)).
  change (Prim2SF 0) with (S754_zero false) in *.
  destruct (Prim2SF a) as [s|[]| |[] m e]; simpl in *;
    first [reflexivity | discriminate].
Qed.

(** An amount that is not above a balance [>= 0] is at most the balance. *)
Lemma not_gt_leb (a b : float) :
  Number_isFinite a = true -> ge b 0 = true -> gt a b = false ->
  (a <=? b)%float = true.
Proof.
  unfold Number_isFinite, ge, gt, is_nan. intros Hf Hb Hgt.
  apply negb_true_iff, orb_false_iff in Hf. destruct Hf as [Hn _].
  apply negb_false_iff in Hn.
  rewrite eqb_spec in Hn. rewrite leb_spec in Hb. rewrite ltb_spec in Hgt.
  rewrite leb_spec. unfold SFeqb, SFltb, SFleb in *.
  rewrite (SFcompare_swap (Prim2SF a) (Prim2SF b)) in Hgt.
  change (Prim2SF 0) with (S754_zero false) in *.
  destruct (SFcompare (Prim2SF a) (Prim2SF b)) as [[]|] eqn:E;
    try reflexivity; try discriminate.
  destruct (Prim2SF a) as [sa|sa| |sa ma ea],
           (Prim2SF b) as [sb|sb| |sb mb eb];
    simpl in *; discriminate.
Qed.

(** The balance after an approved debit. *)
Lemma debit_nonneg (a b : float) :
  Number_isFinite a = true -> (a <=? 0)%float = false ->
  ge b 0 = true -> gt a b = false ->
  ge (b - a) 0 = true.
Proof.
  intros Hf Hle Hb Hgt.
  apply sub_nonneg; auto using valid_amount_positive, not_gt_leb.
Qed.

(** ** Running a handler *)

(** The awaited steps of a handler, unfolded. *)
Ltac unfold_async :=
  cbv beta iota zeta
      delta [try_catch bind ret lift Account_findOne Account_save
             console_error].

(** The tests of one status literal against another. *)
Ltac literals :=
  change (streqb approved approved) with true in *;
  change (streqb declined approved) with false in *;
  change (streqb approved declined) with false in *;
  change (streqb declined declined) with true in *.

Lemma decided_error code msg : decided (error_response code msg) = false.
Proof. reflexivity. Qed.

Lemma decided_status s rest :
  decided (mkResponse 200 (JObject (("status"%string, JString s) :: rest)))
  = streqb s approved || streqb s declined.
Proof. reflexivity. Qed.

(** Every branch of a handler: each test is decided one way and the other,
    a test met again is decided as before. *)
Ltac run_cases :=
  repeat first
    [ progress unfold_async
    | progress cbn [ledger_fails findOne_throws save_throws create_throws]
    | progress literals
    | rewrite registerTransaction_run
    | match goal with
      | H : ?c = _ |- context [if ?c then _ else _] => rewrite H
      | H : find_from ?k ?p ?l = _
        |- context [match find_from ?k ?p ?l with _ => _ end] => rewrite H
      end
    | match goal with
      | |- context [match find_from ?k ?p ?l with _ => _ end] =>
          destruct (find_from k p l) as [[? ?]|] eqn:?
      | |- context [if ?c then _ else _] => destruct c eqn:?
      end ].

(** ** The decision rule *)

(** A payment by account number that reaches the decision. *)
Lemma post_payments_decision flt now body w i account :
  findOne_throws flt = false ->
  save_throws flt = false ->
  resolves_to (ByAccountNumber body) w i account ->
  let A := ToNumber (PaymentBody.amount body) in
  let B := Account.balance account in
  Number_isFinite A = true ->
  gt A 0 = true ->
  let (r, w') := post_payments flt now body w in
  if gt A B
  then has_status declined r = true /\ accounts w' = accounts w
  else has_status approved r = true
       /\ accounts w'
          = replace_at i (Account.set_balance (B - A)%float account)
                       (accounts w).
Proof.
  intros Hfind Hsave [Htruthy Hfound] A B Hfin Hpos.
  destruct (valid_amount_supplied _ Hfin Hpos) as [Hu Hn].
  pose proof (gt_not_leb _ _ Hpos) as Hle0.
  unfold post_payments. cbv zeta. rewrite Htruthy, Hu, Hn. cbn [negb orb].
  unfold_async. rewrite Hfind, Hfound. fold A. rewrite Hfin, Hle0.
  cbn [negb orb]. fold B.
  destruct (gt A B) eqn:Hgt; literals; cbv iota beta;
    rewrite ?Hsave, registerTransaction_run;
    destruct (create_throws flt); split; reflexivity.
Qed.

(** A card payment that reaches the decision. *)
Lemma post_payments_card_decision flt now body w i account :
  findOne_throws flt = false ->
  save_throws flt = false ->
  resolves_to (ByCard body) w i account ->
  let A := ToNumber (CardPaymentBody.amount body) in
  let B := Account.balance account in
  Number_isFinite A = true ->
  gt A 0 = true ->
  let (r, w') := post_payments_card flt now body w in
  if gt A B
  then has_status declined r = true /\ accounts w' = accounts w
  else has_status approved r = true
       /\ accounts w'
          = replace_at i (Account.set_balance (B - A)%float account)
                       (accounts w).
Proof.
  intros Hfind Hsave (Hpresent & Hfound & Hmatch) A B Hfin Hpos.
  destruct (valid_amount_supplied _ Hfin Hpos) as [Hu Hn].
  pose proof (gt_not_leb _ _ Hpos) as Hle0.
  unfold card_fields_present in Hpresent.
  repeat (apply andb_true_iff in Hpresent;
          destruct Hpresent as [Hpresent ?Hfield]).
  unfold cleanCardNumber in Hfound. unfold card_mismatch in Hmatch.
  unfold post_payments_card. cbv zeta.
  rewrite Hpresent, Hfield, Hfield0, Hfield1, Hu, Hn. cbn [negb orb].
  unfold_async. rewrite Hfind, Hfound, Hmatch. fold A. rewrite Hfin, Hle0.
  cbn [negb orb]. fold B.
  destruct (gt A B) eqn:Hgt; literals; cbv iota beta;
    rewrite ?Hsave, registerTransaction_run;
    destruct (create_throws flt); split; reflexivity.
Qed.

(** C1. A payment attempt, by account number or by card, on an account
    with balance [B] for a finite amount [A > 0], the account store
    answering: when [A > B] the attempt is declined and the stored balance
    is still [B]; when [A <= B] it is approved and the stored balance is
    [B - A]; when [A == B] it is approved and the stored balance is [0]. *)
Theorem C1_payment_decision flt now req w i account :
  findOne_throws flt = false ->
  save_throws flt = false ->
  resolves_to req w i account ->
  let A := requested_amount req in
  let B := Account.balance account in
  Number_isFinite A = true ->
  gt A 0 = true ->
  let (r, w') := route_payment flt now req w in
  (gt A B = true ->
   has_status declined r = true /\ stored_balance i w' = Some B)
  /\ ((A <=? B)%float = true ->
      has_status approved r = true
      /\ stored_balance i w' = Some (B - A)%float)
  /\ ((A =? B)%float = true ->
      has_status approved r = true /\ stored_balance i w' = Some 0%float).
Proof.
  intros Hfind Hsave Hres A B Hfin Hpos.
  assert (Hnth : nth_error (accounts w) i = Some account).
  { destruct req; cbn [resolves_to] in Hres;
      [destruct Hres as [_ H] | destruct Hres as (_ & H & _)];
      exact (find_nth _ _ _ _ H). }
  assert (Hrun :
    let (r, w') := route_payment flt now req w in
    if gt A B
    then has_status declined r = true /\ accounts w' = accounts w
    else has_status approved r = true
         /\ accounts w'
            = replace_at i (Account.set_balance (B - A)%float account)
                         (accounts w)).
  { destruct req; cbn [route_payment].
    - exact (post_payments_decision flt now body w i account
               Hfind Hsave Hres Hfin Hpos).
    - exact (post_payments_card_decision flt now body w i account
               Hfind Hsave Hres Hfin Hpos). }
  destruct (route_payment flt now req w) as [r w'].
  assert (Happroved :
    gt A B = false ->
    has_status approved r = true
    /\ stored_balance i w' = Some (B - A)%float).
  { intros Hgt. rewrite Hgt in Hrun. destruct Hrun as [Hs Hacc].
    split; [exact Hs|]. unfold stored_balance. rewrite Hacc.
    rewrite (nth_replace_at _ _ _ _ Hnth). reflexivity. }
  split; [|split].
  - intros Hgt. rewrite Hgt in Hrun. destruct Hrun as [Hs Hacc].
    split; [exact Hs|].
    unfold stored_balance. rewrite Hacc, Hnth. reflexivity.
  - intros Hle. apply Happroved, leb_not_gt, Hle.
  - intros Heq. rewrite <- (sub_eq_zero A B Hfin Hpos Heq).
    apply Happroved, leb_not_gt, eqb_leb, Heq.
Qed.

(** ** The ledger *)

(** One branch of a payment, against [ledger_effect]. *)
Ltac ledger_case :=
  match goal with
  | Hf : find_from 0 _ _ = Some (?i, ?a) |- _ =>
      pose proof (find_nth _ _ _ _ Hf);
      split;
      [ intros _ ?;
        first
          [ discriminate
          | do 4 eexists; split; [reflexivity|];
            cbn [accounts transactions];
            split; [first [eassumption | eapply nth_replace_at; eassumption]|];
            repeat (split; [reflexivity|]); reflexivity ]
      | intros [?|?]; first [discriminate | reflexivity] ]
  | |- _ => split; [intros ?; discriminate | intros _; reflexivity]
  end.

Lemma post_payments_ledger flt now body w :
  ledger_effect flt (ByAccountNumber body) w (post_payments flt now body w).
Proof.
  unfold ledger_effect, post_payments, payment_query. cbv zeta.
  run_cases; rewrite ?decided_error, ?decided_status; literals;
    cbn [andb orb negb]; ledger_case.
Qed.

Lemma post_payments_card_ledger flt now body w :
  ledger_effect flt (ByCard body) w (post_payments_card flt now body w).
Proof.
  unfold ledger_effect, post_payments_card, payment_query, cleanCardNumber.
  cbv zeta.
  run_cases; rewrite ?decided_error, ?decided_status; literals;
    cbn [andb orb negb]; ledger_case.
Qed.

(** C3 (amended). A payment attempt leaves an entry in the ledger exactly
    when it completes to a decision and the recorder's write succeeds: then
    the ledger has one new entry, for the account the request resolved to,
    whose [balanceAfter] is the balance stored after the call.  An attempt
    that fails earlier, or whose ledger write fails, writes none. *)
Theorem C3_ledger_entry flt now req w :
  let (r, w') := route_payment flt now req w in
  (decided r = true -> create_throws flt = false ->
   exists i found account entry,
     find_from 0 (payment_query req) (accounts w) = Some (i, found)
     /\ nth_error (accounts w') i = Some account
     /\ Account.accountNumber account = Account.accountNumber found
     /\ transactions w' = transactions w ++ [entry]
     /\ Transaction.accountNumber entry = Account.accountNumber account
     /\ Transaction.balanceAfter entry = Account.balance account)
  /\ (decided r = false \/ create_throws flt = true ->
      transactions w' = transactions w).
Proof.
  destruct req as [body|body]; cbn [route_payment].
  - exact (post_payments_ledger flt now body w).
  - exact (post_payments_card_ledger flt now body w).
Qed.

(** ** Card authentication *)

(** C5. A card payment whose card number is held by a stored account but
    whose expiry month, expiry year or CVV does not string-match the stored
    card never reports a decision and leaves accounts and ledger as they
    were, whatever the balance; a complete request the store answers fails
    with the invalid-card-data error, which is not the error of a card
    number no account holds. *)
Theorem C5_card_authentication flt now body w i account :
  find_from 0 (by_cardNumber (cleanCardNumber body)) (accounts w)
  = Some (i, account) ->
  card_mismatch account body = true ->
  let (r, w') := post_payments_card flt now body w in
  decided r = false
  /\ statusCode r <> 200%N
  /\ accounts w' = accounts w
  /\ transactions w' = transactions w
  /\ (card_request_complete body = true -> findOne_throws flt = false ->
      r = error_response 400 msg_invalid_card_data
      /\ forall w0,
           find_from 0 (by_cardNumber (cleanCardNumber body)) (accounts w0)
           = None ->
           fst (post_payments_card flt now body w0)
           = error_response 404 msg_card_not_found
           /\ fst (post_payments_card flt now body w0) <> r).
Proof.
  intros Hfound Hmismatch.
  unfold cleanCardNumber in Hfound. unfold card_mismatch in Hmismatch.
  unfold post_payments_card, card_request_complete, card_fields_present,
    cleanCardNumber.
  cbv zeta.
  destruct (negb (truthy (CardPaymentBody.cardNumber body))
            || negb (truthy (CardPaymentBody.expMonth body))
            || negb (truthy (CardPaymentBody.expYear body))
            || negb (truthy (CardPaymentBody.cvv body))
            || is_undefined (CardPaymentBody.amount body)
            || is_null (CardPaymentBody.amount body)) eqn:Hmissing.
  - split; [reflexivity|]. split; [discriminate|].
    split; [reflexivity|]. split; [reflexivity|].
    intros Hcomplete. exfalso.
    destruct (truthy (CardPaymentBody.cardNumber body)),
      (truthy (CardPaymentBody.expMonth body)),
      (truthy (CardPaymentBody.expYear body)),
      (truthy (CardPaymentBody.cvv body)),
      (is_undefined (CardPaymentBody.amount body)),
      (is_null (CardPaymentBody.amount body)); discriminate.
  - unfold_async. rewrite Hfound.
    destruct (findOne_throws flt) eqn:Hthrows.
    + split; [reflexivity|]. split; [discriminate|].
      split; [reflexivity|]. split; [reflexivity|]. discriminate.
    + rewrite Hmismatch.
      split; [reflexivity|]. split; [discriminate|].
      split; [reflexivity|]. split; [reflexivity|].
      intros _ _. split; [reflexivity|].
      intros w0 ->. split; [reflexivity | discriminate].
Qed.

(** ** The recorder's failure *)

Lemma post_payments_recorder_failure flt now body w :
  let ok := ledger_fails false flt in
  let ko := ledger_fails true flt in
  let (r, w1) := post_payments ok now body w in
  let (r', w2) := post_payments ko now body w in
  r' = r
  /\ accounts w2 = accounts w1
  /\ (decided r = true ->
      transactions w2 = transactions w
      /\ console w2 = console w ++ [ErrorMessage msg_ledger_write_failed])
  /\ (decided r = false -> w2 = w1).
Proof.
  unfold post_payments. cbv zeta.
  run_cases; cbn [create_throws] in *; try discriminate;
    rewrite ?decided_error, ?decided_status; literals;
    cbn [andb orb negb accounts transactions console];
    repeat split; intros; try reflexivity; discriminate.
Qed.

Lemma post_payments_card_recorder_failure flt now body w :
  let ok := ledger_fails false flt in
  let ko := ledger_fails true flt in
  let (r, w1) := post_payments_card ok now body w in
  let (r', w2) := post_payments_card ko now body w in
  r' = r
  /\ accounts w2 = accounts w1
  /\ (decided r = true ->
      transactions w2 = transactions w
      /\ console w2 = console w ++ [ErrorMessage msg_ledger_write_failed])
  /\ (decided r = false -> w2 = w1).
Proof.
  unfold post_payments_card. cbv zeta.
  run_cases; cbn [create_throws] in *; try discriminate;
    rewrite ?decided_error, ?decided_status; literals;
    cbn [andb orb negb accounts transactions console];
    repeat split; intros; try reflexivity; discriminate.
Qed.

(** C6. Whether the recorder's write fails or not, a payment attempt gives
    the same response, with the same status, and leaves the same accounts.
    When the attempt reached the recording step and the write failed, the
    ledger is as before and the failure is on the console; nothing is
    thrown to the caller, who receives the response. *)
Theorem C6_recorder_failure_swallowed flt now req w :
  let ok := ledger_fails false flt in
  let ko := ledger_fails true flt in
  let (r, w1) := route_payment ok now req w in
  let (r', w2) := route_payment ko now req w in
  r' = r
  /\ accounts w2 = accounts w1
  /\ (decided r = true ->
      transactions w2 = transactions w
      /\ console w2 = console w ++ [ErrorMessage msg_ledger_write_failed])
  /\ (decided r = false -> w2 = w1).
Proof.
  destruct req as [body|body]; cbn [route_payment].
  - exact (post_payments_recorder_failure flt now body w).
  - exact (post_payments_card_recorder_failure flt now body w).
Qed.

(** ** Adjusting a balance *)

(** C8. A request to adjust an account that supplies both [balance] and
    [addBalance] never succeeds and leaves accounts and ledger as they were;
    when the store answers and holds the account, it fails with status 400,
    for an unsupported currency if the request names one and otherwise for
    the two fields, and the world is unchanged. *)
Theorem C8_balance_and_addBalance flt accountNumber body w :
  is_undefined (PatchBody.balance body) = false ->
  is_undefined (PatchBody.addBalance body) = false ->
  let (r, w') := patch_account flt accountNumber body w in
  statusCode r <> 200%N
  /\ accounts w' = accounts w
  /\ transactions w' = transactions w
  /\ (forall i account,
        findOne_throws flt = false ->
        find_from 0 (by_accountNumber accountNumber) (accounts w)
        = Some (i, account) ->
        w' = w
        /\ r = message_response 400
                 (if truthy (PatchBody.currency body)
                     && negb (currency_allowed (PatchBody.currency body))
                  then msg_unsupported_currency
                  else msg_balance_or_addBalance)).
Proof.
  intros Hbalance Hadd. unfold patch_account. cbv zeta.
  rewrite Hbalance, Hadd. cbn [negb andb].
  run_cases;
    (split; [discriminate|]; split; [reflexivity|]; split; [reflexivity|]);
    intros i account Hthrows Hfound; try discriminate; split; reflexivity.
Qed.

(** C7 (amended). A successful adjustment by [addBalance] whose ledger
    write succeeds appends one entry: credit when the delta is [>= 0] and
    debit otherwise, for the magnitude of the delta, from [manual_topup],
    with no transaction id and with the updated balance; when the ledger
    write fails the adjustment still succeeds and appends nothing.  A
    successful adjustment without [addBalance], the absolute set among
    them, appends nothing. *)
Theorem C7_adjustment_ledger flt accountNumber body w :
  let (r, w') := patch_account flt accountNumber body w in
  statusCode r = 200%N ->
  let delta := ToNumber (PatchBody.addBalance body) in
  (is_undefined (PatchBody.addBalance body) = true ->
   transactions w' = transactions w)
  /\ (is_undefined (PatchBody.addBalance body) = false ->
      create_throws flt = true ->
      transactions w' = transactions w)
  /\ (is_undefined (PatchBody.addBalance body) = false ->
      create_throws flt = false ->
      exists i found account entry,
        find_from 0 (by_accountNumber accountNumber) (accounts w)
        = Some (i, found)
        /\ nth_error (accounts w') i = Some account
        /\ Account.accountNumber account = Account.accountNumber found
        /\ transactions w' = transactions w ++ [entry]
        /\ Transaction.accountNumber entry = Account.accountNumber account
        /\ Transaction.type entry = (if ge delta 0 then credit else debit)
        /\ Transaction.amount entry = abs delta
        /\ Transaction.source entry = manual_topup
        /\ Transaction.transactionId entry = None
        /\ Transaction.balanceAfter entry = Account.balance account).
Proof.
  unfold patch_account. cbv zeta.
  destruct (is_undefined (PatchBody.addBalance body)) eqn:Hadd;
    cbn [negb andb];
  run_cases; cbn [statusCode message_response]; intros Hok;
    try discriminate; cbn [negb andb] in *;
    (split; [intros; try discriminate; try reflexivity|]);
    (split; [intros; try discriminate; try reflexivity|]);
    intros; try discriminate.
  all: match goal with
       | Hf : find_from 0 _ _ = Some (?i, ?a) |- _ =>
           pose proof (find_nth _ _ _ _ Hf);
           do 4 eexists; split; [reflexivity|];
           cbn [accounts transactions];
           split; [eapply nth_replace_at; eassumption|];
           repeat (split; [reflexivity|]); reflexivity
       end.
Qed.

(** ** The card number *)

Lemma Forall_nth_error {A} (P : A -> Prop) (l : list A) i x :
  Forall P l -> nth_error l i = Some x -> P x.
Proof.
  intros H Hn. apply nth_error_In in Hn.
  rewrite Forall_forall in H. auto.
Qed.



(** The key is the supplied number without its whitespace code units, in
    their order. *)
Lemma replace_whitespace_runs_filter (s : jsstring) :
  replace_whitespace_runs s = filter (fun c => negb (is_whitespace c)) s.
Proof.
  induction s as [|c s IH]; simpl; [reflexivity|].
  destruct (is_whitespace c); simpl; congruence.
Qed.

Lemma replace_whitespace_runs_fixed (s : jsstring) :
  Forall (fun c => is_whitespace c = false) s ->
  replace_whitespace_runs s = s.
Proof.
  induction 1 as [|c s Hc _ IH]; simpl; [reflexivity|].
  rewrite Hc, IH. reflexivity.
Qed.

(** C10. The key any card payment looks its account up with is the
    supplied card number without its whitespace code units, the others kept
    in their order; two card numbers that differ only in whitespace give
    the same key, so the same account or none, and when both are non-empty
    the two payments run alike.  The handler looks up by that key: a
    complete request whose stripped number no account holds is answered
    with the card-not-found error, and one whose stripped number an account
    holds, with that card's expiry and CVV and a valid amount, is decided
    against the first such account. *)
Theorem C10_card_number_whitespace flt now body w s1 s2 :
  same_up_to_whitespace s1 s2 ->
  let body1 := with_cardNumber (VString s1) body in
  let body2 := with_cardNumber (VString s2) body in
  let stripped := filter (fun c => negb (is_whitespace c)) s1 in
  let A := ToNumber (CardPaymentBody.amount body) in
  (forall b, Forall (fun c => is_whitespace c = false) (cleanCardNumber b))
  /\ (forall b,
        cleanCardNumber b
        = filter (fun c => negb (is_whitespace c))
                 (ToString (CardPaymentBody.cardNumber b)))
  /\ cleanCardNumber body1 = cleanCardNumber body2
  /\ find_from 0 (by_cardNumber (cleanCardNumber body1)) (accounts w)
     = find_from 0 (by_cardNumber (cleanCardNumber body2)) (accounts w)
  /\ (s1 <> [] -> s2 <> [] ->
      post_payments_card flt now body1 w = post_payments_card flt now body2 w)
  /\ (Forall (fun c => is_whitespace c = false) s2 -> stripped = s2)
  /\ (card_request_complete body1 = true -> findOne_throws flt = false ->
      (find_from 0 (by_cardNumber stripped) (accounts w) = None ->
       post_payments_card flt now body1 w
       = (error_response 404 msg_card_not_found, w))
      /\ (forall i account,
            find_from 0 (by_cardNumber stripped) (accounts w)
            = Some (i, account) ->
            card_mismatch account body = false ->
            save_throws flt = false ->
            Number_isFinite A = true ->
            gt A 0 = true ->
            let (r, w') := post_payments_card flt now body1 w in
            if gt A (Account.balance account)
            then has_status declined r = true /\ accounts w' = accounts w
            else has_status approved r = true
                 /\ accounts w'
                    = replace_at i
                        (Account.set_balance
                           (Account.balance account - A)%float account)
                        (accounts w))).
Proof.
  intros Hsame body1 body2 stripped A.
  assert (Hkey : cleanCardNumber body1 = cleanCardNumber body2)
    by exact (same_up_to_whitespace_key s1 s2 Hsame).
  assert (Hstripped : cleanCardNumber body1 = stripped)
    by exact (replace_whitespace_runs_filter s1).
  split; [intros b; apply replace_whitespace_runs_clean|].
  split; [intros b; apply replace_whitespace_runs_filter|].
  split; [exact Hkey|]. split; [rewrite Hkey; reflexivity|].
  split; [|split].
  - intros H1 H2. unfold post_payments_card. cbv zeta.
    change (replace_whitespace_runs
              (ToString (CardPaymentBody.cardNumber body1)))
      with (cleanCardNumber body1).
    change (replace_whitespace_runs
              (ToString (CardPaymentBody.cardNumber body2)))
      with (cleanCardNumber body2).
    rewrite Hkey. subst body1 body2.
    cbn [with_cardNumber CardPaymentBody.cardNumber CardPaymentBody.expMonth
         CardPaymentBody.expYear CardPaymentBody.cvv CardPaymentBody.amount
         CardPaymentBody.currency CardPaymentBody.description
         CardPaymentBody.merchantName truthy].
    destruct s1; [congruence|]. destruct s2; [congruence|]. reflexivity.
  - intros Hclean. rewrite <- Hstripped, Hkey.
    exact (replace_whitespace_runs_fixed s2 Hclean).
  - intros Hcomplete Hfind. split.
    + intros Hnone. rewrite <- Hstripped in Hnone.
      unfold cleanCardNumber in Hnone.
      unfold card_request_complete, card_fields_present in Hcomplete.
      unfold post_payments_card. cbv zeta.
      destruct (truthy (CardPaymentBody.cardNumber body1)),
        (truthy (CardPaymentBody.expMonth body1)),
        (truthy (CardPaymentBody.expYear body1)),
        (truthy (CardPaymentBody.cvv body1)),
        (is_undefined (CardPaymentBody.amount body1)),
        (is_null (CardPaymentBody.amount body1));
        try discriminate Hcomplete.
      cbn [negb orb]. unfold_async. rewrite Hfind, Hnone. reflexivity.
    + intros i account Hfound Hmatch Hsave Hfin Hpos.
      rewrite <- Hstripped in Hfound.
      assert (Hres : resolves_to (ByCard body1) w i account).
      { unfold card_request_complete in Hcomplete.
        apply andb_true_iff in Hcomplete. destruct Hcomplete as [Hc _].
        apply andb_true_iff in Hc. destruct Hc as [Hc _].
        split; [exact Hc|]. split; [exact Hfound | exact Hmatch]. }
      pose proof (post_payments_card_decision flt now body1 w i account
                    Hfind Hsave Hres) as Hdecision.
      cbv zeta in Hdecision.
      change (CardPaymentBody.amount body1)
        with (CardPaymentBody.amount body) in Hdecision.
      fold A in Hdecision. exact (Hdecision Hfin Hpos).
Qed.

(** ** Issued cards stay issued *)

Lemma Forall_replace_at {A} (P : A -> Prop) (l : list A) :
  forall i x, Forall P l -> P x -> Forall P (replace_at i x l).
Proof.
  induction l as [|y l IH]; intros [|i] x Hl Hx; simpl; auto;
    inversion Hl; subst; constructor; auto.
Qed.

Lemma route_payment_cards_issued flt now req w :
  cards_issued w -> cards_issued (snd (route_payment flt now req w)).
Proof.
  unfold cards_issued. intros Hissued.
  destruct req as [body|body]; cbn [route_payment];
    unfold post_payments, post_payments_card; cbv zeta;
    run_cases; cbn [snd accounts]; try assumption.
  all: match goal with
       | Hf : find_from 0 _ _ = Some (?i, ?a) |- _ =>
           apply Forall_replace_at; [assumption|];
           exact (Forall_nth_error _ _ _ _ Hissued (find_nth _ _ _ _ Hf))
       end.
Qed.

Lemma patch_account_cards_issued flt accountNumber body w :
  cards_issued w -> cards_issued (snd (patch_account flt accountNumber body w)).
Proof.
  unfold cards_issued, patch_account. intros Hissued. cbv zeta.
  run_cases; cbn [snd accounts]; try assumption.
  all: match goal with
       | Hf : find_from 0 _ _ = Some (?i, ?a) |- _ =>
           apply Forall_replace_at; [assumption|];
           exact (Forall_nth_error _ _ _ _ Hissued (find_nth _ _ _ _ Hf))
       end.
Qed.

Lemma Forall_remove_first (P : Account.t -> Prop) p l :
  Forall P l -> Forall P (remove_first p l).
Proof.
  induction 1 as [|a l Ha Hl IH]; simpl; [constructor|].
  destruct (p a); [assumption | constructor; assumption].
Qed.

Lemma generateUniqueAccountNumber_accounts flt draw attempts :
  forall i w,
    accounts (snd (generateUniqueAccountNumber_from flt draw i attempts w))
    = accounts w.
Proof.
  induction attempts as [|attempts IH]; intros i w; simpl; [reflexivity|].
  unfold bind, Account_exists, ret.
  destruct (exists_throws flt); [reflexivity|].
  destruct (negb _); [reflexivity | apply IH].
Qed.

Lemma post_accounts_cards_issued flt draw random expYearFull cvv body w :
  cards_issued w ->
  cards_issued (snd (post_accounts flt draw random expYearFull cvv body w)).
Proof.
  unfold cards_issued, post_accounts. intros Hissued. cbv zeta.
  destruct (match AccountBody.ownerName body with
            | VString s => _
            | _ => _
            end) as [finalOwnerName|]; [|assumption].
  unfold try_catch, bind, generateUniqueAccountNumber.
  pose proof (generateUniqueAccountNumber_accounts flt draw 10 0 w) as Hsame.
  destruct (generateUniqueAccountNumber_from flt draw 0 10 w)
    as [[accountNumber|] w1]; cbn [snd] in Hsame.
  - unfold Account_create, ret.
    destruct (insert_throws flt); cbn [snd console_error accounts].
    + rewrite Hsame. assumption.
    + rewrite Hsame. apply Forall_app. split; [assumption|].
      constructor; [|constructor]. cbn [Account.card].
      exists random, expYearFull, cvv. reflexivity.
  - cbn [snd console_error accounts]. rewrite Hsame. assumption.
Qed.

Lemma delete_account_cards_issued flt accountNumber w :
  cards_issued w -> cards_issued (snd (delete_account flt accountNumber w)).
Proof.
  unfold cards_issued, delete_account. intros Hissued.
  unfold try_catch, bind, Account_findOneAndDelete, ret.
  destruct (delete_throws flt); [assumption|].
  destruct (option_map snd _); cbn [snd accounts];
    apply Forall_remove_first; assumption.
Qed.

(** X4. Every card of a world the routes lead to from empty collections
    was issued by [generateCardForAccount]. *)
Lemma reachable_cards_issued w : reachable w -> cards_issued w.
Proof.
  induction 1 as [| flt draw random expYearFull cvv body w _ IH
                  | flt accountNumber body w _ IH
                  | flt accountNumber w _ IH
                  | flt now req w _ IH].
  - constructor.
  - apply post_accounts_cards_issued, IH.
  - apply patch_account_cards_issued, IH.
  - apply delete_account_cards_issued, IH.
  - apply route_payment_cards_issued, IH.
Qed.

(** ** Balances that stay non-negative *)

(** X1. A payment attempt, by account number or by card, approved or not,
    on a store whose balances are all [>= 0] leaves every stored balance
    [>= 0]. *)
Lemma route_payment_balances_nonnegative flt now req w :
  balances_nonnegative w ->
  balances_nonnegative (snd (route_payment flt now req w)).
Proof.
  unfold balances_nonnegative. intros Hw.
  destruct req as [body|body]; cbn [route_payment];
    unfold post_payments, post_payments_card; cbv zeta;
    run_cases; cbn [snd accounts]; try assumption.
  all: match goal with
       | Hf : find_from 0 _ _ = Some (?i, ?a),
         Hv : negb (Number_isFinite ?A) || (?A <=? 0)%float = false |- _ =>
           apply orb_false_iff in Hv; destruct Hv as [Hfin Hle];
           apply negb_false_iff in Hfin;
           apply Forall_replace_at; [assumption|];
           cbn [Account.set_balance Account.balance];
           apply debit_nonneg; try assumption;
           exact (Forall_nth_error _ _ _ _ Hw (find_nth _ _ _ _ Hf))
       end.
Qed.

(** An adjustment without [addBalance] leaves every balance [>= 0]. *)
Lemma patch_account_set_balances_nonnegative flt accountNumber body w :
  is_undefined (PatchBody.addBalance body) = true ->
  balances_nonnegative w ->
  balances_nonnegative (snd (patch_account flt accountNumber body w)).
Proof.
  unfold balances_nonnegative, patch_account. intros Hadd Hw. cbv zeta.
  rewrite Hadd. cbn [negb andb].
  run_cases; cbn [snd accounts]; try assumption.
  all: match goal with
       | Hf : find_from 0 _ _ = Some (?i, ?a) |- _ =>
           pose proof (Forall_nth_error _ _ _ _ Hw (find_nth _ _ _ _ Hf));
           apply Forall_replace_at; [assumption|];
           cbn [Account.set_balance Account.set_currency Account.balance];
           try assumption
       end.
  all: match goal with
       | Hv : true && (negb (Number_isFinite ?x) || (?x <? 0)%float) = false
         |- _ =>
           cbn [andb] in Hv;
           apply orb_false_iff in Hv; destruct Hv as [Hfin Hlt];
           apply negb_false_iff in Hfin;
           apply not_lt_zero_ge; assumption
       end.
Qed.

(** An adjustment by a finite [addBalance] stores the sum, whatever its
    sign. *)
Lemma patch_account_addBalance_stores_sum flt accountNumber delta w i account :
  findOne_throws flt = false ->
  save_throws flt = false ->
  find_from 0 (by_accountNumber accountNumber) (accounts w)
  = Some (i, account) ->
  is_undefined delta = false ->
  Number_isFinite (ToNumber delta) = true ->
  let (r, w') :=
    patch_account flt accountNumber
      (PatchBody.mk VUndefined VUndefined delta) w in
  statusCode r = 200%N
  /\ stored_balance i w'
     = Some (Account.balance account + ToNumber delta)%float.
Proof.
  intros Hfind Hsave Hfound Hdelta Hfin. unfold patch_account. cbv zeta.
  cbn [PatchBody.currency PatchBody.balance PatchBody.addBalance truthy
       is_undefined negb andb].
  rewrite Hdelta. cbn [negb andb].
  unfold_async. rewrite Hfind, Hfound, Hfin. cbn [negb].
  rewrite Hsave, registerTransaction_run.
  unfold stored_balance.
  destruct (create_throws flt); cbn [accounts statusCode];
    rewrite (nth_replace_at _ _ _ _ (find_nth _ _ _ _ Hfound));
    split; reflexivity.
Qed.

(** ** Interleaved payments *)

(** X3. A payment by account number that runs alone through its three
    steps answers and leaves the world as [post_payments] does. *)
Lemma payment_steps_alone flt now body w :
  run flt [0; 0; 0] [Received now body] w
  = ([Responded (fst (post_payments flt now body w))],
     snd (post_payments flt now body w)).
Proof.
  unfold run, post_payments. cbn [nth_error]. unfold payment_step.
  cbv zeta. unfold payment_internal_error.
  run_cases; cbn [replace_at nth_error fst snd]; run_cases;
    cbn [replace_at nth_error fst snd]; run_cases;
    try reflexivity; try discriminate.
Qed.

(** One step of a payment keeps every balance [>= 0], and the document it
    goes on with was read with a balance [>= 0]. *)
Lemma payment_step_balances_nonnegative flt t w :
  balances_nonnegative w -> task_balance_nonnegative t ->
  balances_nonnegative (snd (payment_step flt t w))
  /\ task_balance_nonnegative (fst (payment_step flt t w)).
Proof.
  unfold balances_nonnegative. intros Hw Ht.
  destruct t as [now body|now body i account|now body s reason account|r];
    unfold payment_step, payment_internal_error; cbv zeta;
    run_cases; cbn [fst snd accounts task_balance_nonnegative];
    try (split; [assumption | exact I]).
  - split; [assumption|].
    match goal with
    | Hf : find_from 0 _ _ = Some _ |- _ =>
        exact (Forall_nth_error _ _ _ _ Hw (find_nth _ _ _ _ Hf))
    end.
  - split; [|exact I]. cbn [task_balance_nonnegative] in Ht.
    match goal with
    | Hv : negb (Number_isFinite _) || _ = false |- _ =>
        apply orb_false_iff in Hv; destruct Hv as [Hfin Hle]
    end.
    apply negb_false_iff in Hfin.
    apply Forall_replace_at; [assumption|].
    cbn [Account.set_balance Account.balance].
    apply debit_nonneg; assumption.
Qed.

(** X2. Payments by account number against a store whose balances are all
    [>= 0], however their steps interleave, never store a negative
    balance. *)
Lemma run_balances_nonnegative flt schedule :
  forall tasks w,
    balances_nonnegative w ->
    Forall task_balance_nonnegative tasks ->
    balances_nonnegative (snd (run flt schedule tasks w))
    /\ Forall task_balance_nonnegative (fst (run flt schedule tasks w)).
Proof.
  induction schedule as [|k rest IH]; intros tasks w Hw Htasks; simpl.
  - split; assumption.
  - destruct (nth_error tasks k) as [t|] eqn:Hk; [|apply IH; assumption].
    pose proof (payment_step_balances_nonnegative flt t w Hw
                  (Forall_nth_error _ _ _ _ Htasks Hk)) as [Hw' Ht'].
    destruct (payment_step flt t w) as [t' w']. cbn [fst snd] in *.
    apply IH; [assumption|]. apply Forall_replace_at; assumption.
Qed.

(** ** What each route does to the store *)

Lemma find_from_none (p : Account.t -> bool) (l : list Account.t) :
  forall k, find_from k p l = None <-> existsb p l = false.
Proof.
  induction l as [|a l IH]; intros k; simpl; [split; reflexivity|].
  destruct (p a); simpl; [split; discriminate | apply IH].
Qed.

Lemma find_from_some (p : Account.t -> bool) (l : list Account.t) :
  forall k i a,
    find_from k p l = Some (i, a) ->
    existsb p (firstn (i - k) l) = false.
Proof.
  induction l as [|x l IH]; simpl; intros k i a H; [discriminate|].
  destruct (p x) eqn:Hp.
  - injection H as <- <-. rewrite Nat.sub_diag. reflexivity.
  - pose proof (find_from_nth _ _ _ _ _ H) as (Hle & _ & _).
    apply IH in H.
    replace (i - k) with (S (i - S k)) by lia. simpl. rewrite Hp. exact H.
Qed.

(** The first match of a query is still its first match when the document
    there is replaced by one the query matches. *)
Lemma find_from_replace_at (p : Account.t -> bool) (l : list Account.t) x :
  p x = true ->
  forall k i a,
    find_from k p l = Some (i, a) ->
    find_from k p (replace_at (i - k) x l) = Some (i, x).
Proof.
  intros Hx. induction l as [|y l IH]; simpl; intros k i a H; [discriminate|].
  destruct (p y) eqn:Hp.
  - injection H as <- <-. rewrite Nat.sub_diag. simpl. rewrite Hx. reflexivity.
  - pose proof (find_from_nth _ _ _ _ _ H) as (Hle & _ & _).
    replace (i - k) with (S (i - S k)) by lia. simpl. rewrite Hp.
    apply IH with (a := a). exact H.
Qed.

Lemma find_from_app_new (p : Account.t -> bool) (l : list Account.t) x :
  existsb p l = false -> p x = true ->
  forall k, find_from k p (l ++ [x]) = Some (k + List.length l, x).
Proof.
  intros Hl Hx. induction l as [|y l IH]; simpl; intros k.
  - rewrite Hx, Nat.add_0_r. reflexivity.
  - simpl in Hl. apply orb_false_iff in Hl. destruct Hl as [Hy Hl].
    rewrite Hy, (IH Hl). f_equal. f_equal. lia.
Qed.

Lemma map_replace_at {A B} (f : A -> B) (l : list A) :
  forall i x y,
    nth_error l i = Some y -> f x = f y ->
    map f (replace_at i x l) = map f l.
Proof.
  induction l as [|z l IH]; intros [|i] x y H E; simpl in *;
    try discriminate.
  - injection H as ->. rewrite E. reflexivity.
  - rewrite (IH i x y H E). reflexivity.
Qed.

Lemma replace_at_length {A} (l : list A) :
  forall i x, List.length (replace_at i x l) = List.length l.
Proof.
  induction l as [|z l IH]; intros [|i] x; simpl; auto.
Qed.

(** The other positions keep their documents. *)
Lemma nth_replace_at_other {A} (l : list A) :
  forall i j x, i <> j -> nth_error (replace_at i x l) j = nth_error l j.
Proof.
  induction l as [|z l IH]; intros [|i] [|j] x H; simpl; auto;
    try congruence.
Qed.

Lemma existsb_by_accountNumber n (l : list Account.t) :
  existsb (by_accountNumber n) l = true
  <-> In n (map Account.accountNumber l).
Proof.
  induction l as [|a l IH]; simpl; [split; [discriminate | intros []]|].
  rewrite orb_true_iff, IH. unfold by_accountNumber. rewrite streqb_eq.
  reflexivity.
Qed.

Lemma remove_first_none (p : Account.t -> bool) (l : list Account.t) :
  existsb p l = false -> remove_first p l = l.
Proof.
  induction l as [|a l IH]; simpl; [reflexivity|].
  intros H. apply orb_false_iff in H. destruct H as [Ha Hl].
  rewrite Ha, (IH Hl). reflexivity.
Qed.

(** The document removed is the first the query matches. *)
Lemma remove_first_split (p : Account.t -> bool) (l : list Account.t) :
  forall k i a,
    find_from k p l = Some (i, a) ->
    exists before after,
      l = before ++ a :: after
      /\ remove_first p l = before ++ after
      /\ List.length before = i - k
      /\ existsb p before = false.
Proof.
  induction l as [|x l IH]; simpl; intros k i a H; [discriminate|].
  destruct (p x) eqn:Hp.
  - injection H as <- <-. exists [], l. rewrite Nat.sub_diag. auto.
  - pose proof (find_from_nth _ _ _ _ _ H) as (Hle & _ & _).
    destruct (IH _ _ _ H) as (before & after & -> & Hr & Hlen & Hnone).
    exists (x :: before), after. simpl. rewrite Hr, Hp, Hnone, Hlen.
    repeat split; auto. lia.
Qed.

(** [generateUniqueAccountNumber] leaves the world as it is. *)
Lemma generateUniqueAccountNumber_world flt draw attempts :
  forall i w, snd (generateUniqueAccountNumber_from flt draw i attempts w) = w.
Proof.
  induction attempts as [|attempts IH]; intros i w; simpl; [reflexivity|].
  unfold bind, Account_exists, ret.
  destruct (exists_throws flt); [reflexivity|].
  destruct (negb _); [reflexivity | apply IH].
Qed.

(** The number it returns is the first of its candidates that no account
    carries. *)
Lemma generateUniqueAccountNumber_returns flt draw attempts :
  forall i w n,
    fst (generateUniqueAccountNumber_from flt draw i attempts w) = Normal n ->
    exists_throws flt = false
    /\ exists k,
         i <= k < i + attempts
         /\ n = candidate draw k
         /\ taken (candidate draw k) w = false
         /\ forall j, i <= j < k -> taken (candidate draw j) w = true.
Proof.
  induction attempts as [|attempts IH]; intros i w n;
    cbn [generateUniqueAccountNumber_from]; [discriminate|].
  cbv zeta. unfold bind, Account_exists, ret.
  destruct (exists_throws flt) eqn:Hthrows; [discriminate|].
  fold (candidate draw i). fold (taken (candidate draw i) w).
  destruct (taken (candidate draw i) w) eqn:Htaken; cbn [negb fst].
  - intros H. apply IH in H. destruct H as (_ & k & Hk & -> & Hfree & Hbefore).
    split; [reflexivity|]. exists k. repeat split; try assumption; try lia.
    intros j Hj. destruct (Nat.eq_dec j i) as [->|Hne]; [assumption|].
    apply Hbefore. lia.
  - intros H. injection H as <-. split; [reflexivity|].
    exists i. repeat split; try assumption; try lia.
Qed.

Lemma generateUniqueAccountNumber_first_free flt draw attempts :
  forall i k w,
    exists_throws flt = false ->
    i <= k < i + attempts ->
    (forall j, i <= j < k -> taken (candidate draw j) w = true) ->
    taken (candidate draw k) w = false ->
    generateUniqueAccountNumber_from flt draw i attempts w
    = (Normal (candidate draw k), w).
Proof.
  induction attempts as [|attempts IH]; intros i k w Hthrows Hk Hbefore Hfree;
    cbn [generateUniqueAccountNumber_from]; [lia|].
  cbv zeta. unfold bind, Account_exists, ret. rewrite Hthrows.
  fold (candidate draw i). fold (taken (candidate draw i) w).
  destruct (Nat.eq_dec k i) as [->|Hne].
  - rewrite Hfree. reflexivity.
  - rewrite (Hbefore i) by lia. cbn [negb].
    apply IH; try assumption; try lia.
    intros j Hj. apply Hbefore. lia.
Qed.

Lemma generateUniqueAccountNumber_exhausted flt draw attempts :
  forall i w,
    (forall j, i <= j < i + attempts -> taken (candidate draw j) w = true) ->
    generateUniqueAccountNumber_from flt draw i attempts w = (Throw, w).
Proof.
  induction attempts as [|attempts IH]; intros i w Htaken;
    cbn [generateUniqueAccountNumber_from]; [reflexivity|].
  cbv zeta. unfold bind, Account_exists, ret.
  destruct (exists_throws flt); [reflexivity|].
  fold (candidate draw i). fold (taken (candidate draw i) w).
  rewrite (Htaken i) by lia. cbn [negb].
  apply IH. intros j Hj. apply Htaken. lia.
Qed.

(** ** Names *)

Lemma trim_start_head (s : jsstring) :
  match trim_start s with
  | [] => True
  | c :: _ => is_whitespace c = false
  end.
Proof.
  induction s as [|c s IH]; simpl; [exact I|].
  destruct (is_whitespace c) eqn:E; [exact IH | exact E].
Qed.

Lemma trim_start_fixed (s : jsstring) :
  match s with [] => True | c :: _ => is_whitespace c = false end ->
  trim_start s = s.
Proof.
  destruct s as [|c s]; simpl; [reflexivity|]. intros ->. reflexivity.
Qed.

Lemma trim_start_idempotent (s : jsstring) :
  trim_start (trim_start s) = trim_start s.
Proof. apply trim_start_fixed, trim_start_head. Qed.

Lemma trim_start_suffix (s : jsstring) :
  exists blank, s = blank ++ trim_start s.
Proof.
  induction s as [|c s [blank IH]]; simpl; [exists []; reflexivity|].
  destruct (is_whitespace c).
  - exists (c :: blank). simpl. rewrite <- IH. reflexivity.
  - exists []. reflexivity.
Qed.

(** What [trim] leaves has nothing left to trim. *)
Lemma trim_idempotent (s : jsstring) : trim (trim s) = trim s.
Proof.
  unfold trim.
  set (t := trim_start s). set (u := trim_start (rev t)).
  assert (Hstart : trim_start (rev u) = rev u).
  { apply trim_start_fixed.
    destruct (trim_start_suffix (rev t)) as [blank Hrev]. fold u in Hrev.
    apply (f_equal (@rev N)) in Hrev.
    rewrite rev_involutive, rev_app_distr in Hrev.
    pose proof (trim_start_head s) as Hhead. fold t in Hhead.
    rewrite Hrev in Hhead.
    destruct (rev u) as [|c r]; [exact I | exact Hhead]. }
  rewrite Hstart, rev_involutive. unfold u at 1.
  rewrite trim_start_idempotent. reflexivity.
Qed.

(** The name [POST /api/accounts] stores. *)
Lemma finalOwnerName_normalized (s : jsstring) :
  owner_name_normalized
    (if truthy (VString s) && truthy (VString (trim s))
     then trim s else test_user).
Proof.
  destruct (truthy (VString s) && truthy (VString (trim s))) eqn:E.
  - apply andb_true_iff in E. destruct E as [_ E]. split.
    + simpl in E. destruct (trim s); [discriminate | discriminate].
    + apply trim_idempotent.
  - split; [discriminate | reflexivity].
Qed.

(** ** The routes, case by case *)

Lemma get_account_run flt accountNumber w :
  get_account flt accountNumber w
  = if findOne_throws flt
    then (message_response 500 msg_get_failed,
          mkWorld (accounts w) (transactions w) (console w ++ [ErrorObject]))
    else (match find_from 0 (by_accountNumber accountNumber) (accounts w) with
          | Some (_, account) => mkResponse 200 (Account_toObject account)
          | None => message_response 404 msg_account_not_found
          end, w).
Proof.
  unfold get_account. run_cases; reflexivity.
Qed.

(** A payment changes the accounts only when it is approved, and then only
    the balance of the first account its query matches. *)
Lemma route_payment_accounts flt now req w :
  (has_status approved (fst (route_payment flt now req w)) = false
   /\ accounts (snd (route_payment flt now req w)) = accounts w)
  \/ exists i account,
       find_from 0 (payment_query req) (accounts w) = Some (i, account)
       /\ Number_isFinite (requested_amount req) = true
       /\ (requested_amount req <=? 0)%float = false
       /\ gt (requested_amount req) (Account.balance account) = false
       /\ has_status approved (fst (route_payment flt now req w)) = true
       /\ accounts (snd (route_payment flt now req w))
          = replace_at i
              (Account.set_balance
                 (Account.balance account - requested_amount req)%float
                 account)
              (accounts w).
Proof.
  destruct req as [body|body];
    cbn [route_payment payment_query requested_amount];
    unfold post_payments, post_payments_card, cleanCardNumber; cbv zeta;
    run_cases; cbn [fst snd accounts];
    first
      [ left; split; reflexivity
      | right;
        match goal with
        | Hv : negb (Number_isFinite ?A) || (?A <=? 0)%float = false |- _ =>
            apply orb_false_iff in Hv; destruct Hv as [Hfin Hle];
            apply negb_false_iff in Hfin
        end;
        do 2 eexists; split; [reflexivity|];
        repeat (split; [assumption|]); split; reflexivity ].
Qed.

(** What a payment writes to the ledger. *)
Lemma route_payment_transactions flt now req w :
  transactions (snd (route_payment flt now req w)) = transactions w
  \/ exists entry,
       transactions (snd (route_payment flt now req w))
       = transactions w ++ [entry]
       /\ decided (fst (route_payment flt now req w)) = true
       /\ Transaction.type entry = debit
       /\ Transaction.amount entry = requested_amount req
       /\ Number_isFinite (requested_amount req) = true
       /\ (requested_amount req <=? 0)%float = false
       /\ Transaction.source entry = payment_source req
       /\ Transaction.transactionId entry
          = Some (transactionId_prefix req ++ decimal now)
       /\ response_field "transactionId" (fst (route_payment flt now req w))
          = Some (JString (transactionId_prefix req ++ decimal now))
       /\ response_field "amount" (fst (route_payment flt now req w))
          = Some (JNumber (requested_amount req))
       /\ response_field "accountNumber" (fst (route_payment flt now req w))
          = Some (JString (Transaction.accountNumber entry))
       /\ response_field "remainingBalance"
            (fst (route_payment flt now req w))
          = Some (JNumber (Transaction.balanceAfter entry)).
Proof.
  destruct req as [body|body];
    cbn [route_payment payment_source transactionId_prefix requested_amount];
    unfold post_payments, post_payments_card; cbv zeta;
    run_cases; cbn [fst snd transactions];
    first
      [ left; reflexivity
      | right;
        match goal with
        | Hv : negb (Number_isFinite ?A) || (?A <=? 0)%float = false |- _ =>
            apply orb_false_iff in Hv; destruct Hv as [Hfin Hle];
            apply negb_false_iff in Hfin
        end;
        eexists; split; [reflexivity|];
        repeat (split; [first [assumption | reflexivity]|]); reflexivity ].
Qed.

(** The tests on a number, read back from the branch taken. *)
Ltac number_tests :=
  repeat match goal with
  | H : negb _ || _ = false |- _ =>
      apply orb_false_iff in H; destruct H as [? ?]
  | H : negb _ = false |- _ => apply negb_false_iff in H
  end.

(** An adjustment that does not answer 200 stores nothing; one that does
    replaces the first account with the number by a document that differs
    from it in currency and balance at most. *)
Lemma patch_account_run flt accountNumber body w :
  let (r, w') := patch_account flt accountNumber body w in
  (statusCode r <> 200%N ->
   accounts w' = accounts w /\ transactions w' = transactions w)
  /\ (statusCode r = 200%N ->
      exists i found account,
        find_from 0 (by_accountNumber accountNumber) (accounts w)
        = Some (i, found)
        /\ accounts w' = replace_at i account (accounts w)
        /\ payload r = Account_toObject account
        /\ Account.accountNumber account = Account.accountNumber found
        /\ Account.ownerName account = Account.ownerName found
        /\ Account.card account = Account.card found
        /\ (truthy (PatchBody.currency body) = true ->
            currency_allowed (PatchBody.currency body) = true
            /\ Account.currency account = ToString (PatchBody.currency body))
        /\ (truthy (PatchBody.currency body) = false ->
            Account.currency account = Account.currency found)
        /\ (is_undefined (PatchBody.addBalance body) = false ->
            is_undefined (PatchBody.balance body) = true
            /\ Number_isFinite (ToNumber (PatchBody.addBalance body)) = true
            /\ Account.balance account
               = (Account.balance found
                  + ToNumber (PatchBody.addBalance body))%float)
        /\ (is_undefined (PatchBody.addBalance body) = true ->
            is_undefined (PatchBody.balance body) = false ->
            Number_isFinite (ToNumber (PatchBody.balance body)) = true
            /\ (ToNumber (PatchBody.balance body) <? 0)%float = false
            /\ Account.balance account = ToNumber (PatchBody.balance body))
        /\ (is_undefined (PatchBody.addBalance body) = true ->
            is_undefined (PatchBody.balance body) = true ->
            Account.balance account = Account.balance found)).
Proof.
  unfold patch_account. cbv zeta.
  destruct (is_undefined (PatchBody.balance body)) eqn:Hbalance,
           (is_undefined (PatchBody.addBalance body)) eqn:Hadd,
           (truthy (PatchBody.currency body)) eqn:Hcurrency,
           (currency_allowed (PatchBody.currency body)) eqn:Hallowed;
    cbn [negb andb orb];
    run_cases; cbn [statusCode message_response payload];
    (split;
     [ intros Hne;
       first [split; reflexivity | exfalso; apply Hne; reflexivity]
     | intros Hok; try discriminate Hok ]).
  all: number_tests; do 3 eexists; split; [reflexivity|];
    cbn [accounts Account.set_balance Account.set_currency
         Account.accountNumber Account.ownerName Account.card
         Account.currency Account.balance];
    repeat (split; [reflexivity|]);
    repeat split; intros; try discriminate; try reflexivity; assumption.
Qed.

(** What an adjustment writes to the ledger. *)
Lemma patch_account_transactions flt accountNumber body w :
  transactions (snd (patch_account flt accountNumber body w)) = transactions w
  \/ exists entry,
       transactions (snd (patch_account flt accountNumber body w))
       = transactions w ++ [entry]
       /\ Number_isFinite (ToNumber (PatchBody.addBalance body)) = true
       /\ Transaction.amount entry = abs (ToNumber (PatchBody.addBalance body))
       /\ Transaction.source entry = manual_topup
       /\ Transaction.transactionId entry = None.
Proof.
  unfold patch_account. cbv zeta.
  run_cases; cbn [snd transactions];
    first
      [ left; reflexivity
      | right; number_tests; eexists; split; [reflexivity|];
        repeat (split; [first [assumption | reflexivity]|]); reflexivity ].
Qed.

(** A deletion removes the first account with the number and nothing else,
    and leaves the ledger as it is. *)
Lemma delete_account_run flt accountNumber w :
  let (r, w') := delete_account flt accountNumber w in
  transactions w' = transactions w
  /\ (statusCode r <> 200%N -> accounts w' = accounts w)
  /\ (statusCode r = 200%N ->
      exists i account,
        find_from 0 (by_accountNumber accountNumber) (accounts w)
        = Some (i, account)
        /\ accounts w' = remove_first (by_accountNumber accountNumber)
                           (accounts w)
        /\ console w' = console w
        /\ response_field "accountNumber" r
           = Some (JString (Account.accountNumber account))).
Proof.
  unfold delete_account, try_catch, bind, Account_findOneAndDelete, ret,
    console_error.
  destruct (delete_throws flt).
  - split; [reflexivity|]. split; [reflexivity | discriminate].
  - destruct (find_from 0 (by_accountNumber accountNumber) (accounts w))
      as [[i account]|] eqn:Hfound; cbn [option_map snd].
    + split; [reflexivity|]. split.
      * intros Hne. exfalso. apply Hne. reflexivity.
      * intros _. exists i, account. repeat split; reflexivity.
    + split; [reflexivity|]. split; [|discriminate]. intros _.
      cbn [accounts]. apply remove_first_none.
      apply (find_from_none _ _ 0). exact Hfound.
Qed.

(** An account is created with the first free candidate number, a currency
    of [allowedCurrencies], a balance [>= 0], a normalized name and an
    issued card, at the end of the collection; or nothing is stored. *)
Lemma post_accounts_run flt draw random expYearFull cvv body w :
  let out := post_accounts flt draw random expYearFull cvv body w in
  transactions (snd out) = transactions w
  /\ ((accounts (snd out) = accounts w
       /\ (fst out = Throw
           \/ fst out = Normal (message_response 500 msg_create_failed)))
      \/ exists k account,
           fst out = Normal (mkResponse 201 (Account_toObject account))
           /\ snd out
              = mkWorld (accounts w ++ [account]) (transactions w) (console w)
           /\ k < 10
           /\ Account.accountNumber account = candidate draw k
           /\ taken (candidate draw k) w = false
           /\ (forall j, j < k -> taken (candidate draw j) w = true)
           /\ Account.card account
              = generateCardForAccount random expYearFull cvv
           /\ includes allowedCurrencies (Account.currency account) = true
           /\ ge (Account.balance account) 0 = true
           /\ owner_name_normalized (Account.ownerName account)).
Proof.
  unfold post_accounts. cbv zeta.
  assert (Hname :
    forall o,
      match AccountBody.ownerName body with
      | VString s =>
          Some (if truthy (AccountBody.ownerName body)
                   && truthy (VString (trim s))
                then trim s else test_user)
      | _ => if truthy (AccountBody.ownerName body)
             then None else Some test_user
      end = Some o -> owner_name_normalized o).
  { intros o. destruct (AccountBody.ownerName body) as [| |b|x|s];
      cbn [truthy]; intros H.
    - injection H as <-. split; [discriminate | reflexivity].
    - injection H as <-. split; [discriminate | reflexivity].
    - destruct b; [discriminate|].
      injection H as <-. split; [discriminate | reflexivity].
    - destruct (negb _); [discriminate|].
      injection H as <-. split; [discriminate | reflexivity].
    - injection H as <-. apply (finalOwnerName_normalized s). }
  destruct (match AccountBody.ownerName body with
            | VString s => _
            | _ => _
            end) as [finalOwnerName|];
    [|split; [reflexivity | left; split; [reflexivity | left; reflexivity]]].
  specialize (Hname finalOwnerName eq_refl).
  unfold try_catch, bind, generateUniqueAccountNumber.
  pose proof (generateUniqueAccountNumber_world flt draw 10 0 w) as Hworld.
  pose proof (generateUniqueAccountNumber_returns flt draw 10 0 w) as Hnumber.
  destruct (generateUniqueAccountNumber_from flt draw 0 10 w)
    as [[accountNumber|] w1]; cbn [fst snd] in Hworld, Hnumber; subst w1.
  - destruct (Hnumber accountNumber eq_refl)
      as (_ & k & Hk & -> & Hfree & Hbefore).
    unfold Account_create, ret.
    destruct (insert_throws flt); cbn [fst snd console_error accounts
                                       transactions].
    + split; [reflexivity|]. left. split; [reflexivity | right; reflexivity].
    + split; [reflexivity|]. right. exists k. eexists.
      split; [reflexivity|]. split; [reflexivity|].
      cbn [Account.accountNumber Account.card Account.currency
           Account.balance Account.ownerName].
      split; [lia|]. split; [reflexivity|]. split; [exact Hfree|].
      split; [intros j Hj; apply Hbefore; lia|].
      split; [reflexivity|]. split; [|split; [|exact Hname]].
      * unfold currency_allowed.
        destruct (AccountBody.currency body) as [| |b|x|s];
          try reflexivity.
        destruct (includes allowedCurrencies s) eqn:E;
          [exact E | reflexivity].
      * destruct (AccountBody.initialBalance body) as [| |b|x|s];
          try reflexivity.
        destruct (ge x 0) eqn:E; [exact E | reflexivity].
  - cbn [fst snd console_error accounts transactions].
    split; [reflexivity|]. left. split; [reflexivity | right; reflexivity].
Qed.

(** ** Invariants of the store *)

Lemma NoDup_snoc {A} (l : list A) x : NoDup l -> ~ In x l -> NoDup (l ++ [x]).
Proof.
  induction 1 as [|y l Hy Hl IH]; simpl; intros Hx.
  - constructor; [exact Hx | constructor].
  - constructor.
    + rewrite in_app_iff. simpl. intros [Hin|[E|[]]].
      * exact (Hy Hin).
      * apply Hx. left. symmetry. exact E.
    + apply IH. intros Hin. apply Hx. right. exact Hin.
Qed.

Lemma not_taken n w :
  taken n w = false -> ~ In n (map Account.accountNumber (accounts w)).
Proof.
  unfold taken. intros H Hin. apply existsb_by_accountNumber in Hin.
  congruence.
Qed.

(** The invariants below hold of every account when they hold of the
    accounts before and each route keeps them. *)
Ltac by_route H :=
  induction H as [| flt draw random expYearFull cvv body w _ IH
                  | flt accountNumber body w _ IH
                  | flt accountNumber w _ IH
                  | flt now req w _ IH].

Lemma post_accounts_numbers_unique flt draw random expYearFull cvv body w :
  account_numbers_unique w ->
  account_numbers_unique
    (snd (post_accounts flt draw random expYearFull cvv body w)).
Proof.
  unfold account_numbers_unique. intros Hw.
  destruct (post_accounts_run flt draw random expYearFull cvv body w)
    as [_ [[-> _]|(k & account & _ & -> & _ & Hnumber & Hfree & _)]];
    [assumption|].
  cbn [accounts]. rewrite map_app. cbn [map].
  apply NoDup_snoc; [assumption|]. rewrite Hnumber. apply not_taken, Hfree.
Qed.

Lemma patch_account_numbers flt accountNumber body w :
  map Account.accountNumber
      (accounts (snd (patch_account flt accountNumber body w)))
  = map Account.accountNumber (accounts w).
Proof.
  pose proof (patch_account_run flt accountNumber body w) as Hrun.
  destruct (patch_account flt accountNumber body w) as [r w'].
  destruct Hrun as [Hfailed Hok]. cbn [snd].
  destruct (N.eq_dec (statusCode r) 200) as [E|E].
  - destruct (Hok E) as (i & found & account & Hfound & -> & _ & Hn & _).
    apply (map_replace_at _ _ _ _ _ (find_nth _ _ _ _ Hfound) Hn).
  - destruct (Hfailed E) as [-> _]. reflexivity.
Qed.

Lemma route_payment_numbers flt now req w :
  map Account.accountNumber
      (accounts (snd (route_payment flt now req w)))
  = map Account.accountNumber (accounts w).
Proof.
  destruct (route_payment_accounts flt now req w)
    as [[_ ->]|(i & account & Hfound & _ & _ & _ & _ & ->)]; [reflexivity|].
  apply (map_replace_at _ _ _ _ _ (find_nth _ _ _ _ Hfound)). reflexivity.
Qed.

Lemma delete_account_numbers_unique flt accountNumber w :
  account_numbers_unique w ->
  account_numbers_unique (snd (delete_account flt accountNumber w)).
Proof.
  unfold account_numbers_unique. intros Hw.
  pose proof (delete_account_run flt accountNumber w) as Hrun.
  destruct (delete_account flt accountNumber w) as [r w'].
  destruct Hrun as (_ & Hfailed & Hok). cbn [snd].
  destruct (N.eq_dec (statusCode r) 200) as [E|E].
  - destruct (Hok E) as (i & account & Hfound & -> & _).
    destruct (remove_first_split _ _ _ _ _ Hfound)
      as (before & after & Hsplit & -> & _).
    rewrite Hsplit, map_app in Hw. cbn [map] in Hw.
    rewrite map_app. exact (NoDup_remove_1 _ _ _ Hw).
  - rewrite (Hfailed E). assumption.
Qed.

Lemma reachable_numbers_unique w : reachable w -> account_numbers_unique w.
Proof.
  intros H. by_route H.
  - constructor.
  - apply post_accounts_numbers_unique, IH.
  - unfold account_numbers_unique. rewrite patch_account_numbers. exact IH.
  - apply delete_account_numbers_unique, IH.
  - unfold account_numbers_unique. rewrite route_payment_numbers. exact IH.
Qed.

Lemma currency_allowed_string v :
  currency_allowed v = true -> includes allowedCurrencies (ToString v) = true.
Proof.
  destruct v; simpl; try discriminate. auto.
Qed.

Lemma reachable_currencies w : reachable w -> currencies_allowed w.
Proof.
  unfold currencies_allowed. intros H. by_route H.
  - constructor.
  - destruct (post_accounts_run flt draw random expYearFull cvv body w)
      as [_ [[-> _]|(k & account & _ & -> & Hrest)]]; [assumption|].
    cbn [accounts]. apply Forall_app. split; [assumption|].
    constructor; [tauto | constructor].
  - pose proof (patch_account_run flt accountNumber body w) as Hrun.
    destruct (patch_account flt accountNumber body w) as [r w'].
    destruct Hrun as [Hfailed Hok]. cbn [snd].
    destruct (N.eq_dec (statusCode r) 200) as [E|E].
    + destruct (Hok E)
        as (i & found & account & Hfound & -> & _ & _ & _ & _
            & Hset & Hkept & _).
      apply Forall_replace_at; [assumption|].
      destruct (truthy (PatchBody.currency body)).
      * destruct (Hset eq_refl) as [Hallowed ->].
        apply currency_allowed_string, Hallowed.
      * rewrite (Hkept eq_refl).
        exact (Forall_nth_error _ _ _ _ IH (find_nth _ _ _ _ Hfound)).
    + destruct (Hfailed E) as [-> _]. assumption.
  - pose proof (delete_account_run flt accountNumber w) as Hrun.
    destruct (delete_account flt accountNumber w) as [r w'].
    destruct Hrun as (_ & Hfailed & Hok). cbn [snd].
    destruct (N.eq_dec (statusCode r) 200) as [E|E].
    + destruct (Hok E) as (i & account & _ & -> & _).
      apply Forall_remove_first. assumption.
    + rewrite (Hfailed E). assumption.
  - destruct (route_payment_accounts flt now req w)
      as [[_ ->]|(i & account & Hfound & _ & _ & _ & _ & ->)]; [assumption|].
    apply Forall_replace_at; [assumption|].
    exact (Forall_nth_error _ _ _ _ IH (find_nth _ _ _ _ Hfound)).
Qed.

Lemma reachable_owner_names w : reachable w -> owner_names_normalized w.
Proof.
  unfold owner_names_normalized. intros H. by_route H.
  - constructor.
  - destruct (post_accounts_run flt draw random expYearFull cvv body w)
      as [_ [[-> _]|(k & account & _ & -> & Hrest)]]; [assumption|].
    cbn [accounts]. apply Forall_app. split; [assumption|].
    constructor; [tauto | constructor].
  - pose proof (patch_account_run flt accountNumber body w) as Hrun.
    destruct (patch_account flt accountNumber body w) as [r w'].
    destruct Hrun as [Hfailed Hok]. cbn [snd].
    destruct (N.eq_dec (statusCode r) 200) as [E|E].
    + destruct (Hok E)
        as (i & found & account & Hfound & -> & _ & _ & Hname & _).
      apply Forall_replace_at; [assumption|]. rewrite Hname.
      exact (Forall_nth_error _ _ _ _ IH (find_nth _ _ _ _ Hfound)).
    + destruct (Hfailed E) as [-> _]. assumption.
  - pose proof (delete_account_run flt accountNumber w) as Hrun.
    destruct (delete_account flt accountNumber w) as [r w'].
    destruct Hrun as (_ & Hfailed & Hok). cbn [snd].
    destruct (N.eq_dec (statusCode r) 200) as [E|E].
    + destruct (Hok E) as (i & account & _ & -> & _).
      apply Forall_remove_first. assumption.
    + rewrite (Hfailed E). assumption.
  - destruct (route_payment_accounts flt now req w)
      as [[_ ->]|(i & account & Hfound & _ & _ & _ & _ & ->)]; [assumption|].
    apply Forall_replace_at; [assumption|].
    exact (Forall_nth_error _ _ _ _ IH (find_nth _ _ _ _ Hfound)).
Qed.

(** X5. In every world the routes lead to from empty collections, no two
    accounts carry the same account number, every currency is one of
    [USD], [MXN] and [JPY], and every owner name is non-empty and
    trimmed. *)
Theorem reachable_accounts_well_formed w :
  reachable w ->
  account_numbers_unique w /\ currencies_allowed w
  /\ owner_names_normalized w.
Proof.
  intros H. split; [|split].
  - apply reachable_numbers_unique, H.
  - apply reachable_currencies, H.
  - apply reachable_owner_names, H.
Qed.

(** ** Balances without [addBalance] *)

(** X6. In every world the routes lead to from empty collections without
    an adjustment by [addBalance], every stored balance is [>= 0]: the
    balance an account is created with, the balance an adjustment sets and
    the balance a payment leaves. *)
Theorem reachable_without_addBalance_nonnegative w :
  reachable_without_addBalance w -> balances_nonnegative w.
Proof.
  unfold balances_nonnegative.
  induction 1 as [| flt draw random expYearFull cvv body w _ IH
                  | flt accountNumber body w Hadd _ IH
                  | flt accountNumber w _ IH
                  | flt now req w _ IH].
  - constructor.
  - destruct (post_accounts_run flt draw random expYearFull cvv body w)
      as [_ [[-> _]|(k & account & _ & -> & Hrest)]]; [assumption|].
    cbn [accounts]. apply Forall_app. split; [assumption|].
    constructor; [tauto | constructor].
  - apply patch_account_set_balances_nonnegative; assumption.
  - pose proof (delete_account_run flt accountNumber w) as Hrun.
    destruct (delete_account flt accountNumber w) as [r w'].
    destruct Hrun as (_ & Hfailed & Hok). cbn [snd].
    destruct (N.eq_dec (statusCode r) 200) as [E|E].
    + destruct (Hok E) as (i & account & _ & -> & _).
      apply Forall_remove_first. assumption.
    + rewrite (Hfailed E). assumption.
  - destruct (route_payment_accounts flt now req w)
      as [[_ ->]|(i & account & Hfound & Hfin & Hle & Hgt & _ & ->)]; [assumption|].
    apply Forall_replace_at; [assumption|].
    cbn [Account.set_balance Account.balance].
    apply debit_nonneg; try assumption.
    exact (Forall_nth_error _ _ _ _ IH (find_nth _ _ _ _ Hfound)).
Qed.

(** ** The ledger's entries *)

Lemma SFcompare_refl_finite s m e :
  SFcompare (S754_finite s m e) (S754_finite s m e) = Some Eq.
Proof.
  simpl. rewrite Z.compare_refl, Pos.compare_cont_refl.
  destruct s; reflexivity.
Qed.

(** The magnitude of a finite number is finite and [>= 0]. *)
Lemma abs_finite_nonneg (x : float) :
  Number_isFinite x = true ->
  Number_isFinite (abs x) = true /\ ge (abs x) 0 = true.
Proof.
  unfold Number_isFinite, ge, is_nan, is_infinity.
  rewrite !eqb_spec, leb_spec, !abs_spec.
  change (Prim2SF infinity) with (S754_infinity false).
  change (Prim2SF 0) with (S754_zero false).
  unfold SFeqb, SFleb.
  destruct (Prim2SF x) as [s|s| |s m e]; cbn [SFabs];
    try (intros H; discriminate H); try (intros _; split; reflexivity).
  - destruct s; intros H; discriminate H.
  - intros _. rewrite SFcompare_refl_finite. split; reflexivity.
Qed.

Lemma gt_ge (x y : float) : gt x y = true -> ge x y = true.
Proof.
  unfold gt, ge. rewrite ltb_spec, leb_spec. unfold SFltb, SFleb.
  destruct (SFcompare (Prim2SF y) (Prim2SF x)) as [[]|]; congruence.
Qed.

Lemma reachable_ledger w : reachable w -> ledger_well_formed w.
Proof.
  unfold ledger_well_formed. intros H. by_route H.
  - constructor.
  - destruct (post_accounts_run flt draw random expYearFull cvv body w)
      as [-> _]. assumption.
  - destruct (patch_account_transactions flt accountNumber body w)
      as [->|(entry & -> & Hfin & Hamount & Hsource & Hid)]; [assumption|].
    apply Forall_app. split; [assumption|]. constructor; [|constructor].
    unfold entry_well_formed. rewrite Hamount, Hsource.
    destruct (abs_finite_nonneg _ Hfin). auto.
  - pose proof (delete_account_run flt accountNumber w) as Hrun.
    destruct (delete_account flt accountNumber w) as [r w']. cbn [snd].
    destruct Hrun as (-> & _). assumption.
  - destruct (route_payment_transactions flt now req w)
      as [->|(entry & -> & _ & Htype & Hamount & Hfin & Hle & Hsource & Hid & _)];
      [assumption|].
    apply Forall_app. split; [assumption|]. constructor; [|constructor].
    unfold entry_well_formed. rewrite Hamount, Hsource, Htype, Hid.
    pose proof (valid_amount_positive _ Hfin Hle) as Hpos.
    split; [assumption|]. split; [apply gt_ge, Hpos|].
    destruct req; cbn [payment_source transactionId_prefix];
      (split; [reflexivity|]); (split; [assumption|]); exists now;
      reflexivity.
Qed.

(** X7. In every world the routes lead to from empty collections, every
    ledger entry has a finite amount [>= 0]; an entry written by a payment
    route is a debit of an amount [> 0] whose transaction id is the route's
    prefix followed by a decimal number, and an entry written by an
    adjustment has no transaction id. *)
Theorem reachable_ledger_well_formed w :
  reachable w ->
  forall entry,
    In entry (transactions w) -> entry_well_formed entry.
Proof.
  intros H. apply Forall_forall. apply reachable_ledger, H.
Qed.

(** ** Reading back what a route stored *)

(** A payment that reports a decision answers with the number and the
    balance of the document now stored where its query found the account,
    and with the route's transaction id. *)
Lemma route_payment_decided flt now req w :
  let (r, w') := route_payment flt now req w in
  decided r = true ->
  exists i found account,
    find_from 0 (payment_query req) (accounts w) = Some (i, found)
    /\ nth_error (accounts w') i = Some account
    /\ Account.accountNumber account = Account.accountNumber found
    /\ response_field "accountNumber" r
       = Some (JString (Account.accountNumber account))
    /\ response_field "remainingBalance" r
       = Some (JNumber (Account.balance account))
    /\ response_field "transactionId" r
       = Some (JString (transactionId_prefix req ++ decimal now)).
Proof.
  destruct req as [body|body];
    cbn [route_payment payment_query transactionId_prefix];
    unfold post_payments, post_payments_card, cleanCardNumber; cbv zeta;
    run_cases; rewrite ?decided_error; intros Hdecided;
    try discriminate Hdecided.
  all: match goal with
       | Hf : find_from 0 _ _ = Some (?i, ?a) |- _ =>
           pose proof (find_nth _ _ _ _ Hf);
           do 3 eexists; split; [reflexivity|];
           cbn [accounts];
           split; [first [eassumption | eapply nth_replace_at; eassumption]|];
           repeat (split; [reflexivity|]); reflexivity
       end.
Qed.

(** In a store without two accounts of the same number, the account at a
    position is the one a lookup by its number finds. *)
Lemma find_from_unique (l : list Account.t) :
  NoDup (map Account.accountNumber l) ->
  forall k i a,
    nth_error l i = Some a ->
    find_from k (by_accountNumber (Account.accountNumber a)) l
    = Some (k + i, a).
Proof.
  induction l as [|x l IH]; intros Hl k [|i] a Hi; simpl in *;
    try discriminate.
  - injection Hi as ->. unfold by_accountNumber.
    rewrite (proj2 (streqb_eq _ _) eq_refl), Nat.add_0_r. reflexivity.
  - inversion Hl as [|? ? Hx Hl']; subst.
    destruct (by_accountNumber (Account.accountNumber a) x) eqn:E.
    + exfalso. apply Hx. unfold by_accountNumber in E.
      apply streqb_eq in E. rewrite E.
      apply in_map, (nth_error_In _ _ Hi).
    + rewrite (IH Hl' (S k) i a Hi). f_equal. f_equal. lia.
Qed.

(** X8. An account that [POST /api/accounts] answers with status 201 is
    stored at the end of the collection under a number no account carried,
    and a [GET] of that number answers 200 with the same document. *)
Theorem post_accounts_then_get
  flt flt' draw random expYearFull cvv body w r w' :
  post_accounts flt draw random expYearFull cvv body w = (Normal r, w') ->
  statusCode r = 201%N ->
  findOne_throws flt' = false ->
  exists account,
    payload r = Account_toObject account
    /\ accounts w' = accounts w ++ [account]
    /\ taken (Account.accountNumber account) w = false
    /\ get_account flt' (Account.accountNumber account) w'
       = (mkResponse 200 (payload r), w').
Proof.
  intros Hrun Hcreated Hfind.
  destruct (post_accounts_run flt draw random expYearFull cvv body w)
    as [_ [[_ [Hout|Hout]]
          |(k & account & Hout & Hworld & _ & Hnumber & Hfree & _)]];
    rewrite Hrun in *; cbn [fst snd] in *.
  - discriminate Hout.
  - injection Hout as ->. discriminate Hcreated.
  - injection Hout as ->. subst w'. exists account. cbn [payload accounts].
    rewrite Hnumber.
    repeat split; try assumption.
    rewrite get_account_run, Hfind. cbn [accounts].
    rewrite (find_from_app_new _ _ account Hfree); [reflexivity|].
    unfold by_accountNumber. apply streqb_eq. exact Hnumber.
Qed.

(** X9. An adjustment that answers 200 is read back by a [GET] of the same
    account number: same status, same document, and the world is left as
    the adjustment left it. *)
Theorem patch_account_then_get flt flt' accountNumber body w :
  findOne_throws flt' = false ->
  let (r, w') := patch_account flt accountNumber body w in
  statusCode r = 200%N ->
  get_account flt' accountNumber w' = (r, w').
Proof.
  intros Hfind.
  pose proof (patch_account_run flt accountNumber body w) as Hrun.
  destruct (patch_account flt accountNumber body w) as [r w'].
  destruct Hrun as [_ Hok]. intros E.
  destruct (Hok E) as (i & found & account & Hfound & Haccounts & Hpayload
                       & Hnumber & _).
  rewrite get_account_run, Hfind, Haccounts.
  pose proof (find_from_nth _ _ _ _ _ Hfound) as (_ & _ & Hmatch).
  assert (Hmatch' : by_accountNumber accountNumber account = true).
  { unfold by_accountNumber in *. rewrite Hnumber. exact Hmatch. }
  pose proof (find_from_replace_at _ _ account Hmatch' _ _ _ Hfound) as Hnew.
  rewrite Nat.sub_0_r in Hnew. rewrite Hnew, <- Hpayload.
  destruct r as [code p]. cbn [statusCode payload] in *. subst code.
  reflexivity.
Qed.

(** X10. In a store without two accounts of the same number, a payment
    that reports a decision is read back by a [GET] of the account number
    it answers with: the document's balance is the [remainingBalance] of
    the response. *)
Theorem payment_then_get flt flt' now req w :
  account_numbers_unique w ->
  findOne_throws flt' = false ->
  let (r, w') := route_payment flt now req w in
  decided r = true ->
  exists account,
    response_field "accountNumber" r
    = Some (JString (Account.accountNumber account))
    /\ response_field "remainingBalance" r
       = Some (JNumber (Account.balance account))
    /\ get_account flt' (Account.accountNumber account) w'
       = (mkResponse 200 (Account_toObject account), w').
Proof.
  unfold account_numbers_unique. intros Hunique Hfind.
  pose proof (route_payment_decided flt now req w) as Hrun.
  pose proof (route_payment_numbers flt now req w) as Hnumbers.
  destruct (route_payment flt now req w) as [r w']. cbn [snd] in Hnumbers.
  intros Hdecided.
  destruct (Hrun Hdecided)
    as (i & found & account & _ & Hnth & _ & Hnumber & Hbalance & _).
  exists account. split; [assumption|]. split; [assumption|].
  rewrite get_account_run, Hfind.
  rewrite <- Hnumbers in Hunique.
  rewrite (find_from_unique _ Hunique 0 i account Hnth). reflexivity.
Qed.

(** X11. A deletion that answers 200 removes the first account with the
    number and no other document, and leaves the ledger, the entries of
    that account among them, as it was.  In a store without two accounts of
    the same number, a [GET] of the number then answers 404 and a second
    deletion that the store answers does too. *)
Theorem delete_account_then_get flt flt' accountNumber w :
  let (r, w') := delete_account flt accountNumber w in
  statusCode r = 200%N ->
  (exists before account after,
     accounts w = before ++ account :: after
     /\ accounts w' = before ++ after
     /\ Account.accountNumber account = accountNumber
     /\ existsb (by_accountNumber accountNumber) before = false)
  /\ transactions w' = transactions w
  /\ (account_numbers_unique w ->
      taken accountNumber w' = false
      /\ (findOne_throws flt' = false ->
          get_account flt' accountNumber w'
          = (message_response 404 msg_account_not_found, w'))
      /\ (delete_throws flt' = false ->
          delete_account flt' accountNumber w'
          = (message_response 404 msg_account_not_found, w'))).
Proof.
  pose proof (delete_account_run flt accountNumber w) as Hrun.
  destruct (delete_account flt accountNumber w) as [r w'].
  destruct Hrun as (Hledger & _ & Hok). intros E.
  destruct (Hok E) as (i & account & Hfound & Haccounts & _).
  destruct (remove_first_split _ _ _ _ _ Hfound)
    as (before & after & Hsplit & Hremoved & _ & Hnone).
  pose proof (find_from_nth _ _ _ _ _ Hfound) as (_ & _ & Hmatch).
  unfold by_accountNumber in Hmatch. apply streqb_eq in Hmatch.
  split; [|split; [exact Hledger|]].
  - exists before, account, after. rewrite Haccounts, Hremoved. auto.
  - unfold account_numbers_unique. intros Hunique.
    assert (Hgone : taken accountNumber w' = false).
    { unfold taken. rewrite Haccounts, Hremoved.
      destruct (existsb (by_accountNumber accountNumber) (before ++ after))
        eqn:Hstill; [exfalso | reflexivity].
      apply existsb_by_accountNumber in Hstill.
      rewrite Hsplit, map_app in Hunique. cbn [map] in Hunique.
      apply NoDup_remove_2 in Hunique. apply Hunique.
      rewrite Hmatch, <- map_app. exact Hstill. }
    split; [exact Hgone|]. unfold taken in Hgone.
    pose proof (proj2 (find_from_none _ _ 0) Hgone) as Hnothing.
    split.
    + intros Hfind. rewrite get_account_run, Hfind, Hnothing. reflexivity.
    + intros Hdelete.
      unfold delete_account, try_catch, bind, Account_findOneAndDelete, ret.
      rewrite Hdelete, Hnothing. cbn [option_map].
      rewrite (remove_first_none _ _ Hgone). destruct w'; reflexivity.
Qed.

(** ** What a route leaves untouched *)

(** X12. A payment that is not approved leaves every account as it was.
    An approved payment changes one document, the first its query matches,
    and of that document the balance alone, which becomes the balance less
    the amount; every other position keeps its document. *)
Theorem payment_changes_one_balance flt now req w :
  let (r, w') := route_payment flt now req w in
  (has_status approved r = false -> accounts w' = accounts w)
  /\ (has_status approved r = true ->
      exists i found,
        find_from 0 (payment_query req) (accounts w) = Some (i, found)
        /\ nth_error (accounts w') i
           = Some (Account.mk
                     (Account.accountNumber found) (Account.ownerName found)
                     (Account.balance found - requested_amount req)%float
                     (Account.currency found) (Account.card found))
        /\ List.length (accounts w') = List.length (accounts w)
        /\ forall j, j <> i ->
             nth_error (accounts w') j = nth_error (accounts w) j).
Proof.
  pose proof (route_payment_accounts flt now req w) as Hrun.
  destruct (route_payment flt now req w) as [r w']. cbn [fst snd] in Hrun.
  destruct Hrun as [[Hstatus ->]
                   |(i & found & Hfound & _ & _ & _ & Hstatus & ->)].
  - split; [reflexivity | congruence].
  - split; [congruence|]. intros _. exists i, found.
    split; [exact Hfound|]. split; [|split].
    + apply (nth_replace_at _ _ _ _ (find_nth _ _ _ _ Hfound)).
    + apply replace_at_length.
    + intros j Hj. apply nth_replace_at_other. congruence.
Qed.

(** X13. An adjustment that does not answer 200 stores nothing, the
    currency it had already assigned in memory included.  One that answers
    200 changes one document, the first with the account number, and of
    that document the currency and the balance at most: account number,
    owner name and card are kept, and every other position keeps its
    document. *)
Theorem patch_account_changes_one_account flt accountNumber body w :
  let (r, w') := patch_account flt accountNumber body w in
  (statusCode r <> 200%N ->
   accounts w' = accounts w /\ transactions w' = transactions w)
  /\ (statusCode r = 200%N ->
      exists i found account,
        find_from 0 (by_accountNumber accountNumber) (accounts w)
        = Some (i, found)
        /\ nth_error (accounts w') i = Some account
        /\ payload r = Account_toObject account
        /\ Account.accountNumber account = Account.accountNumber found
        /\ Account.ownerName account = Account.ownerName found
        /\ Account.card account = Account.card found
        /\ (truthy (PatchBody.currency body) = false ->
            Account.currency account = Account.currency found)
        /\ (is_undefined (PatchBody.balance body) = true ->
            is_undefined (PatchBody.addBalance body) = true ->
            Account.balance account = Account.balance found)
        /\ List.length (accounts w') = List.length (accounts w)
        /\ forall j, j <> i ->
             nth_error (accounts w') j = nth_error (accounts w) j).
Proof.
  pose proof (patch_account_run flt accountNumber body w) as Hrun.
  destruct (patch_account flt accountNumber body w) as [r w'].
  destruct Hrun as [Hfailed Hok]. split; [exact Hfailed|]. intros E.
  destruct (Hok E)
    as (i & found & account & Hfound & -> & Hpayload & Hnumber & Hname
        & Hcard & _ & Hcurrency & _ & _ & Hbalance).
  exists i, found, account. split; [exact Hfound|].
  split; [apply (nth_replace_at _ _ _ _ (find_nth _ _ _ _ Hfound))|].
  repeat (split; [assumption|]).
  split; [intros; apply Hbalance; assumption|].
  split; [apply replace_at_length|].
  intros j Hj. apply nth_replace_at_other. congruence.
Qed.

(** ** The ledger only grows *)

Lemma served_ledger w w' :
  served w w' ->
  transactions w' = transactions w
  \/ exists entry, transactions w' = transactions w ++ [entry].
Proof.
  intros H.
  destruct H as [flt draw random expYearFull cvv body w
                | flt accountNumber w
                | flt accountNumber body w
                | flt accountNumber w
                | flt now req w
                | throws newest_first accountNumber w
                | throws newest_first w].
  - left. apply post_accounts_run.
  - left. rewrite get_account_run.
    destruct (findOne_throws flt); reflexivity.
  - destruct (patch_account_transactions flt accountNumber body w)
      as [E|(entry & E & _)]; eauto.
  - left. pose proof (delete_account_run flt accountNumber w) as Hrun.
    destruct (delete_account flt accountNumber w) as [r w']. apply Hrun.
  - destruct (route_payment_transactions flt now req w)
      as [E|(entry & E & _)]; eauto.
  - left. unfold get_transactions, try_catch, bind, Transaction_find_newest.
    destruct throws; reflexivity.
  - left. unfold get_accounts, try_catch, bind, Account_find_newest.
    destruct throws; reflexivity.
Qed.

(** X14. Whatever requests are served one after the other, the ledger
    after them is the ledger before them followed by new entries, one at
    most for each request: no route rewrites, reorders or removes an entry,
    the deletion of the account it belongs to included. *)
Theorem ledger_append_only w w' :
  served_in_turn w w' ->
  exists new,
    transactions w' = transactions w ++ new
    /\ forall i entry,
         nth_error (transactions w) i = Some entry ->
         nth_error (transactions w') i = Some entry.
Proof.
  intros H.
  assert (Hnew : exists new, transactions w' = transactions w ++ new).
  { induction H as [w|w w1 w2 _ [new IH] Hstep].
    - exists []. rewrite app_nil_r. reflexivity.
    - destruct (served_ledger _ _ Hstep) as [E|[entry E]]; rewrite E, IH.
      + exists new. reflexivity.
      + exists (new ++ [entry]). rewrite app_assoc. reflexivity. }
  destruct Hnew as [new Hnew]. exists new. split; [exact Hnew|].
  intros i entry Hi. rewrite Hnew, nth_error_app1; [exact Hi|].
  apply nth_error_Some. congruence.
Qed.

(** X15. The entry a payment leaves in the ledger is the one its response
    reports: the attempt was decided, the entry is a debit, for a declined
    attempt too, from the route's source, and transaction id, amount,
    account number and balance of the entry are the [transactionId],
    [amount], [accountNumber] and [remainingBalance] of the response. *)
Theorem payment_entry_matches_response flt now req w :
  let (r, w') := route_payment flt now req w in
  forall entry,
    transactions w' = transactions w ++ [entry] ->
    decided r = true
    /\ Transaction.type entry = debit
    /\ Transaction.source entry = payment_source req
    /\ response_field "transactionId" r
       = option_map JString (Transaction.transactionId entry)
    /\ response_field "amount" r = Some (JNumber (Transaction.amount entry))
    /\ response_field "accountNumber" r
       = Some (JString (Transaction.accountNumber entry))
    /\ response_field "remainingBalance" r
       = Some (JNumber (Transaction.balanceAfter entry)).
Proof.
  pose proof (route_payment_transactions flt now req w) as Hrun.
  destruct (route_payment flt now req w) as [r w']. cbn [fst snd] in Hrun.
  intros entry Hentry.
  destruct Hrun as [Hsame|(entry' & Hnew & Hdecided & Htype & Hamount & _ & _
                           & Hsource & Hid & Hrid & Hramount & Hrnumber
                           & Hrbalance)].
  - exfalso. rewrite Hsame in Hentry.
    apply (f_equal (@List.length _)) in Hentry.
    rewrite length_app in Hentry. simpl in Hentry. lia.
  - rewrite Hnew in Hentry. apply app_inj_tail in Hentry.
    destruct Hentry as [_ <-].
    rewrite Hid, Hamount. cbn [option_map]. auto 10.
Qed.

(** ** Transaction ids *)

Lemma uint_digits_inj (u v : Decimal.uint) :
  uint_digits u = uint_digits v -> u = v.
Proof.
  revert v. induction u as [|u IH|u IH|u IH|u IH|u IH|u IH|u IH|u IH|u IH|u IH];
    intros [|v|v|v|v|v|v|v|v|v|v]; simpl; intros H;
    try discriminate H; try reflexivity;
    injection H as H; f_equal; apply IH, H.
Qed.

Lemma decimal_inj (n m : N) : decimal n = decimal m -> n = m.
Proof.
  unfold decimal. intros H.
  apply DecimalN.Unsigned.to_uint_inj, uint_digits_inj, H.
Qed.

Lemma uint_digits_are_digits (u : Decimal.uint) :
  Forall (fun c => is_digit c = true) (uint_digits u).
Proof.
  induction u; simpl; constructor; auto.
Qed.

(** The transaction ids of the two routes never meet, and an id names the
    clock value it was built from. *)
Lemma transactionId_inj req1 req2 now1 now2 :
  transactionId_prefix req1 ++ decimal now1
  = transactionId_prefix req2 ++ decimal now2 ->
  now1 = now2 /\ payment_source req1 = payment_source req2.
Proof.
  assert (Hcard : forall n m, lit "POVY-" ++ decimal n
                              <> lit "POVY-CARD-" ++ decimal m).
  { intros n m H.
    change (lit "POVY-CARD-") with (lit "POVY-" ++ lit "CARD-") in H.
    rewrite <- app_assoc in H. apply app_inv_head in H.
    pose proof (uint_digits_are_digits (N.to_uint n)) as Hdigits.
    fold (decimal n) in Hdigits. rewrite H in Hdigits.
    inversion Hdigits as [|c l Hc _]. discriminate Hc. }
  destruct req1, req2; cbn [transactionId_prefix payment_source]; intros H.
  - apply app_inv_head, decimal_inj in H. auto.
  - exfalso. exact (Hcard _ _ H).
  - exfalso. symmetry in H. exact (Hcard _ _ H).
  - apply app_inv_head, decimal_inj in H. auto.
Qed.

(** X16. Two payments that report a decision answer with the same
    [transactionId] exactly when they were served by the same route at the
    same clock value: an id does not tell apart two payments of the same
    millisecond, and ids of different milliseconds or routes differ. *)
Theorem transactionId_names_route_and_clock
  flt1 flt2 now1 now2 req1 req2 w1 w2 :
  decided (fst (route_payment flt1 now1 req1 w1)) = true ->
  decided (fst (route_payment flt2 now2 req2 w2)) = true ->
  (response_field "transactionId" (fst (route_payment flt1 now1 req1 w1))
   = response_field "transactionId" (fst (route_payment flt2 now2 req2 w2))
   <-> now1 = now2 /\ payment_source req1 = payment_source req2).
Proof.
  pose proof (route_payment_decided flt1 now1 req1 w1) as H1.
  pose proof (route_payment_decided flt2 now2 req2 w2) as H2.
  destruct (route_payment flt1 now1 req1 w1) as [r1 w1'].
  destruct (route_payment flt2 now2 req2 w2) as [r2 w2'].
  cbn [fst]. intros D1 D2.
  destruct (H1 D1) as (? & ? & ? & _ & _ & _ & _ & _ & ->).
  destruct (H2 D2) as (? & ? & ? & _ & _ & _ & _ & _ & ->).
  split.
  - intros H. injection H as H. exact (transactionId_inj _ _ _ _ H).
  - intros [-> Hsource]. do 2 f_equal.
    destruct req1, req2; try discriminate Hsource; reflexivity.
Qed.

(** ** Creating an account *)

Lemma post_accounts_rejected flt draw random expYearFull cvv body w :
  ownerName_accepted (AccountBody.ownerName body) = false ->
  post_accounts flt draw random expYearFull cvv body w = (Throw, w).
Proof.
  unfold post_accounts. cbv zeta.
  destruct (AccountBody.ownerName body) as [| |b|x|s];
    cbn [ownerName_accepted]; intros H; try discriminate H.
  - destruct b; [reflexivity | discriminate H].
  - apply negb_false_iff in H. rewrite H. reflexivity.
Qed.

Lemma post_accounts_accepted flt draw random expYearFull cvv body w :
  fst (post_accounts flt draw random expYearFull cvv body w) = Throw ->
  ownerName_accepted (AccountBody.ownerName body) = false.
Proof.
  unfold post_accounts. cbv zeta.
  destruct (AccountBody.ownerName body) as [| |b|x|s];
    cbn [ownerName_accepted];
    [ | | destruct b | destruct (truthy (VNumber x)) | ];
    cbn [truthy negb]; cbv beta iota;
    try (intros _; reflexivity);
    match goal with
    | |- context [try_catch ?body ?handler ?w0] =>
        destruct (try_catch body handler w0)
    end; discriminate.
Qed.

(** X17. The handler of [POST /api/accounts] sends a response, 201 or the
    500 of a failed creation, for every request whose owner name is falsy
    or a string, whichever store operation fails.  For a request whose
    owner name is truthy and not a string its promise rejects at the [trim]
    outside the [try]: the handler has then sent no response, logged
    nothing and called no store operation, and the world is as it was.
    What the requester receives for the rejected promise is the
    framework's answer, which is not part of this statement. *)
Theorem post_accounts_sends_or_rejects flt draw random expYearFull cvv body w :
  let out := post_accounts flt draw random expYearFull cvv body w in
  (ownerName_accepted (AccountBody.ownerName body) = true ->
   exists r,
     fst out = Normal r
     /\ (statusCode r = 201%N \/ r = message_response 500 msg_create_failed))
  /\ (ownerName_accepted (AccountBody.ownerName body) = false ->
      out = (Throw, w)).
Proof.
  split; [|apply post_accounts_rejected].
  intros Haccepted.
  pose proof (post_accounts_accepted flt draw random expYearFull cvv body w)
    as Hthrow.
  destruct (post_accounts_run flt draw random expYearFull cvv body w)
    as [_ [[_ [Hout|Hout]]|(k & account & Hout & _)]].
  - rewrite (Hthrow Hout) in Haccepted. discriminate Haccepted.
  - eexists. split; [exact Hout | right; reflexivity].
  - eexists. split; [exact Hout | left; reflexivity].
Qed.

(** The first index below [n] at which a test fails. *)
Lemma first_failure (P : nat -> bool) (n : nat) :
  (exists k, k < n /\ P k = false) ->
  exists k, k < n /\ P k = false /\ forall j, j < k -> P j = true.
Proof.
  induction n as [|n IH]; intros (k & Hk & Hfalse); [lia|].
  destruct (existsb (fun j => negb (P j)) (seq 0 n)) eqn:E.
  - apply existsb_exists in E. destruct E as (j & Hj & Hneg).
    apply in_seq in Hj. apply negb_true_iff in Hneg.
    destruct IH as (k' & Hk' & Hfalse' & Hbefore);
      [exists j; split; [lia | assumption]|].
    exists k'. split; [lia|]. split; assumption.
  - assert (Hall : forall j, j < n -> P j = true).
    { intros j Hj. destruct (P j) eqn:Ej; [reflexivity|]. exfalso.
      assert (Hex : existsb (fun j => negb (P j)) (seq 0 n) = true).
      { apply existsb_exists. exists j. rewrite in_seq, Ej.
        split; [lia | reflexivity]. }
      congruence. }
    assert (k = n).
    { destruct (Nat.eq_dec k n) as [|Hne]; [assumption|].
      rewrite Hall in Hfalse by lia. discriminate Hfalse. }
    subst k. exists n. split; [lia|]. split; assumption.
Qed.

(** X18. The account number of a created account is the first of the ten
    candidates that no account carries; when all ten are carried the route
    answers 500 and stores nothing; when one of them is free and the store
    answers, the account is created. *)
Theorem post_accounts_first_free_number flt draw random expYearFull cvv body w r :
  let out := post_accounts flt draw random expYearFull cvv body w in
  fst out = Normal r ->
  (statusCode r = 201%N ->
   exists k,
     k < 10
     /\ response_field "accountNumber" r = Some (JString (candidate draw k))
     /\ taken (candidate draw k) w = false
     /\ forall j, j < k -> taken (candidate draw j) w = true)
  /\ ((forall j, j < 10 -> taken (candidate draw j) w = true) ->
      r = message_response 500 msg_create_failed
      /\ accounts (snd out) = accounts w)
  /\ (exists_throws flt = false -> insert_throws flt = false ->
      (exists k, k < 10 /\ taken (candidate draw k) w = false) ->
      statusCode r = 201%N).
Proof.
  intros out Hout. subst out. split; [|split].
  - intros Hcreated.
    destruct (post_accounts_run flt draw random expYearFull cvv body w)
      as [_ [[_ [Hthrow|Hfailed]]
            |(k & account & Hr & _ & Hk & Hnumber & Hfree & Hbefore & _)]].
    + congruence.
    + rewrite Hout in Hfailed. injection Hfailed as ->.
      discriminate Hcreated.
    + rewrite Hout in Hr. injection Hr as ->. exists k.
      split; [assumption|]. split; [|split; assumption].
      cbn. rewrite Hnumber. reflexivity.
  - intros Hall.
    destruct (post_accounts_run flt draw random expYearFull cvv body w)
      as [_ [[Hsame [Hthrow|Hfailed]]
            |(k & account & _ & _ & Hk & _ & Hfree & _)]].
    + congruence.
    + rewrite Hout in Hfailed. injection Hfailed as ->. auto.
    + rewrite (Hall k Hk) in Hfree. discriminate Hfree.
  - intros Hexists Hinsert Hfree.
    destruct (first_failure (fun k => taken (candidate draw k) w) 10 Hfree)
      as (k & Hk & Hfreek & Hbefore).
    pose proof (generateUniqueAccountNumber_first_free flt draw 10 0 k w
                  Hexists ltac:(lia)
                  ltac:(intros j Hj; apply Hbefore; lia) Hfreek) as Hgen.
    revert Hout. unfold post_accounts. cbv zeta.
    destruct (match AccountBody.ownerName body with
              | VString s => _
              | _ => _
              end) as [finalOwnerName|]; [|discriminate].
    unfold try_catch, bind, generateUniqueAccountNumber.
    rewrite Hgen. unfold Account_create, ret. rewrite Hinsert.
    cbn [fst]. intros H. injection H as <-. reflexivity.
Qed.

(** ** The digits of an account number *)

Lemma uint_digits_length (u : Decimal.uint) :
  List.length (uint_digits u) = Decimal.nb_digits u.
Proof.
  induction u; simpl; congruence.
Qed.

Lemma of_uint_acc_lower (d : Decimal.uint) :
  forall acc,
    (Zpos acc * 10 ^ Z.of_nat (Decimal.nb_digits d)
     <= Zpos (Pos.of_uint_acc d acc))%Z.
Proof.
  induction d as [|d IH|d IH|d IH|d IH|d IH|d IH|d IH|d IH|d IH|d IH];
    intros acc; cbn [Decimal.nb_digits Pos.of_uint_acc];
    [simpl; lia|..];
    rewrite Nat2Z.inj_succ, Z.pow_succ_r by lia;
    (assert (Hpow : (0 < 10 ^ Z.of_nat (Decimal.nb_digits d))%Z)
      by (apply Z.pow_pos_nonneg; lia));
    match goal with
    | |- (_ <= Zpos (Pos.of_uint_acc d ?acc'))%Z => specialize (IH acc')
    end;
    nia.
Qed.

(** A number written without leading zeros on [k >= 2] digits is at least
    [10 ^ (k - 1)]. *)
Lemma normalized_lower (d : Decimal.uint) :
  Decimal.unorm d = d -> 2 <= Decimal.nb_digits d ->
  (10 ^ Z.of_nat (Decimal.nb_digits d - 1) <= Z.of_N (N.of_uint d))%Z.
Proof.
  assert (Hlead : forall l acc,
    (10 ^ Z.of_nat (Decimal.nb_digits l)
     <= Z.of_N (N.pos (Pos.of_uint_acc l acc)))%Z).
  { intros l acc. pose proof (of_uint_acc_lower l acc) as H.
    assert (0 < 10 ^ Z.of_nat (Decimal.nb_digits l))%Z
      by (apply Z.pow_pos_nonneg; lia).
    cbn [Z.of_N]. nia. }
  destruct d as [|l|l|l|l|l|l|l|l|l|l]; intros Hnorm Hlen;
    cbn [Decimal.nb_digits] in *; try lia;
    try (rewrite Nat.sub_succ, Nat.sub_0_r; apply Hlead).
  exfalso. unfold Decimal.unorm in Hnorm. cbn [Decimal.nzhead] in Hnorm.
  pose proof (DecimalFacts.nb_digits_nzhead l) as Hle.
  destruct (Decimal.nzhead l) eqn:E; try discriminate Hnorm.
  - injection Hnorm as <-. cbn [Decimal.nb_digits] in Hlen. lia.
  - injection Hnorm as ->. cbn [Decimal.nb_digits] in Hle. lia.
Qed.

(** A number below [10 ^ 8] has eight decimal digits at most. *)
Lemma decimal_length (n : N) :
  (n < 100000000)%N -> List.length (decimal n) <= 8.
Proof.
  intros Hn. unfold decimal. rewrite uint_digits_length.
  set (d := N.to_uint n).
  assert (Hvalue : N.of_uint d = n) by apply DecimalN.Unsigned.of_to.
  assert (Hnorm : Decimal.unorm d = d).
  { rewrite <- (DecimalN.Unsigned.to_of d), Hvalue. reflexivity. }
  destruct (Nat.le_gt_cases (Decimal.nb_digits d) 8) as [|Hlong];
    [assumption | exfalso].
  pose proof (normalized_lower d Hnorm ltac:(lia)) as Hlower.
  rewrite Hvalue in Hlower.
  assert (10 ^ 8 <= 10 ^ Z.of_nat (Decimal.nb_digits d - 1))%Z
    by (apply Z.pow_le_mono_r; lia).
  change (10 ^ 8)%Z with 100000000%Z in *. lia.
Qed.

Lemma candidate_digits draw i :
  (draw i < 100000000)%N ->
  exists digits,
    candidate draw i = lit "001-" ++ digits
    /\ List.length digits = 8
    /\ Forall (fun c => is_digit c = true) digits.
Proof.
  intros Hdraw. exists (padStart 8 48 (decimal (draw i))).
  split; [reflexivity|]. unfold padStart.
  pose proof (decimal_length _ Hdraw) as Hlen. split.
  - rewrite length_app, repeat_length. lia.
  - apply Forall_app. split.
    + apply Forall_forall. intros c Hc. apply repeat_spec in Hc. subst c.
      reflexivity.
    + apply uint_digits_are_digits.
Qed.

(** X19. When every draw is below [10 ^ 8], as
    [Math.floor(1 + Math.random() * 99999999)] is, the account number of a
    created account is [001-] followed by exactly eight decimal digits. *)
Theorem post_accounts_number_format
  flt draw random expYearFull cvv body w r :
  (forall i, (draw i < 100000000)%N) ->
  fst (post_accounts flt draw random expYearFull cvv body w) = Normal r ->
  statusCode r = 201%N ->
  exists digits,
    response_field "accountNumber" r = Some (JString (lit "001-" ++ digits))
    /\ List.length digits = 8
    /\ Forall (fun c => is_digit c = true) digits.
Proof.
  intros Hdraw Hout Hcreated.
  destruct (post_accounts_run flt draw random expYearFull cvv body w)
    as [_ [[_ [Hthrow|Hfailed]]|(k & account & Hr & _ & _ & Hnumber & _)]].
  - congruence.
  - rewrite Hout in Hfailed. injection Hfailed as ->. discriminate Hcreated.
  - rewrite Hout in Hr. injection Hr as ->.
    destruct (candidate_digits draw k (Hdraw k)) as (digits & E & Hrest).
    exists digits. split; [|exact Hrest]. cbn. rewrite Hnumber, E.
    reflexivity.
Qed.

(** ** Reading leaves the store as it is *)

(** X20. [GET /api/accounts/:accountNumber] never changes an account or
    the ledger, and changes nothing at all when the store answers; it then
    answers 200 exactly when an account carries the number, with the first
    such document, and 404 otherwise. *)
Theorem get_account_reads flt accountNumber w :
  let (r, w') := get_account flt accountNumber w in
  accounts w' = accounts w
  /\ transactions w' = transactions w
  /\ (findOne_throws flt = false ->
      w' = w
      /\ (taken accountNumber w = true ->
          exists i account,
            find_from 0 (by_accountNumber accountNumber) (accounts w)
            = Some (i, account)
            /\ Account.accountNumber account = accountNumber
            /\ r = mkResponse 200 (Account_toObject account))
      /\ (taken accountNumber w = false ->
          r = message_response 404 msg_account_not_found)).
Proof.
  rewrite get_account_run. unfold taken.
  destruct (findOne_throws flt).
  - split; [reflexivity|]. split; [reflexivity | discriminate].
  - split; [reflexivity|]. split; [reflexivity|]. intros _.
    split; [reflexivity|].
    destruct (find_from 0 (by_accountNumber accountNumber) (accounts w))
      as [[i account]|] eqn:Hfound.
    + pose proof (find_from_nth _ _ _ _ _ Hfound) as (_ & Hnth & Hmatch).
      unfold by_accountNumber in Hmatch. apply streqb_eq in Hmatch.
      split.
      * intros _. exists i, account. auto.
      * intros Hnone. apply (find_from_none _ _ 0) in Hnone. congruence.
    + split.
      * intros Hsome. apply (find_from_none _ _ 0) in Hfound. congruence.
      * reflexivity.
Qed.

(** ** Two payments in flight *)

(** X21. Two payments by account number on the same account, each for a
    valid amount the balance [B] covers, whose reads both come before
    either write: both are approved, each answers with the balance less
    its own amount, and the balance stored at the end is [B] less the
    amount of the payment that saved last; the debit of the other is
    lost. *)
Theorem interleaved_payments_lose_a_debit
  flt now1 now2 body1 body2 w i account :
  findOne_throws flt = false ->
  save_throws flt = false ->
  resolves_to (ByAccountNumber body1) w i account ->
  resolves_to (ByAccountNumber body2) w i account ->
  let A1 := ToNumber (PaymentBody.amount body1) in
  let A2 := ToNumber (PaymentBody.amount body2) in
  let B := Account.balance account in
  Number_isFinite A1 = true -> gt A1 0 = true -> gt A1 B = false ->
  Number_isFinite A2 = true -> gt A2 0 = true -> gt A2 B = false ->
  let (tasks, w') :=
    run flt [0; 1; 0; 1; 0; 1]
        [Received now1 body1; Received now2 body2] w in
  exists r1 r2,
    tasks = [Responded r1; Responded r2]
    /\ has_status approved r1 = true
    /\ has_status approved r2 = true
    /\ response_field "remainingBalance" r1 = Some (JNumber (B - A1))
    /\ response_field "remainingBalance" r2 = Some (JNumber (B - A2))
    /\ stored_balance i w' = Some (B - A2)%float.
Proof.
  intros Hfind Hsave [Htruthy1 Hfound1] [Htruthy2 Hfound2] A1 A2 B
         Hfin1 Hpos1 Hgt1 Hfin2 Hpos2 Hgt2.
  destruct (valid_amount_supplied _ Hfin1 Hpos1) as [Hu1 Hn1].
  destruct (valid_amount_supplied _ Hfin2 Hpos2) as [Hu2 Hn2].
  pose proof (gt_not_leb _ _ Hpos1) as Hle1.
  pose proof (gt_not_leb _ _ Hpos2) as Hle2.
  pose proof (find_nth _ _ _ _ Hfound1) as Hnth.
  unfold run. cbn [nth_error replace_at].
  unfold payment_step at 1. cbv zeta.
  rewrite Htruthy1, Hu1, Hn1. cbn [negb orb].
  unfold Account_findOne at 1. rewrite Hfind, Hfound1.
  cbn [nth_error replace_at].
  unfold payment_step at 1. cbv zeta.
  rewrite Htruthy2, Hu2, Hn2. cbn [negb orb].
  unfold Account_findOne at 1. rewrite Hfind, Hfound2.
  cbn [nth_error replace_at].
  unfold payment_step at 1. cbv zeta. fold A1 B.
  rewrite Hfin1, Hle1, Hgt1. cbn [negb orb].
  unfold Account_save at 1. rewrite Hsave.
  cbn [nth_error replace_at].
  unfold payment_step at 1. cbv zeta. fold A2 B.
  rewrite Hfin2, Hle2, Hgt2. cbn [negb orb].
  unfold Account_save at 1. rewrite Hsave.
  cbn [nth_error replace_at accounts transactions console].
  unfold payment_step. cbv zeta. rewrite !registerTransaction_run.
  do 2 eexists. split; [reflexivity|].
  split; [reflexivity|]. split; [reflexivity|].
  split; [reflexivity|]. split; [reflexivity|].
  unfold stored_balance.
  destruct (create_throws flt); cbn [accounts];
    rewrite (nth_replace_at _ i _ _ (nth_replace_at _ i _ _ Hnth));
    reflexivity.
Qed.

(** ** Requests that fail *)

Lemma route_payment_failure flt now req w :
  let (r, w') := route_payment flt now req w in
  In (statusCode r) [200; 400; 404; 500]%N
  /\ (statusCode r = 500%N ->
      accounts w' = accounts w /\ transactions w' = transactions w
      /\ console w' = console w ++ [ErrorObject])
  /\ (statusCode r = 400%N \/ statusCode r = 404%N -> w' = w).
Proof.
  destruct req as [body|body]; cbn [route_payment];
    unfold post_payments, post_payments_card; cbv zeta;
    run_cases; cbn [statusCode error_response In];
    (split; [tauto|]);
    (split; [intros H; try discriminate H; repeat split; reflexivity|]);
    intros [H|H]; try discriminate H; reflexivity.
Qed.

Lemma patch_account_failure flt accountNumber body w :
  let (r, w') := patch_account flt accountNumber body w in
  In (statusCode r) [200; 400; 404; 500]%N
  /\ (statusCode r = 500%N ->
      accounts w' = accounts w /\ transactions w' = transactions w
      /\ console w' = console w ++ [ErrorObject])
  /\ (statusCode r = 400%N \/ statusCode r = 404%N -> w' = w).
Proof.
  unfold patch_account. cbv zeta.
  run_cases; cbn [statusCode message_response In];
    (split; [tauto|]);
    (split; [intros H; try discriminate H; repeat split; reflexivity|]);
    intros [H|H]; try discriminate H; reflexivity.
Qed.

(** X22. Every response of the routes has status 200, 201, 400, 404 or
    500.  A request answered with 500 stored nothing: accounts and ledger
    are as before, and the error is on the console.  A request answered
    with 400 or 404 left the world as it was, the console included. *)
Theorem failed_request_stores_nothing w r w' :
  answered w r w' ->
  In (statusCode r) [200; 201; 400; 404; 500]%N
  /\ (statusCode r = 500%N ->
      accounts w' = accounts w /\ transactions w' = transactions w
      /\ console w' = console w ++ [ErrorObject])
  /\ (statusCode r = 400%N \/ statusCode r = 404%N -> w' = w).
Proof.
  intros H.
  destruct H as [flt draw random expYearFull cvv body w r w' Hrun
                | flt accountNumber w r w' Hrun
                | flt accountNumber body w r w' Hrun
                | flt accountNumber w r w' Hrun
                | flt now req w r w' Hrun].
  - revert Hrun. unfold post_accounts. cbv zeta.
    destruct (match AccountBody.ownerName body with
              | VString s => _
              | _ => _
              end) as [finalOwnerName|]; [|discriminate].
    unfold try_catch, bind, generateUniqueAccountNumber.
    pose proof (generateUniqueAccountNumber_world flt draw 10 0 w) as Hworld.
    destruct (generateUniqueAccountNumber_from flt draw 0 10 w)
      as [[accountNumber|] w1]; cbn [snd] in Hworld; subst w1;
      unfold Account_create, ret, console_error;
      [destruct (insert_throws flt)|];
      intros Hrun; injection Hrun as <- <-;
      cbn [statusCode message_response In accounts transactions console];
      (split; [tauto|]);
      (split; [intros H; try discriminate H; repeat split; reflexivity|]);
      intros [H|H]; discriminate H.
  - rewrite get_account_run in Hrun.
    destruct (findOne_throws flt);
      [|destruct (find_from 0 (by_accountNumber accountNumber) (accounts w))
          as [[i account]|]];
      injection Hrun as <- <-;
      cbn [statusCode message_response In accounts transactions console];
      (split; [tauto|]);
      (split; [intros H; try discriminate H; repeat split; reflexivity|]);
      intros [H|H]; try discriminate H; reflexivity.
  - pose proof (patch_account_failure flt accountNumber body w) as Hfailure.
    rewrite Hrun in Hfailure. cbn [In] in *. tauto.
  - revert Hrun.
    unfold delete_account, try_catch, bind, Account_findOneAndDelete, ret,
      console_error.
    destruct (delete_throws flt);
      [|destruct (find_from 0 (by_accountNumber accountNumber) (accounts w))
          as [[i account]|] eqn:Hfound]; cbn [option_map snd];
      intros Hrun; injection Hrun as <- <-;
      cbn [statusCode message_response In accounts transactions console];
      (split; [tauto|]);
      (split; [intros H; try discriminate H; repeat split; reflexivity|]);
      intros [H|H]; try discriminate H.
    rewrite remove_first_none by (apply (find_from_none _ _ 0); exact Hfound).
    destruct w; reflexivity.
  - pose proof (route_payment_failure flt now req w) as Hfailure.
    rewrite Hrun in Hfailure. cbn [In] in *. tauto.
Qed.

(** ** Currency and description of a payment *)

Lemma route_payment_texts flt now req w :
  transactions (snd (route_payment flt now req w)) = transactions w
  \/ exists i found entry,
       transactions (snd (route_payment flt now req w))
       = transactions w ++ [entry]
       /\ find_from 0 (payment_query req) (accounts w) = Some (i, found)
       /\ Transaction.currency entry
          = or_else (requested_currency req)
                    (VString (Account.currency found))
       /\ response_field "currency" (fst (route_payment flt now req w))
          = Some (JValue (Transaction.currency entry))
       /\ Transaction.merchantName entry
          = or_else (requested_merchantName req) (VString povy_test)
       /\ Transaction.description entry
          = or_else (requested_description req)
              (VString match req with
                       | ByAccountNumber _ => desc_account_payment_ledger
                       | ByCard _ => desc_card_payment
                       end)
       /\ response_field "description" (fst (route_payment flt now req w))
          = Some (JValue
                    (or_else (requested_description req)
                       (VString match req with
                                | ByAccountNumber _ => desc_account_payment
                                | ByCard _ => desc_card_payment
                                end))).
Proof.
  destruct req as [body|body];
    cbn [route_payment payment_query requested_currency
         requested_description requested_merchantName];
    unfold post_payments, post_payments_card, cleanCardNumber; cbv zeta;
    run_cases; cbn [fst snd transactions];
    first
      [ left; reflexivity
      | right; do 3 eexists; split; [reflexivity|];
        split; [reflexivity|];
        cbn [Account.set_balance Account.currency Transaction.currency
             Transaction.merchantName Transaction.description];
        repeat (split; [reflexivity|]); reflexivity ].
Qed.

(** X23. The currency of a payment is not checked or converted: the entry
    a payment leaves in the ledger carries the currency the caller sent
    when it is truthy, whatever it is, and the currency of the account
    otherwise, and the response reports the same.  A description the
    caller sent is recorded and reported as sent; without one, a card
    payment records the description it reports, and a payment by account
    number records a description other than the one it reports. *)
Theorem payment_currency_and_description flt now req w :
  let (r, w') := route_payment flt now req w in
  forall entry,
    transactions w' = transactions w ++ [entry] ->
    response_field "currency" r = Some (JValue (Transaction.currency entry))
    /\ (truthy (requested_currency req) = true ->
        Transaction.currency entry = requested_currency req)
    /\ (truthy (requested_currency req) = false ->
        exists i found,
          find_from 0 (payment_query req) (accounts w) = Some (i, found)
          /\ Transaction.currency entry = VString (Account.currency found))
    /\ (truthy (requested_description req) = true ->
        Transaction.description entry = requested_description req
        /\ response_field "description" r
           = Some (JValue (requested_description req)))
    /\ (truthy (requested_description req) = false ->
        match req with
        | ByAccountNumber _ =>
            response_field "description" r
            <> Some (JValue (Transaction.description entry))
        | ByCard _ =>
            response_field "description" r
            = Some (JValue (Transaction.description entry))
        end).
Proof.
  pose proof (route_payment_texts flt now req w) as Hrun.
  destruct (route_payment flt now req w) as [r w']. cbn [fst snd] in Hrun.
  intros entry Hentry.
  destruct Hrun as [Hsame|(i & found & entry' & Hnew & Hfound & Hcurrency
                           & Hrcurrency & _ & Hdescription & Hrdescription)].
  - exfalso. rewrite Hsame in Hentry.
    apply (f_equal (@List.length _)) in Hentry.
    rewrite length_app in Hentry. simpl in Hentry. lia.
  - rewrite Hnew in Hentry. apply app_inj_tail in Hentry.
    destruct Hentry as [_ <-].
    rewrite Hrcurrency, Hcurrency, Hdescription, Hrdescription.
    unfold or_else.
    split; [reflexivity|]. split; [intros ->; reflexivity|].
    split; [intros ->; eauto|]. split; [intros ->; auto|].
    intros ->. destruct req; [discriminate | reflexivity].
Qed.

(** ** Cards *)

(** X24. From a draw of ten code units, as
    [String(Math.floor(1000000000 + Math.random() * 9000000000))] has,
    and a year of two code units or more, [generateCardForAccount] issues a
    card number of sixteen code units, [411111] followed by the draw, whose
    last four are the last four of the draw, with expiry month [12] and an
    expiry year of two code units. *)
Theorem generateCardForAccount_card (random expYearFull cvv : jsstring) :
  List.length random = 10 ->
  2 <= List.length expYearFull ->
  let card := generateCardForAccount random expYearFull cvv in
  Card.cardNumber card = lit "411111" ++ random
  /\ List.length (Card.cardNumber card) = 16
  /\ slice_last 4 (Card.cardNumber card) = slice_last 4 random
  /\ Card.expMonth card = lit "12"
  /\ List.length (Card.expYear card) = 2
  /\ Card.cvv card = cvv.
Proof.
  intros Hrandom Hyear. unfold generateCardForAccount. cbv zeta.
  cbn [Card.cardNumber Card.expMonth Card.expYear Card.cvv].
  assert (Hnumber : slice_to 16 (lit "411111" ++ random)
                    = lit "411111" ++ random).
  { unfold slice_to. apply firstn_all2. rewrite length_app.
    change (List.length (lit "411111")) with 6. lia. }
  rewrite Hnumber. split; [reflexivity|]. split; [|split; [|split; [|split]]].
  - rewrite length_app. change (List.length (lit "411111")) with 6. lia.
  - unfold slice_last. rewrite length_app, Hrandom.
    change (List.length (lit "411111")) with 6.
    change (6 + 10 - 4) with (6 + 6). change (10 - 4) with 6.
    rewrite skipn_app. change (List.length (lit "411111")) with 6.
    replace (6 + 6 - 6) with 6 by lia.
    rewrite (skipn_all2 (lit "411111")); [reflexivity|].
    change (List.length (lit "411111")) with 6. lia.
  - reflexivity.
  - apply slice_last_length. exact Hyear.
  - reflexivity.
Qed.

(** ** Paying from a created account *)

Lemma candidate_truthy draw k : truthy (VString (candidate draw k)) = true.
Proof. reflexivity. Qed.

(** X25. A payment under the number of an account just created finds that
    account, whatever the store held before: for a valid amount above the
    balance it was created with the payment is declined and the accounts
    stay as they are, otherwise it is approved and the new account alone
    is debited. *)
Theorem created_account_pays
  flt flt' draw random expYearFull cvv body w r w' now amount :
  post_accounts flt draw random expYearFull cvv body w = (Normal r, w') ->
  statusCode r = 201%N ->
  findOne_throws flt' = false ->
  save_throws flt' = false ->
  Number_isFinite (ToNumber amount) = true ->
  gt (ToNumber amount) 0 = true ->
  exists account,
    payload r = Account_toObject account
    /\ nth_error (accounts w') (List.length (accounts w)) = Some account
    /\ let (r2, w2) :=
         post_payments flt' now
           (PaymentBody.mk (VString (Account.accountNumber account)) amount
                           VUndefined VUndefined VUndefined) w' in
       if gt (ToNumber amount) (Account.balance account)
       then has_status declined r2 = true /\ accounts w2 = accounts w'
       else has_status approved r2 = true
            /\ accounts w2
               = accounts w
                 ++ [Account.set_balance
                       (Account.balance account - ToNumber amount)%float
                       account].
Proof.
  intros Hrun Hcreated Hfind Hsave Hfin Hpos.
  destruct (post_accounts_run flt draw random expYearFull cvv body w)
    as [_ [[_ [Hout|Hout]]
          |(k & account & Hout & Hworld & _ & Hnumber & Hfree & _)]];
    rewrite Hrun in *; cbn [fst snd] in *.
  - discriminate Hout.
  - injection Hout as ->. discriminate Hcreated.
  - injection Hout as ->. subst w'. exists account. cbn [payload accounts].
    split; [reflexivity|].
    assert (Hmatch : by_accountNumber (Account.accountNumber account) account
                     = true)
      by (apply streqb_eq; reflexivity).
    assert (Hfree' : existsb (by_accountNumber (Account.accountNumber account))
                             (accounts w) = false)
      by (rewrite Hnumber; exact Hfree).
    pose proof (find_from_app_new _ _ account Hfree' Hmatch 0) as Hfound.
    cbn [Nat.add] in Hfound.
    split; [exact (find_nth _ _ _ _ Hfound)|].
    set (pay := PaymentBody.mk (VString (Account.accountNumber account))
                               amount VUndefined VUndefined VUndefined).
    set (w1 := mkWorld (accounts w ++ [account]) (transactions w)
                       (console w)).
    assert (Hres : resolves_to (ByAccountNumber pay) w1
                     (List.length (accounts w)) account).
    { split; [|exact Hfound].
      cbn [pay PaymentBody.accountNumber]. rewrite Hnumber.
      apply candidate_truthy. }
    pose proof (post_payments_decision flt' now pay w1 _ account
                  Hfind Hsave Hres Hfin Hpos) as Hdecision.
    cbv zeta in Hdecision.
    destruct (post_payments flt' now pay w1) as [r2 w2].
    cbn [pay PaymentBody.amount] in Hdecision.
    destruct (gt (ToNumber amount) (Account.balance account));
      [exact Hdecision|].
    destruct Hdecision as [Hstatus ->]. split; [exact Hstatus|].
    cbn [w1 accounts]. clear.
    induction (accounts w) as [|a l IH]; simpl; [reflexivity|].
    rewrite IH. reflexivity.
Qed.

(** ** Payments one after the other *)

(** The three steps of a payment, taken without another task in between,
    are the handler. *)
Lemma payment_three_steps flt now body w :
  (let (t1, w1) := payment_step flt (Received now body) w in
   let (t2, w2) := payment_step flt t1 w1 in
   payment_step flt t2 w2)
  = (Responded (fst (post_payments flt now body w)),
     snd (post_payments flt now body w)).
Proof.
  unfold post_payments, payment_step, payment_internal_error. cbv zeta.
  run_cases; cbn [fst snd]; run_cases; try reflexivity; try discriminate.
Qed.

(** X26. Two payments by account number served one after the other, each
    through its three steps before the other starts, answer and leave the
    world as the handler run for the first and then for the second on the
    world the first left. *)
Theorem serial_payments flt now1 now2 body1 body2 w :
  run flt [0; 0; 0; 1; 1; 1]
      [Received now1 body1; Received now2 body2] w
  = (let (r1, w1) := post_payments flt now1 body1 w in
     let (r2, w2) := post_payments flt now2 body2 w1 in
     ([Responded r1; Responded r2], w2)).
Proof.
  pose proof (payment_three_steps flt now1 body1 w) as H1.
  destruct (post_payments flt now1 body1 w) as [r1 w1]. cbn [fst snd] in H1.
  pose proof (payment_three_steps flt now2 body2 w1) as H2.
  destruct (post_payments flt now2 body2 w1) as [r2 w2]. cbn [fst snd] in H2.
  unfold run. cbn [nth_error replace_at].
  destruct (payment_step flt (Received now1 body1) w) as [t1 v1].
  cbn [nth_error replace_at].
  destruct (payment_step flt t1 v1) as [t2 v2].
  cbn [nth_error replace_at]. rewrite H1.
  cbn [nth_error replace_at].
  destruct (payment_step flt (Received now2 body2) w1) as [u1 x1].
  cbn [nth_error replace_at].
  destruct (payment_step flt u1 x1) as [u2 x2].
  cbn [nth_error replace_at]. rewrite H2. reflexivity.
Qed.

(** ** Setting a balance *)

(** X27. An adjustment that carries [balance] and neither [addBalance] nor
    a currency stores [Number(balance)] whenever that is finite and not
    below zero, for a balance that is not a number too ([null] gives 0,
    [true] gives 1), answers 200 and leaves the ledger as it was: the
    change of balance is not recorded. *)
Theorem patch_account_stores_number flt accountNumber v w i account :
  findOne_throws flt = false ->
  save_throws flt = false ->
  find_from 0 (by_accountNumber accountNumber) (accounts w)
  = Some (i, account) ->
  is_undefined v = false ->
  Number_isFinite (ToNumber v) = true ->
  (ToNumber v <? 0)%float = false ->
  let (r, w') :=
    patch_account flt accountNumber (PatchBody.mk VUndefined v VUndefined) w in
  statusCode r = 200%N
  /\ stored_balance i w' = Some (ToNumber v)
  /\ response_field "balance" r = Some (JNumber (ToNumber v))
  /\ transactions w' = transactions w.
Proof.
  intros Hfind Hsave Hfound Hv Hfin Hlt. unfold patch_account. cbv zeta.
  cbn [PatchBody.currency PatchBody.balance PatchBody.addBalance truthy
       is_undefined negb andb].
  rewrite Hv. cbn [negb andb].
  unfold_async. rewrite Hfind, Hfound, Hfin, Hlt. cbn [negb orb].
  rewrite Hsave. unfold stored_balance. cbn [accounts statusCode transactions].
  rewrite (nth_replace_at _ _ _ _ (find_nth _ _ _ _ Hfound)).
  repeat split; reflexivity.
Qed.

(** ** Listing *)

Lemma filter_entry_of n (l : list Transaction.t) e :
  In e (filter (entry_of n) l) -> In e l /\ Transaction.accountNumber e = n.
Proof.
  intros H. apply filter_In in H. destruct H as [Hin Hn].
  split; [exact Hin|]. apply streqb_eq. exact Hn.
Qed.

Lemma In_firstn {A} (n : nat) (l : list A) x : In x (firstn n l) -> In x l.
Proof.
  intros H. rewrite <- (firstn_skipn n l). apply in_or_app. left. exact H.
Qed.

(** X28. [GET /api/accounts/:accountNumber/transactions], whatever order
    the store's sort gives, changes neither accounts nor ledger.  When the
    query is answered it lists at most 50 documents, each a ledger entry of
    that account number, and all of them when the ledger holds at most 50;
    the answer depends on the ledger alone, so it is the same for a number
    no account carries, or carries any more.  When the query rejects, the
    route answers 500. *)
Theorem get_transactions_lists throws newest_first accountNumber w :
  (forall l, Permutation.Permutation (newest_first l) l) ->
  let (r, w') := get_transactions throws newest_first accountNumber w in
  accounts w' = accounts w
  /\ transactions w' = transactions w
  /\ (throws = false ->
      w' = w
      /\ (forall w2,
            transactions w2 = transactions w ->
            fst (get_transactions throws newest_first accountNumber w2) = r)
      /\ exists docs,
           r = Listed docs
           /\ List.length docs <= 50
           /\ (forall e, In e docs ->
                 In e (transactions w)
                 /\ Transaction.accountNumber e = accountNumber)
           /\ (List.length
                 (filter (entry_of accountNumber) (transactions w)) <= 50 ->
               Permutation.Permutation docs
                 (filter (entry_of accountNumber) (transactions w))))
  /\ (throws = true ->
      r = NotListed (message_response 500 msg_history_failed)).
Proof.
  intros Hsort.
  unfold get_transactions, try_catch, bind, Transaction_find_newest, ret,
    console_error.
  destruct throws.
  - split; [reflexivity|]. split; [reflexivity|].
    split; [discriminate | reflexivity].
  - split; [reflexivity|]. split; [reflexivity|].
    split; [|discriminate]. intros _. split; [reflexivity|]. split.
    + intros w2 E. cbn [fst]. rewrite E. reflexivity.
    + eexists. split; [reflexivity|]. split; [|split].
      * rewrite length_firstn. lia.
      * intros e He. apply In_firstn in He.
        apply (Permutation.Permutation_in _ (Hsort _)) in He.
        apply filter_entry_of, He.
      * intros Hfew. rewrite firstn_all2; [apply Hsort|].
        rewrite (Permutation.Permutation_length (Hsort _)). exact Hfew.
Qed.

(** X29. The entry a payment leaves in the ledger is listed in the history
    of the account number the payment answers with, as long as the ledger
    held fewer than 50 entries of that number. *)
Theorem payment_listed_in_history flt now req newest_first w :
  (forall l, Permutation.Permutation (newest_first l) l) ->
  let (r, w') := route_payment flt now req w in
  forall entry,
    transactions w' = transactions w ++ [entry] ->
    List.length
      (filter (entry_of (Transaction.accountNumber entry)) (transactions w))
    < 50 ->
    response_field "accountNumber" r
    = Some (JString (Transaction.accountNumber entry))
    /\ exists docs,
         fst (get_transactions false newest_first
                (Transaction.accountNumber entry) w') = Listed docs
         /\ In entry docs.
Proof.
  intros Hsort.
  pose proof (route_payment_transactions flt now req w) as Hrun.
  destruct (route_payment flt now req w) as [r w']. cbn [fst snd] in Hrun.
  intros entry Hentry Hfew.
  destruct Hrun as [Hsame|(entry' & Hnew & _ & _ & _ & _ & _ & _ & _ & _ & _
                           & Hnumber & _)].
  - exfalso. rewrite Hsame in Hentry.
    apply (f_equal (@List.length _)) in Hentry.
    rewrite length_app in Hentry. simpl in Hentry. lia.
  - rewrite Hnew in Hentry. apply app_inj_tail in Hentry.
    destruct Hentry as [_ <-]. split; [exact Hnumber|].
    unfold get_transactions, try_catch, bind, Transaction_find_newest, ret.
    cbn [fst]. eexists. split; [reflexivity|].
    rewrite Hnew, filter_app. cbn [filter]. unfold entry_of at 2.
    rewrite (proj2 (streqb_eq _ _) eq_refl).
    rewrite firstn_all2.
    + apply (Permutation.Permutation_in _
               (Permutation.Permutation_sym (Hsort _))).
      apply in_or_app. right. left. reflexivity.
    + rewrite (Permutation.Permutation_length (Hsort _)), length_app.
      simpl. lia.
Qed.

(** X30. [GET /api/accounts], whatever order the store's sort gives,
    changes neither accounts nor ledger; when the query is answered the
    world is left as it was and the documents listed are those of the
    stored accounts, each once; when it rejects, the route answers 500. *)
Theorem get_accounts_lists throws newest_first w :
  (forall l, Permutation.Permutation (newest_first l) l) ->
  let (r, w') := get_accounts throws newest_first w in
  accounts w' = accounts w
  /\ transactions w' = transactions w
  /\ (throws = false ->
      w' = w
      /\ exists docs,
           r = Listed docs
           /\ Permutation.Permutation docs
                (map Account_toObject (accounts w)))
  /\ (throws = true ->
      r = NotListed (message_response 500 msg_list_failed)).
Proof.
  intros Hsort.
  unfold get_accounts, try_catch, bind, Account_find_newest, ret,
    console_error.
  destruct throws.
  - split; [reflexivity|]. split; [reflexivity|].
    split; [discriminate | reflexivity].
  - split; [reflexivity|]. split; [reflexivity|].
    split; [|discriminate]. intros _. split; [reflexivity|].
    eexists. split; [reflexivity|].
    apply Permutation.Permutation_map, Hsort.
Qed.

End Server.

(** * Runs on sample data *)

(** C1 on a payment of 40 against the sample account, whose balance is
    100. *)
Lemma C1_payment_decision_witness :
  resolves_to unused_NumberToString (ByAccountNumber (sample_payment 40))
    sample_world 0 sample_account
  /\ Number_isFinite 40 = true
  /\ gt 40 0 = true
  /\ (40 <=? 100)%float = true
  /\ let (r, w') :=
       route_payment unused_StringToNumber unused_NumberToString no_faults
         1700000000000 (ByAccountNumber (sample_payment 40)) sample_world in
     has_status approved r = true /\ stored_balance 0 w' = Some 60%float.
Proof.
  assert (Hres : resolves_to unused_NumberToString
                   (ByAccountNumber (sample_payment 40))
                   sample_world 0 sample_account)
    by (split; reflexivity).
  do 4 (split; [first [exact Hres | reflexivity]|]).
  pose proof (C1_payment_decision unused_StringToNumber unused_NumberToString
                no_faults 1700000000000 (ByAccountNumber (sample_payment 40))
                sample_world 0 sample_account
                eq_refl eq_refl Hres eq_refl eq_refl) as H.
  destruct (route_payment unused_StringToNumber unused_NumberToString
              no_faults 1700000000000 (ByAccountNumber (sample_payment 40))
              sample_world) as [r w'].
  destruct H as (_ & H & _). exact (H eq_refl).
Defined.

(** The same payment when the ledger rejects the write: the attempt is
    approved, the balance is debited, and the ledger has no new entry. *)
Lemma C3_ledger_entry_counterexample :
  let (r, w') :=
    route_payment unused_StringToNumber unused_NumberToString
      (ledger_fails true no_faults) 1700000000000
      (ByAccountNumber (sample_payment 40)) sample_world in
  decided r = true
  /\ has_status approved r = true
  /\ stored_balance 0 w' = Some 60%float
  /\ transactions w' = transactions sample_world
  /\ ~ (exists entry, transactions w' = transactions sample_world ++ [entry]).
Proof.
  cbv zeta. vm_compute route_payment.
  repeat split. intros [entry H]. discriminate H.
Qed.

(** C3 on the sample payment with a ledger that takes the write. *)
Lemma C3_ledger_entry_witness :
  decided
    (fst (route_payment unused_StringToNumber unused_NumberToString no_faults
            1700000000000 (ByAccountNumber (sample_payment 40))
            sample_world)) = true
  /\ create_throws no_faults = false
  /\ let (r, w') :=
       route_payment unused_StringToNumber unused_NumberToString no_faults
         1700000000000 (ByAccountNumber (sample_payment 40)) sample_world in
     exists i found account entry,
       find_from 0
         (payment_query unused_NumberToString
            (ByAccountNumber (sample_payment 40)))
         (accounts sample_world) = Some (i, found)
       /\ nth_error (accounts w') i = Some account
       /\ Account.accountNumber account = Account.accountNumber found
       /\ transactions w' = transactions sample_world ++ [entry]
       /\ Transaction.accountNumber entry = Account.accountNumber account
       /\ Transaction.balanceAfter entry = Account.balance account.
Proof.
  assert (Hdecided :
    decided
      (fst (route_payment unused_StringToNumber unused_NumberToString
              no_faults 1700000000000 (ByAccountNumber (sample_payment 40))
              sample_world)) = true) by reflexivity.
  split; [exact Hdecided|]. split; [reflexivity|].
  pose proof (C3_ledger_entry unused_StringToNumber unused_NumberToString
                no_faults 1700000000000 (ByAccountNumber (sample_payment 40))
                sample_world) as H.
  destruct (route_payment unused_StringToNumber unused_NumberToString
              no_faults 1700000000000 (ByAccountNumber (sample_payment 40))
              sample_world) as [r w'].
  destruct H as [H _]. exact (H Hdecided eq_refl).
Defined.

(** C5 on a payment with the sample card, written with blanks, and a CVV
    that is not the card's. *)
Lemma C5_card_authentication_witness :
  let body := sample_card_payment (lit "4111 1112 3456 7890") (lit "999") in
  find_from 0 (by_cardNumber (cleanCardNumber unused_NumberToString body))
    (accounts sample_world) = Some (0, sample_account)
  /\ card_mismatch unused_NumberToString sample_account body = true
  /\ card_request_complete body = true
  /\ let (r, w') :=
       post_payments_card unused_StringToNumber unused_NumberToString
         no_faults 1700000000000 body sample_world in
     r = error_response 400 msg_invalid_card_data
     /\ accounts w' = accounts sample_world
     /\ transactions w' = transactions sample_world.
Proof.
  intros body.
  assert (Hfound :
    find_from 0 (by_cardNumber (cleanCardNumber unused_NumberToString body))
      (accounts sample_world) = Some (0, sample_account)) by reflexivity.
  assert (Hmismatch :
    card_mismatch unused_NumberToString sample_account body = true)
    by reflexivity.
  do 3 (split; [first [exact Hfound | exact Hmismatch | reflexivity]|]).
  pose proof (C5_card_authentication unused_StringToNumber
                unused_NumberToString no_faults 1700000000000 body
                sample_world 0 sample_account Hfound Hmismatch) as H.
  destruct (post_payments_card unused_StringToNumber unused_NumberToString
              no_faults 1700000000000 body sample_world) as [r w'].
  destruct H as (_ & _ & Haccounts & Hledger & Hauth).
  destruct (Hauth eq_refl eq_refl) as [Hr _].
  repeat split; assumption.
Defined.

(** C6 on the sample payment: the response with a failing ledger is the
    response with a working one. *)
Lemma C6_recorder_failure_swallowed_witness :
  let (r, w1) :=
    route_payment unused_StringToNumber unused_NumberToString
      (ledger_fails false no_faults) 1700000000000
      (ByAccountNumber (sample_payment 40)) sample_world in
  let (r', w2) :=
    route_payment unused_StringToNumber unused_NumberToString
      (ledger_fails true no_faults) 1700000000000
      (ByAccountNumber (sample_payment 40)) sample_world in
  r' = r /\ accounts w2 = accounts w1.
Proof.
  pose proof (C6_recorder_failure_swallowed unused_StringToNumber
                unused_NumberToString no_faults 1700000000000
                (ByAccountNumber (sample_payment 40)) sample_world) as H.
  cbv zeta in H.
  destruct (route_payment unused_StringToNumber unused_NumberToString
              (ledger_fails false no_faults) 1700000000000
              (ByAccountNumber (sample_payment 40)) sample_world) as [r w1].
  destruct (route_payment unused_StringToNumber unused_NumberToString
              (ledger_fails true no_faults) 1700000000000
              (ByAccountNumber (sample_payment 40)) sample_world) as [r' w2].
  destruct H as (Hr & Haccounts & _). split; assumption.
Defined.

(** [{ addBalance: 250 }] on the sample account when the ledger rejects the
    write: the adjustment succeeds, the balance is 350, and the ledger has
    no new entry. *)
Lemma C7_adjustment_ledger_counterexample :
  let (r, w') :=
    patch_account unused_StringToNumber unused_NumberToString
      (ledger_fails true no_faults) (lit "001-00000042")
      (PatchBody.mk VUndefined VUndefined (VNumber 250)) sample_world in
  statusCode r = 200%N
  /\ stored_balance 0 w' = Some 350%float
  /\ transactions w' = transactions sample_world
  /\ ~ (exists entry, transactions w' = transactions sample_world ++ [entry]).
Proof.
  cbv zeta. vm_compute patch_account.
  repeat split. intros [entry H]. discriminate H.
Qed.

(** C7 on [{ addBalance: 250 }] with a ledger that takes the write. *)
Lemma C7_adjustment_ledger_witness :
  let body := PatchBody.mk VUndefined VUndefined (VNumber 250) in
  statusCode
    (fst (patch_account unused_StringToNumber unused_NumberToString no_faults
            (lit "001-00000042") body sample_world)) = 200%N
  /\ is_undefined (PatchBody.addBalance body) = false
  /\ create_throws no_faults = false
  /\ let (r, w') :=
       patch_account unused_StringToNumber unused_NumberToString no_faults
         (lit "001-00000042") body sample_world in
     exists i found account entry,
       find_from 0 (by_accountNumber (lit "001-00000042"))
         (accounts sample_world) = Some (i, found)
       /\ nth_error (accounts w') i = Some account
       /\ Account.accountNumber account = Account.accountNumber found
       /\ transactions w' = transactions sample_world ++ [entry]
       /\ Transaction.accountNumber entry = Account.accountNumber account
       /\ Transaction.type entry = credit
       /\ Transaction.amount entry = 250%float
       /\ Transaction.source entry = manual_topup
       /\ Transaction.transactionId entry = None
       /\ Transaction.balanceAfter entry = Account.balance account.
Proof.
  intros body.
  assert (Hok :
    statusCode
      (fst (patch_account unused_StringToNumber unused_NumberToString
              no_faults (lit "001-00000042") body sample_world)) = 200%N)
    by reflexivity.
  do 3 (split; [first [exact Hok | reflexivity]|]).
  pose proof (C7_adjustment_ledger unused_StringToNumber
                unused_NumberToString no_faults (lit "001-00000042") body
                sample_world) as H.
  destruct (patch_account unused_StringToNumber unused_NumberToString
              no_faults (lit "001-00000042") body sample_world) as [r w'].
  destruct (H Hok) as (_ & _ & H3). exact (H3 eq_refl eq_refl).
Defined.

(** C8 on [{ balance: 50, addBalance: 10 }] for the sample account. *)
Lemma C8_balance_and_addBalance_witness :
  let body := PatchBody.mk VUndefined (VNumber 50) (VNumber 10) in
  is_undefined (PatchBody.balance body) = false
  /\ is_undefined (PatchBody.addBalance body) = false
  /\ let (r, w') :=
       patch_account unused_StringToNumber unused_NumberToString no_faults
         (lit "001-00000042") body sample_world in
     w' = sample_world
     /\ r = message_response 400 msg_balance_or_addBalance.
Proof.
  intros body. do 2 (split; [reflexivity|]).
  pose proof (C8_balance_and_addBalance unused_StringToNumber
                unused_NumberToString no_faults (lit "001-00000042") body
                sample_world eq_refl eq_refl) as H.
  destruct (patch_account unused_StringToNumber unused_NumberToString
              no_faults (lit "001-00000042") body sample_world) as [r w'].
  destruct H as (_ & _ & _ & H).
  exact (H 0 sample_account eq_refl eq_refl).
Defined.

(** The sample world is what [POST /api/accounts] makes of empty
    collections for [{ ownerName: 'Ana', currency: 'USD',
    initialBalance: 100 }]. *)
Lemma sample_world_reachable :
  reachable unused_StringToNumber unused_NumberToString sample_world.
Proof.
  exact (reach_post_accounts unused_StringToNumber unused_NumberToString
           no_faults (fun _ => 42%N) (lit "1234567890") (lit "2029")
           (lit "123")
           (AccountBody.mk (VString (lit "Ana")) (VString (lit "USD"))
                           (VNumber 100))
           (mkWorld [] [] [])
           (reach_empty unused_StringToNumber unused_NumberToString)).
Qed.

(** X4 on the sample world. *)
Lemma reachable_cards_issued_witness :
  reachable unused_StringToNumber unused_NumberToString sample_world
  /\ cards_issued sample_world.
Proof.
  split; [exact sample_world_reachable|].
  exact (reachable_cards_issued unused_StringToNumber unused_NumberToString
           sample_world sample_world_reachable).
Defined.



(** C10 on the sample card number written in groups of four and plainly:
    the key of the grouped number is the plain one, the two payments run
    alike, and the payment with the grouped number is approved against the
    sample account. *)
Lemma C10_card_number_whitespace_witness :
  let s1 := lit "4111 1112 3456 7890" in
  let s2 := lit "4111111234567890" in
  let body := sample_card_payment [] (lit "123") in
  same_up_to_whitespace s1 s2
  /\ cleanCardNumber unused_NumberToString (with_cardNumber (VString s1) body)
     = lit "4111111234567890"
  /\ filter (fun c => negb (is_whitespace c)) s1 = s2
  /\ post_payments_card unused_StringToNumber unused_NumberToString no_faults
       1700000000000 (with_cardNumber (VString s1) body) sample_world
     = post_payments_card unused_StringToNumber unused_NumberToString
         no_faults 1700000000000 (with_cardNumber (VString s2) body)
         sample_world
  /\ let (r, w') :=
       post_payments_card unused_StringToNumber unused_NumberToString
         no_faults 1700000000000 (with_cardNumber (VString s1) body)
         sample_world in
     has_status approved r = true
     /\ accounts w'
        = replace_at 0 (Account.set_balance (100 - 40)%float sample_account)
                     (accounts sample_world).
Proof.
  intros s1 s2 body.
  assert (Hsame : same_up_to_whitespace s1 s2).
  { subst s1 s2. cbv [lit list_ascii_of_string map N_of_ascii].
    repeat first
      [ apply sw_nil | apply sw_both | apply sw_left; [reflexivity|] ]. }
  split; [exact Hsame|]. split; [reflexivity|].
  destruct (C10_card_number_whitespace unused_StringToNumber
              unused_NumberToString no_faults 1700000000000 body sample_world
              s1 s2 Hsame) as (_ & _ & _ & _ & Hrun & Hstripped & Hhandler).
  split; [apply Hstripped; repeat constructor|].
  split; [apply Hrun; discriminate|].
  destruct (Hhandler eq_refl eq_refl) as [_ Hdecided].
  exact (Hdecided 0 sample_account eq_refl eq_refl eq_refl eq_refl eq_refl).
Defined.

Lemma sample_world_balances_nonnegative : balances_nonnegative sample_world.
Proof. constructor; [reflexivity | constructor]. Qed.

(** X1 on the sample payment of 40. *)
Lemma route_payment_balances_nonnegative_witness :
  balances_nonnegative sample_world
  /\ balances_nonnegative
       (snd (route_payment unused_StringToNumber unused_NumberToString
               no_faults 1700000000000 (ByAccountNumber (sample_payment 40))
               sample_world)).
Proof.
  split; [exact sample_world_balances_nonnegative|].
  exact (route_payment_balances_nonnegative unused_StringToNumber
           unused_NumberToString no_faults 1700000000000
           (ByAccountNumber (sample_payment 40)) sample_world
           sample_world_balances_nonnegative).
Defined.

(** X2 on two payments of 100 whose steps alternate. *)
Lemma run_balances_nonnegative_witness :
  let tasks :=
    [Received 1700000000001 (sample_payment 100);
     Received 1700000000002 (sample_payment 100)] in
  balances_nonnegative sample_world
  /\ Forall task_balance_nonnegative tasks
  /\ balances_nonnegative
       (snd (run unused_StringToNumber unused_NumberToString no_faults
               [0; 1; 0; 1; 0; 1] tasks sample_world)).
Proof.
  intros tasks.
  assert (Htasks : Forall task_balance_nonnegative tasks)
    by (repeat constructor).
  split; [exact sample_world_balances_nonnegative|].
  split; [exact Htasks|].
  exact (proj1 (run_balances_nonnegative unused_StringToNumber
                  unused_NumberToString no_faults [0; 1; 0; 1; 0; 1]
                  tasks sample_world sample_world_balances_nonnegative
                  Htasks)).
Defined.

(** ** Further runs on sample data *)

Lemma sample_world_created :
  post_accounts unused_NumberToString no_faults sample_draw
    (lit "1234567890") (lit "2029") (lit "123") sample_account_body
    (mkWorld [] [] [])
  = (Normal (mkResponse 201 (Account_toObject sample_account)), sample_world).
Proof. reflexivity. Qed.

Lemma sample_world_numbers_unique : account_numbers_unique sample_world.
Proof.
  unfold account_numbers_unique. simpl. constructor; [intros [] | constructor].
Qed.

Lemma sample_world_paid_run :
  route_payment unused_StringToNumber unused_NumberToString no_faults
    1700000000000 (ByAccountNumber (sample_payment 40)) sample_world
  = (fst (route_payment unused_StringToNumber unused_NumberToString no_faults
            1700000000000 (ByAccountNumber (sample_payment 40)) sample_world),
     sample_world_paid).
Proof. reflexivity. Qed.

Lemma sample_world_paid_reachable :
  reachable unused_StringToNumber unused_NumberToString sample_world_paid.
Proof.
  exact (reach_payment unused_StringToNumber unused_NumberToString no_faults
           1700000000000 (ByAccountNumber (sample_payment 40)) sample_world
           sample_world_reachable).
Qed.

(** X5 on the sample world. *)
Lemma reachable_accounts_well_formed_witness :
  reachable unused_StringToNumber unused_NumberToString sample_world
  /\ account_numbers_unique sample_world
  /\ currencies_allowed sample_world
  /\ owner_names_normalized sample_world.
Proof.
  split; [exact sample_world_reachable|].
  exact (reachable_accounts_well_formed unused_StringToNumber
           unused_NumberToString sample_world sample_world_reachable).
Defined.

Lemma sample_world_reachable_without_addBalance :
  reachable_without_addBalance unused_StringToNumber unused_NumberToString
    sample_world.
Proof.
  exact (reach0_post_accounts unused_StringToNumber unused_NumberToString
           no_faults sample_draw (lit "1234567890") (lit "2029") (lit "123")
           sample_account_body (mkWorld [] [] [])
           (reach0_empty unused_StringToNumber unused_NumberToString)).
Qed.

(** X6 on the sample world. *)
Lemma reachable_without_addBalance_nonnegative_witness :
  reachable_without_addBalance unused_StringToNumber unused_NumberToString
    sample_world
  /\ balances_nonnegative sample_world.
Proof.
  split; [exact sample_world_reachable_without_addBalance|].
  exact (reachable_without_addBalance_nonnegative unused_StringToNumber
           unused_NumberToString sample_world
           sample_world_reachable_without_addBalance).
Defined.

(** X7 on the entry of a payment of 40 from the sample account. *)
Lemma reachable_ledger_well_formed_witness :
  reachable unused_StringToNumber unused_NumberToString sample_world_paid
  /\ In sample_entry (transactions sample_world_paid)
  /\ entry_well_formed sample_entry.
Proof.
  assert (Hin : In sample_entry (transactions sample_world_paid))
    by (left; reflexivity).
  split; [exact sample_world_paid_reachable|]. split; [exact Hin|].
  exact (reachable_ledger_well_formed unused_StringToNumber
           unused_NumberToString sample_world_paid
           sample_world_paid_reachable sample_entry Hin).
Defined.

(** X8 on the creation of the sample account. *)
Lemma post_accounts_then_get_witness :
  post_accounts unused_NumberToString no_faults sample_draw
    (lit "1234567890") (lit "2029") (lit "123") sample_account_body
    (mkWorld [] [] [])
  = (Normal (mkResponse 201 (Account_toObject sample_account)), sample_world)
  /\ findOne_throws no_faults = false
  /\ exists account,
       Account_toObject sample_account = Account_toObject account
       /\ accounts sample_world = [] ++ [account]
       /\ taken (Account.accountNumber account) (mkWorld [] [] []) = false
       /\ get_account no_faults (Account.accountNumber account) sample_world
          = (mkResponse 200 (Account_toObject sample_account), sample_world).
Proof.
  split; [exact sample_world_created|]. split; [reflexivity|].
  exact (post_accounts_then_get unused_NumberToString no_faults no_faults
           sample_draw (lit "1234567890") (lit "2029") (lit "123")
           sample_account_body (mkWorld [] [] [])
           (mkResponse 201 (Account_toObject sample_account)) sample_world
           sample_world_created eq_refl eq_refl).
Defined.

(** X9 on an adjustment of the sample account to 250 MXN. *)
Lemma patch_account_then_get_witness :
  let body := PatchBody.mk (VString (lit "MXN")) (VNumber 250) VUndefined in
  findOne_throws no_faults = false
  /\ statusCode
       (fst (patch_account unused_StringToNumber unused_NumberToString
               no_faults (lit "001-00000042") body sample_world)) = 200%N
  /\ let (r, w') :=
       patch_account unused_StringToNumber unused_NumberToString
         no_faults (lit "001-00000042") body sample_world in
     get_account no_faults (lit "001-00000042") w' = (r, w').
Proof.
  intros body.
  pose proof (patch_account_then_get unused_StringToNumber
                unused_NumberToString no_faults no_faults
                (lit "001-00000042") body sample_world eq_refl) as H.
  assert (Hok : statusCode
                  (fst (patch_account unused_StringToNumber
                          unused_NumberToString no_faults
                          (lit "001-00000042") body sample_world)) = 200%N)
    by reflexivity.
  split; [reflexivity|]. split; [exact Hok|].
  destruct (patch_account unused_StringToNumber unused_NumberToString
              no_faults (lit "001-00000042") body sample_world) as [r w'].
  exact (H Hok).
Defined.

(** X10 on a payment of 40 from the sample account. *)
Lemma payment_then_get_witness :
  account_numbers_unique sample_world
  /\ findOne_throws no_faults = false
  /\ decided
       (fst (route_payment unused_StringToNumber unused_NumberToString
               no_faults 1700000000000 (ByAccountNumber (sample_payment 40))
               sample_world)) = true
  /\ let (r, w') :=
       route_payment unused_StringToNumber unused_NumberToString
         no_faults 1700000000000 (ByAccountNumber (sample_payment 40))
         sample_world in
     exists account,
       response_field "accountNumber" r
       = Some (JString (Account.accountNumber account))
       /\ response_field "remainingBalance" r
          = Some (JNumber (Account.balance account))
       /\ get_account no_faults (Account.accountNumber account) w'
          = (mkResponse 200 (Account_toObject account), w').
Proof.
  pose proof (payment_then_get unused_StringToNumber unused_NumberToString
                no_faults no_faults 1700000000000
                (ByAccountNumber (sample_payment 40)) sample_world
                sample_world_numbers_unique eq_refl) as H.
  assert (Hdecided :
            decided
              (fst (route_payment unused_StringToNumber unused_NumberToString
                      no_faults 1700000000000
                      (ByAccountNumber (sample_payment 40)) sample_world))
            = true) by reflexivity.
  split; [exact sample_world_numbers_unique|]. split; [reflexivity|].
  split; [exact Hdecided|].
  destruct (route_payment unused_StringToNumber unused_NumberToString
              no_faults 1700000000000 (ByAccountNumber (sample_payment 40))
              sample_world) as [r w'].
  exact (H Hdecided).
Defined.

(** X11 on the deletion of the sample account. *)
Lemma delete_account_then_get_witness :
  statusCode (fst (delete_account no_faults (lit "001-00000042")
                     sample_world_paid)) = 200%N
  /\ account_numbers_unique sample_world_paid
  /\ let (r, w') :=
       delete_account no_faults (lit "001-00000042") sample_world_paid in
     transactions w' = [sample_entry]
     /\ taken (lit "001-00000042") w' = false
     /\ get_account no_faults (lit "001-00000042") w'
        = (message_response 404 msg_account_not_found, w')
     /\ delete_account no_faults (lit "001-00000042") w'
        = (message_response 404 msg_account_not_found, w').
Proof.
  pose proof (delete_account_then_get no_faults no_faults
                (lit "001-00000042") sample_world_paid) as H.
  assert (Hok : statusCode (fst (delete_account no_faults
                                   (lit "001-00000042") sample_world_paid))
                = 200%N) by reflexivity.
  assert (Hunique : account_numbers_unique sample_world_paid).
  { unfold account_numbers_unique. simpl.
    constructor; [intros [] | constructor]. }
  split; [exact Hok|]. split; [exact Hunique|].
  destruct (delete_account no_faults (lit "001-00000042") sample_world_paid)
    as [r w'].
  destruct (H Hok) as (_ & Hledger & Hgone).
  destruct (Hgone Hunique) as (Htaken & Hget & Hdelete).
  split; [exact Hledger|]. split; [exact Htaken|].
  split; [exact (Hget eq_refl) | exact (Hdelete eq_refl)].
Defined.

(** X12 on a payment of 40 from the sample account. *)
Lemma payment_changes_one_balance_witness :
  has_status approved
    (fst (route_payment unused_StringToNumber unused_NumberToString
            no_faults 1700000000000 (ByAccountNumber (sample_payment 40))
            sample_world)) = true
  /\ let (r, w') :=
       route_payment unused_StringToNumber unused_NumberToString
         no_faults 1700000000000 (ByAccountNumber (sample_payment 40))
         sample_world in
     exists i found,
       find_from 0
         (payment_query unused_NumberToString
            (ByAccountNumber (sample_payment 40)))
         (accounts sample_world) = Some (i, found)
       /\ nth_error (accounts w') i
          = Some (Account.mk
                    (Account.accountNumber found) (Account.ownerName found)
                    (Account.balance found - 40)%float
                    (Account.currency found) (Account.card found))
       /\ List.length (accounts w') = List.length (accounts sample_world)
       /\ forall j, j <> i ->
            nth_error (accounts w') j = nth_error (accounts sample_world) j.
Proof.
  pose proof (payment_changes_one_balance unused_StringToNumber
                unused_NumberToString no_faults 1700000000000
                (ByAccountNumber (sample_payment 40)) sample_world) as H.
  assert (Hok : has_status approved
                  (fst (route_payment unused_StringToNumber
                          unused_NumberToString no_faults 1700000000000
                          (ByAccountNumber (sample_payment 40))
                          sample_world)) = true) by reflexivity.
  split; [exact Hok|].
  destruct (route_payment unused_StringToNumber unused_NumberToString
              no_faults 1700000000000 (ByAccountNumber (sample_payment 40))
              sample_world) as [r w'].
  exact (proj2 H Hok).
Defined.

(** X13 on an adjustment of the sample account to 250 MXN. *)
Lemma patch_account_changes_one_account_witness :
  let body := PatchBody.mk (VString (lit "MXN")) (VNumber 250) VUndefined in
  statusCode
    (fst (patch_account unused_StringToNumber unused_NumberToString
            no_faults (lit "001-00000042") body sample_world)) = 200%N
  /\ let (r, w') :=
       patch_account unused_StringToNumber unused_NumberToString
         no_faults (lit "001-00000042") body sample_world in
     exists i found account,
       find_from 0 (by_accountNumber (lit "001-00000042"))
                 (accounts sample_world) = Some (i, found)
       /\ nth_error (accounts w') i = Some account
       /\ payload r = Account_toObject account
       /\ Account.accountNumber account = Account.accountNumber found
       /\ Account.ownerName account = Account.ownerName found
       /\ Account.card account = Account.card found.
Proof.
  intros body.
  pose proof (patch_account_changes_one_account unused_StringToNumber
                unused_NumberToString no_faults (lit "001-00000042") body
                sample_world) as H.
  assert (Hok : statusCode
                  (fst (patch_account unused_StringToNumber
                          unused_NumberToString no_faults
                          (lit "001-00000042") body sample_world)) = 200%N)
    by reflexivity.
  split; [exact Hok|].
  destruct (patch_account unused_StringToNumber unused_NumberToString
              no_faults (lit "001-00000042") body sample_world) as [r w'].
  destruct (proj2 H Hok)
    as (i & found & account & H1 & H2 & H3 & H4 & H5 & H6 & _).
  exists i, found, account. auto 10.
Defined.

(** X14 on a payment from the sample account followed by the deletion of
    the account: the payment's entry stays in the ledger. *)
Lemma ledger_append_only_witness :
  served_in_turn unused_StringToNumber unused_NumberToString
    sample_world (mkWorld [] [sample_entry] [])
  /\ exists new,
       [sample_entry] = transactions sample_world ++ new
       /\ forall i entry,
            nth_error (transactions sample_world) i = Some entry ->
            nth_error [sample_entry] i = Some entry.
Proof.
  assert (Hserved :
    served_in_turn unused_StringToNumber unused_NumberToString
      sample_world (mkWorld [] [sample_entry] [])).
  { apply (served_next _ _ _ sample_world_paid).
    - apply (served_next _ _ _ sample_world); [apply served_none|].
      exact (served_payment unused_StringToNumber unused_NumberToString
               no_faults 1700000000000 (ByAccountNumber (sample_payment 40))
               sample_world).
    - exact (served_delete_account unused_StringToNumber
               unused_NumberToString no_faults (lit "001-00000042")
               sample_world_paid). }
  split; [exact Hserved|].
  exact (ledger_append_only unused_StringToNumber unused_NumberToString
           sample_world (mkWorld [] [sample_entry] []) Hserved).
Defined.

(** X15 on a payment of 40 from the sample account. *)
Lemma payment_entry_matches_response_witness :
  let (r, w') :=
    route_payment unused_StringToNumber unused_NumberToString
      no_faults 1700000000000 (ByAccountNumber (sample_payment 40))
      sample_world in
  transactions w' = transactions sample_world ++ [sample_entry]
  /\ decided r = true
  /\ Transaction.type sample_entry = debit
  /\ Transaction.source sample_entry
     = payment_source (ByAccountNumber (sample_payment 40))
  /\ response_field "transactionId" r
     = option_map JString (Transaction.transactionId sample_entry)
  /\ response_field "amount" r
     = Some (JNumber (Transaction.amount sample_entry))
  /\ response_field "accountNumber" r
     = Some (JString (Transaction.accountNumber sample_entry))
  /\ response_field "remainingBalance" r
     = Some (JNumber (Transaction.balanceAfter sample_entry)).
Proof.
  pose proof (payment_entry_matches_response unused_StringToNumber
                unused_NumberToString no_faults 1700000000000
                (ByAccountNumber (sample_payment 40)) sample_world) as H.
  rewrite sample_world_paid_run in *.
  assert (Hentry : transactions sample_world_paid
                   = transactions sample_world ++ [sample_entry])
    by reflexivity.
  split; [exact Hentry | exact (H sample_entry Hentry)].
Defined.

(** X16 on two payments from the sample account one millisecond apart. *)
Lemma transactionId_names_route_and_clock_witness :
  let r1 :=
    fst (route_payment unused_StringToNumber unused_NumberToString
           no_faults 1700000000000 (ByAccountNumber (sample_payment 40))
           sample_world) in
  let r2 :=
    fst (route_payment unused_StringToNumber unused_NumberToString
           no_faults 1700000000001 (ByAccountNumber (sample_payment 40))
           sample_world) in
  decided r1 = true
  /\ decided r2 = true
  /\ (response_field "transactionId" r1 = response_field "transactionId" r2
      <-> 1700000000000%N = 1700000000001%N
          /\ payment_source (ByAccountNumber (sample_payment 40))
             = payment_source (ByAccountNumber (sample_payment 40))).
Proof.
  intros r1 r2.
  split; [reflexivity|]. split; [reflexivity|].
  exact (transactionId_names_route_and_clock unused_StringToNumber
           unused_NumberToString no_faults no_faults
           1700000000000 1700000000001
           (ByAccountNumber (sample_payment 40))
           (ByAccountNumber (sample_payment 40))
           sample_world sample_world eq_refl eq_refl).
Defined.

(** X18 on the creation of the sample account: the first candidate, 42, is
    free. *)
Lemma post_accounts_first_free_number_witness :
  fst (post_accounts unused_NumberToString no_faults sample_draw
         (lit "1234567890") (lit "2029") (lit "123") sample_account_body
         (mkWorld [] [] []))
  = Normal (mkResponse 201 (Account_toObject sample_account))
  /\ exists k,
       k < 10
       /\ response_field "accountNumber"
            (mkResponse 201 (Account_toObject sample_account))
          = Some (JString (candidate sample_draw k))
       /\ taken (candidate sample_draw k) (mkWorld [] [] []) = false
       /\ forall j, j < k ->
            taken (candidate sample_draw j) (mkWorld [] [] []) = true.
Proof.
  assert (Hrun :
    fst (post_accounts unused_NumberToString no_faults sample_draw
           (lit "1234567890") (lit "2029") (lit "123") sample_account_body
           (mkWorld [] [] []))
    = Normal (mkResponse 201 (Account_toObject sample_account)))
    by reflexivity.
  split; [exact Hrun|].
  exact (proj1 (post_accounts_first_free_number unused_NumberToString no_faults
                  sample_draw (lit "1234567890") (lit "2029") (lit "123")
                  sample_account_body (mkWorld [] [] [])
                  (mkResponse 201 (Account_toObject sample_account)) Hrun)
               eq_refl).
Defined.

(** X19 on the creation of the sample account. *)
Lemma post_accounts_number_format_witness :
  (forall i, (sample_draw i < 100000000)%N)
  /\ fst (post_accounts unused_NumberToString no_faults sample_draw
            (lit "1234567890") (lit "2029") (lit "123") sample_account_body
            (mkWorld [] [] []))
     = Normal (mkResponse 201 (Account_toObject sample_account))
  /\ exists digits,
       response_field "accountNumber"
         (mkResponse 201 (Account_toObject sample_account))
       = Some (JString (lit "001-" ++ digits))
       /\ List.length digits = 8
       /\ Forall (fun c => is_digit c = true) digits.
Proof.
  assert (Hdraw : forall i, (sample_draw i < 100000000)%N)
    by (intros i; reflexivity).
  assert (Hrun :
    fst (post_accounts unused_NumberToString no_faults sample_draw
           (lit "1234567890") (lit "2029") (lit "123") sample_account_body
           (mkWorld [] [] []))
    = Normal (mkResponse 201 (Account_toObject sample_account)))
    by reflexivity.
  split; [exact Hdraw|]. split; [exact Hrun|].
  exact (post_accounts_number_format unused_NumberToString no_faults
           sample_draw (lit "1234567890") (lit "2029") (lit "123")
           sample_account_body (mkWorld [] [] [])
           (mkResponse 201 (Account_toObject sample_account))
           Hdraw Hrun eq_refl).
Defined.

(** X21 on payments of 60 and 70 from the sample account, whose balance is
    100: both are approved and the balance left is 30. *)
Lemma interleaved_payments_lose_a_debit_witness :
  resolves_to unused_NumberToString (ByAccountNumber (sample_payment 60))
    sample_world 0 sample_account
  /\ resolves_to unused_NumberToString (ByAccountNumber (sample_payment 70))
       sample_world 0 sample_account
  /\ gt 60 100 = false
  /\ gt 70 100 = false
  /\ let (tasks, w') :=
       run unused_StringToNumber unused_NumberToString no_faults
           [0; 1; 0; 1; 0; 1]
           [Received 1700000000000 (sample_payment 60);
            Received 1700000000001 (sample_payment 70)] sample_world in
     exists r1 r2,
       tasks = [Responded r1; Responded r2]
       /\ has_status approved r1 = true
       /\ has_status approved r2 = true
       /\ response_field "remainingBalance" r1 = Some (JNumber 40)
       /\ response_field "remainingBalance" r2 = Some (JNumber 30)
       /\ stored_balance 0 w' = Some 30%float.
Proof.
  assert (H1 : resolves_to unused_NumberToString
                 (ByAccountNumber (sample_payment 60))
                 sample_world 0 sample_account)
    by (split; reflexivity).
  assert (H2 : resolves_to unused_NumberToString
                 (ByAccountNumber (sample_payment 70))
                 sample_world 0 sample_account)
    by (split; reflexivity).
  split; [exact H1|]. split; [exact H2|].
  split; [reflexivity|]. split; [reflexivity|].
  exact (interleaved_payments_lose_a_debit unused_StringToNumber
           unused_NumberToString no_faults 1700000000000 1700000000001
           (sample_payment 60) (sample_payment 70) sample_world 0
           sample_account eq_refl eq_refl H1 H2
           eq_refl eq_refl eq_refl eq_refl eq_refl eq_refl).
Defined.

(** X22 on an adjustment of an account the store does not hold. *)
Lemma failed_request_stores_nothing_witness :
  answered unused_StringToNumber unused_NumberToString sample_world
    (message_response 404 msg_account_not_found) sample_world
  /\ In 404%N [200; 201; 400; 404; 500]%N
  /\ (400%N = 400%N \/ 404%N = 404%N -> sample_world = sample_world).
Proof.
  assert (H : answered unused_StringToNumber unused_NumberToString
                sample_world (message_response 404 msg_account_not_found)
                sample_world).
  { apply (answered_patch_account unused_StringToNumber
             unused_NumberToString no_faults (lit "001-00000007")
             (PatchBody.mk VUndefined (VNumber 5) VUndefined)).
    reflexivity. }
  split; [exact H|].
  destruct (failed_request_stores_nothing unused_StringToNumber
              unused_NumberToString _ _ _ H) as (Hcode & _ & Hsame).
  split; [exact Hcode|].
  intros _. exact (Hsame (or_intror eq_refl)).
Defined.

(** X23 on a payment of 40 in EUR from the sample account, which is held
    in USD: the entry is in EUR, and the description recorded is not the
    description reported. *)
Lemma payment_currency_and_description_witness :
  let (r, w') :=
    route_payment unused_StringToNumber unused_NumberToString
      no_faults 1700000000000 (ByAccountNumber sample_payment_eur)
      sample_world in
  transactions w' = transactions sample_world ++ [sample_entry_eur]
  /\ includes allowedCurrencies (lit "EUR") = false
  /\ response_field "currency" r = Some (JValue (VString (lit "EUR")))
  /\ Transaction.currency sample_entry_eur = VString (lit "EUR")
  /\ response_field "description" r
     <> Some (JValue (Transaction.description sample_entry_eur)).
Proof.
  pose proof (payment_currency_and_description unused_StringToNumber
                unused_NumberToString no_faults 1700000000000
                (ByAccountNumber sample_payment_eur) sample_world) as H.
  assert (Hentry :
    transactions
      (snd (route_payment unused_StringToNumber unused_NumberToString
              no_faults 1700000000000 (ByAccountNumber sample_payment_eur)
              sample_world))
    = transactions sample_world ++ [sample_entry_eur]) by reflexivity.
  destruct (route_payment unused_StringToNumber unused_NumberToString
              no_faults 1700000000000 (ByAccountNumber sample_payment_eur)
              sample_world) as [r w'].
  cbn [snd] in Hentry.
  destruct (H sample_entry_eur Hentry)
    as (Hcurrency & Hsent & _ & _ & Hdescription).
  split; [exact Hentry|]. split; [reflexivity|].
  split; [exact Hcurrency|]. split; [exact (Hsent eq_refl)|].
  exact (Hdescription eq_refl).
Defined.

(** X24 on the sample card. *)
Lemma generateCardForAccount_card_witness :
  List.length (lit "1234567890") = 10
  /\ 2 <= List.length (lit "2029")
  /\ Card.cardNumber sample_card = lit "411111" ++ lit "1234567890"
  /\ List.length (Card.cardNumber sample_card) = 16
  /\ slice_last 4 (Card.cardNumber sample_card)
     = slice_last 4 (lit "1234567890")
  /\ Card.expMonth sample_card = lit "12"
  /\ List.length (Card.expYear sample_card) = 2
  /\ Card.cvv sample_card = lit "123".
Proof.
  assert (Hyear : 2 <= List.length (lit "2029")) by (simpl; lia).
  split; [reflexivity|]. split; [exact Hyear|].
  exact (generateCardForAccount_card (lit "1234567890") (lit "2029")
           (lit "123") eq_refl Hyear).
Defined.

(** X25 on a payment of 40 from the sample account just created. *)
Lemma created_account_pays_witness :
  post_accounts unused_NumberToString no_faults sample_draw
    (lit "1234567890") (lit "2029") (lit "123") sample_account_body
    (mkWorld [] [] [])
  = (Normal (mkResponse 201 (Account_toObject sample_account)), sample_world)
  /\ Number_isFinite 40 = true
  /\ gt 40 0 = true
  /\ exists account,
       Account_toObject sample_account = Account_toObject account
       /\ nth_error (accounts sample_world) 0 = Some account
       /\ let (r2, w2) :=
            post_payments unused_StringToNumber unused_NumberToString
              no_faults 1700000000000
              (PaymentBody.mk (VString (Account.accountNumber account))
                              (VNumber 40) VUndefined VUndefined VUndefined)
              sample_world in
          if gt 40 (Account.balance account)
          then has_status declined r2 = true
               /\ accounts w2 = accounts sample_world
          else has_status approved r2 = true
               /\ accounts w2
                  = [] ++ [Account.set_balance
                             (Account.balance account - 40)%float account].
Proof.
  split; [exact sample_world_created|]. split; [reflexivity|].
  split; [reflexivity|].
  exact (created_account_pays unused_StringToNumber unused_NumberToString
           no_faults no_faults sample_draw (lit "1234567890") (lit "2029")
           (lit "123") sample_account_body (mkWorld [] [] [])
           (mkResponse 201 (Account_toObject sample_account)) sample_world
           1700000000000 (VNumber 40)
           sample_world_created eq_refl eq_refl eq_refl eq_refl eq_refl).
Defined.

(** X27 on [{ balance: null }] for the sample account: the balance becomes
    0 and the ledger stays empty. *)
Lemma patch_account_stores_number_witness :
  find_from 0 (by_accountNumber (lit "001-00000042")) (accounts sample_world)
  = Some (0, sample_account)
  /\ is_undefined VNull = false
  /\ Number_isFinite 0 = true
  /\ (0 <? 0)%float = false
  /\ let (r, w') :=
       patch_account unused_StringToNumber unused_NumberToString no_faults
         (lit "001-00000042") (PatchBody.mk VUndefined VNull VUndefined)
         sample_world in
     statusCode r = 200%N
     /\ stored_balance 0 w' = Some 0%float
     /\ response_field "balance" r = Some (JNumber 0)
     /\ transactions w' = transactions sample_world.
Proof.
  split; [reflexivity|]. split; [reflexivity|]. split; [reflexivity|].
  split; [reflexivity|].
  exact (patch_account_stores_number unused_StringToNumber
           unused_NumberToString no_faults (lit "001-00000042") VNull
           sample_world 0 sample_account
           eq_refl eq_refl eq_refl eq_refl eq_refl eq_refl).
Defined.

(** The order of the listings below: the reverse of the order of
    insertion. *)
Lemma rev_permutation {A} (l : list A) : Permutation.Permutation (rev l) l.
Proof.
  apply Permutation.Permutation_sym, Permutation.Permutation_rev.
Qed.

(** X28 on the history of the sample account after a payment of 40. *)
Lemma get_transactions_lists_witness :
  (forall l : list Transaction.t, Permutation.Permutation (rev l) l)
  /\ get_transactions false (@rev Transaction.t) (lit "001-00000042")
       sample_world_paid
     = (Listed [sample_entry], sample_world_paid)
  /\ let (r, w') :=
       get_transactions false (@rev Transaction.t) (lit "001-00000042")
         sample_world_paid in
     exists docs,
       r = Listed docs
       /\ List.length docs <= 50
       /\ (forall e, In e docs ->
             In e (transactions sample_world_paid)
             /\ Transaction.accountNumber e = lit "001-00000042")
       /\ (List.length
             (filter (entry_of (lit "001-00000042"))
                     (transactions sample_world_paid)) <= 50 ->
           Permutation.Permutation docs
             (filter (entry_of (lit "001-00000042"))
                     (transactions sample_world_paid))).
Proof.
  split; [exact rev_permutation|]. split; [reflexivity|].
  pose proof (get_transactions_lists false (@rev Transaction.t)
                (lit "001-00000042") sample_world_paid rev_permutation) as H.
  destruct (get_transactions false (@rev Transaction.t) (lit "001-00000042")
              sample_world_paid) as [r w'].
  destruct H as (_ & _ & Hlisted & _).
  destruct (Hlisted eq_refl) as (_ & _ & Hdocs). exact Hdocs.
Defined.

(** X29 on a payment of 40 from the sample account. *)
Lemma payment_listed_in_history_witness :
  (forall l : list Transaction.t, Permutation.Permutation (rev l) l)
  /\ List.length
       (filter (entry_of (Transaction.accountNumber sample_entry))
               (transactions sample_world)) < 50
  /\ let (r, w') :=
       route_payment unused_StringToNumber unused_NumberToString
         no_faults 1700000000000 (ByAccountNumber (sample_payment 40))
         sample_world in
     transactions w' = transactions sample_world ++ [sample_entry]
     /\ response_field "accountNumber" r
        = Some (JString (Transaction.accountNumber sample_entry))
     /\ exists docs,
          fst (get_transactions false (@rev Transaction.t)
                 (Transaction.accountNumber sample_entry) w') = Listed docs
          /\ In sample_entry docs.
Proof.
  assert (Hfew : List.length
                   (filter (entry_of (Transaction.accountNumber sample_entry))
                           (transactions sample_world)) < 50)
    by (simpl; lia).
  split; [exact rev_permutation|]. split; [exact Hfew|].
  pose proof (payment_listed_in_history unused_StringToNumber
                unused_NumberToString no_faults 1700000000000
                (ByAccountNumber (sample_payment 40)) (@rev Transaction.t)
                sample_world rev_permutation) as H.
  rewrite sample_world_paid_run in *.
  assert (Hentry : transactions sample_world_paid
                   = transactions sample_world ++ [sample_entry])
    by reflexivity.
  split; [exact Hentry | exact (H sample_entry Hentry Hfew)].
Defined.

(** X30 on the sample world. *)
Lemma get_accounts_lists_witness :
  (forall l : list Account.t, Permutation.Permutation (rev l) l)
  /\ get_accounts false (@rev Account.t) sample_world
     = (Listed [Account_toObject sample_account], sample_world)
  /\ let (r, w') := get_accounts false (@rev Account.t) sample_world in
     exists docs,
       r = Listed docs
       /\ Permutation.Permutation docs
            (map Account_toObject (accounts sample_world)).
Proof.
  split; [exact rev_permutation|]. split; [reflexivity|].
  pose proof (get_accounts_lists false (@rev Account.t) sample_world
                rev_permutation) as H.
  destruct (get_accounts false (@rev Account.t) sample_world) as [r w'].
  destruct H as (_ & _ & Hlisted & _).
  destruct (Hlisted eq_refl) as (_ & Hdocs). exact Hdocs.
Defined.


(** ** Where the code leaves the specification *)

(** C2. [{ addBalance: -500 }] on the sample account, whose balance is 100:
    the adjustment succeeds and the stored balance is -400, which is not
    [>= 0].  The absolute set of the same balance is rejected as invalid,
    and a payment of 500 is declined. *)
Theorem C2_addBalance_overdraws :
  let (r, w') :=
    patch_account unused_StringToNumber unused_NumberToString no_faults
      (lit "001-00000042")
      (PatchBody.mk VUndefined VUndefined (VNumber (-500))) sample_world in
  statusCode r = 200%N
  /\ stored_balance 0 w' = Some (-400)%float
  /\ ge (-400) 0 = false
  /\ patch_account unused_StringToNumber unused_NumberToString no_faults
       (lit "001-00000042")
       (PatchBody.mk VUndefined (VNumber (-400)) VUndefined) sample_world
     = (message_response 400 msg_invalid_balance, sample_world)
  /\ has_status declined
       (fst (post_payments unused_StringToNumber unused_NumberToString
               no_faults 1700000000000 (sample_payment 500) sample_world))
     = true.
Proof.
  cbv zeta. vm_compute patch_account. vm_compute post_payments.
  repeat split.
Qed.

(** C4. Two payments of 100 against the sample account, whose balance is
    100, each reading the account before the other writes it: both are
    approved, the stored balance is 0, and the ledger holds two debits of
    100.  Run one after the other, the second is declined. *)
Theorem C4_interleaved_payments_both_approved :
  let first := Received 1700000000001 (sample_payment 100) in
  let second := Received 1700000000002 (sample_payment 100) in
  (let (tasks, w') :=
     run unused_StringToNumber unused_NumberToString no_faults
       [0; 1; 0; 1; 0; 1] [first; second] sample_world in
   map (responded_with approved) tasks = [true; true]
   /\ stored_balance 0 w' = Some 0%float
   /\ map Transaction.amount (transactions w') = [100%float; 100%float]
   /\ map Transaction.balanceAfter (transactions w') = [0%float; 0%float])
  /\ (let (tasks, w') :=
        run unused_StringToNumber unused_NumberToString no_faults
          [0; 0; 0; 1; 1; 1] [first; second] sample_world in
      map (responded_with approved) tasks = [true; false]
      /\ map (responded_with declined) tasks = [false; true]
      /\ stored_balance 0 w' = Some 0%float).
Proof.
  cbv zeta. vm_compute run. repeat split.
Qed.
